(** * The QA workflow and collaboration engine of the amendment system

    A shallow embedding of
      - [backend/app/models.py]      (the [QAStatus] enumeration and the columns
                                      of the tables that are used below),
      - [backend/app/qa_workflow.py] ([QAWorkflowValidator]),
      - [backend/app/crud.py]        (QA update, QA history, notifications,
                                      mentions, watchers, reactions, enhanced
                                      comment creation),
      - [backend/app/main.py]        (the transition-validation endpoint and
                                      the endpoints of notifications, watchers
                                      and reactions),
    followed by the properties of these functions.

    Conventions of the embedding.
      - Python [str] is [string], holding the UTF-8 encoding of the text (the
        way this file itself writes an arrow or a bullet inside a message).
        What the code does character by character ([str.strip], the class
        [\w] of the mention pattern, a slice, the [_] of [LIKE]) reads the
        characters off the bytes with [first_char]; [str.isspace] and [\w]
        are those of Python on the whole of Unicode. A byte string that is
        not well-formed UTF-8 encodes no text; its stray bytes are read as
        characters beyond the Unicode range, which belong to no class.
      - Python [int] is [Z]; a [datetime] is a [Z] time stamp; a nullable column
        or an [Optional] value is an [option].
      - A raised exception is the [Raise] result of the [result] type; a function
        that works on the database takes the store and returns the store next to
        its result. Every mutation in the modelled functions is committed before
        the next statement that can raise, so the store that is threaded through
        is the committed one. *)

From Stdlib Require Import ZArith Bool Ascii Lia.
From stdpp Require Import base option list gmap strings.

Local Open Scope Z_scope.

(* ===================================================================== *)
(** ** Python values: exceptions, truthiness, string helpers              *)
(* ===================================================================== *)

(** The exceptions met in the code. [IntegrityError orig] is the exception
    in which SQLAlchemy wraps the error [orig] of the driver; its own text
    shows [orig] between the name of the driver's exception and the statement
    with its parameters, which are not modelled. [ValueErrorFrom prefix cause]
    is the [ValueError] of [raise ValueError(prefix + str(e)) from e]: its
    message is [prefix] followed by the text of its cause. *)
Inductive exn : Type :=
  | ValueError (msg : string)
  | TypeError (msg : string)
  | AttributeError (msg : string)
  | HTTPException (status_code : Z) (detail : string)
  | OverflowError (msg : string)
  | IntegrityError (orig : string)
  | ValueErrorFrom (prefix : string) (cause : exn).

Inductive result (A : Type) : Type :=
  | Ok (a : A)
  | Raise (e : exn).
Arguments Ok {A} a.
Arguments Raise {A} e.

Definition rbind {A B : Type} (r : result A) (k : A -> result B) : result B :=
  match r with
  | Ok a => k a
  | Raise e => Raise e
  end.

Notation "x <-! r ; k" := (rbind r (fun x => k))
  (at level 100, r at next level, right associativity).

Definition datetime : Type := Z.

(** [bool(x)] for the kinds of attribute values the code tests. *)
Definition truthy_int (x : option Z) : bool :=
  match x with
  | Some n => negb (n =? 0)
  | None => false
  end.

Definition truthy_bool (x : option bool) : bool :=
  match x with
  | Some b => b
  | None => false
  end.

Definition truthy_datetime (x : option datetime) : bool :=
  match x with
  | Some _ => true
  | None => false
  end.

Definition str_is_empty (s : string) : bool :=
  match s with
  | EmptyString => true
  | String _ _ => false
  end.

Definition truthy_str (x : option string) : bool :=
  match x with
  | Some s => negb (str_is_empty s)
  | None => false
  end.

(** *** Texts and their characters *)

Definition code (c : ascii) : Z := Z.of_nat (nat_of_ascii c).

(** A continuation byte of UTF-8: 0x80..0xBF. *)
Definition continuation (c : ascii) : bool :=
  (128 <=? code c) && (code c <=? 191).

(** The first character of the text [String b rest]: its code point and the
    number of bytes that encode it. The sequences accepted are the
    well-formed ones of UTF-8 (shortest form, no surrogate, at most
    U+10FFFF); any other byte stands alone, as the character numbered
    0x110000 + b, outside Unicode. *)
Definition first_char (b : ascii) (rest : string) : Z * nat :=
  let n := code b in
  let stray := (1114112 + n, 1%nat) in
  if n <? 128 then (n, 1%nat)
  else if (194 <=? n) && (n <=? 223) then
    match rest with
    | String c1 _ =>
        if continuation c1
        then ((n - 192) * 64 + (code c1 - 128), 2%nat)
        else stray
    | EmptyString => stray
    end
  else if (224 <=? n) && (n <=? 239) then
    match rest with
    | String c1 (String c2 _) =>
        let cp := (n - 224) * 4096 + (code c1 - 128) * 64 + (code c2 - 128) in
        if continuation c1 && continuation c2 && (2048 <=? cp)
           && negb ((55296 <=? cp) && (cp <=? 57343))
        then (cp, 3%nat)
        else stray
    | _ => stray
    end
  else if (240 <=? n) && (n <=? 244) then
    match rest with
    | String c1 (String c2 (String c3 _)) =>
        let cp := (n - 240) * 262144 + (code c1 - 128) * 4096
                  + (code c2 - 128) * 64 + (code c3 - 128) in
        if continuation c1 && continuation c2 && continuation c3
           && (65536 <=? cp) && (cp <=? 1114111)
        then (cp, 4%nat)
        else stray
    | _ => stray
    end
  else stray.

(** The characters of a text, as code points. [skip] counts the bytes of the
    current character that are still to be passed over. *)
Fixpoint chars_from (skip : nat) (s : string) : list Z :=
  match s with
  | EmptyString => []
  | String b rest =>
      match skip with
      | S k => chars_from k rest
      | O => let '(c, n) := first_char b rest in c :: chars_from (pred n) rest
      end
  end.

Definition chars (s : string) : list Z := chars_from O s.

(** [str.isspace] on one character, which is what [str.strip] removes: the
    ASCII controls 0x09..0x0D and 0x1C..0x1F, the space, and the characters
    that Unicode classes as white space or as a line or paragraph
    separator: U+0085, U+00A0, U+1680, U+2000..U+200A, U+2028, U+2029,
    U+202F, U+205F and U+3000. *)
Definition is_space (c : Z) : bool :=
  ((9 <=? c) && (c <=? 13)) || ((28 <=? c) && (c <=? 32))
  || (c =? 133) || (c =? 160) || (c =? 5760)
  || ((8192 <=? c) && (c <=? 8202))
  || ((8232 <=? c) && (c <=? 8233)) || (c =? 8239) || (c =? 8287)
  || (c =? 12288).

Fixpoint lstrip (l : list Z) : list Z :=
  match l with
  | [] => []
  | c :: l' => if is_space c then lstrip l' else l
  end.

(** [rstrip] drops the trailing run of spaces: a character is kept when
    something remains after it once the rest has been stripped, or when it is
    not a space itself. *)
Fixpoint rstrip (l : list Z) : list Z :=
  match l with
  | [] => []
  | c :: l' =>
      match rstrip l' with
      | [] => if is_space c then [] else [c]
      | r => c :: r
      end
  end.

(** [s.strip()], as the characters that are left. *)
Definition strip (s : string) : list Z := rstrip (lstrip (chars s)).

(** ["sep".join(l)] *)
Fixpoint join (sep : string) (l : list string) : string :=
  match l with
  | [] => ""
  | [x] => x
  | x :: rest => x +:+ sep +:+ join sep rest
  end.

Definition newline : string := String (ascii_of_nat 10) EmptyString.

(* ===================================================================== *)
(** ** models.py: the QA status enumeration and the amendment's QA columns *)
(* ===================================================================== *)

Inductive QAStatus : Type :=
  | NOT_STARTED
  | ASSIGNED
  | IN_TESTING
  | BLOCKED
  | PASSED
  | FAILED.

Global Instance QAStatus_eq_dec : EqDecision QAStatus.
Proof. solve_decision. Defined.

Definition all_statuses : list QAStatus :=
  [NOT_STARTED; ASSIGNED; IN_TESTING; BLOCKED; PASSED; FAILED].

(** [status.value] *)
Definition value (s : QAStatus) : string :=
  match s with
  | NOT_STARTED => "Not Started"
  | ASSIGNED => "Assigned"
  | IN_TESTING => "In Testing"
  | BLOCKED => "Blocked"
  | PASSED => "Passed"
  | FAILED => "Failed"
  end.

(** [QAStatus(s)]: the member whose value is [s], in definition order;
    [ValueError] when there is none. *)
Definition QAStatus_of (s : string) : result QAStatus :=
  match find (fun m => String.eqb (value m) s) all_statuses with
  | Some m => Ok m
  | None => Raise (ValueError ("'" +:+ s +:+ "' is not a valid QAStatus"))
  end.

Record Amendment : Type := mkAmendment {
  amendment_id : Z;
  qa_status : string;
  qa_assigned_id : option Z;
  qa_assigned_date : option datetime;
  qa_started_date : option datetime;
  qa_test_plan_check : option bool;
  qa_test_release_notes_check : option bool;
  qa_completed : option bool;
  qa_signature : option string;
  qa_completed_date : option datetime;
  qa_notes : option string;
  qa_test_plan_link : option string;
  qa_blocked_reason : option string;
  modified_by : option string;
}.

(* ===================================================================== *)
(** ** qa_workflow.py: QAWorkflowValidator                                *)
(* ===================================================================== *)

Definition VALID_TRANSITIONS (s : QAStatus) : list QAStatus :=
  match s with
  | NOT_STARTED => [ASSIGNED]
  | ASSIGNED => [IN_TESTING]
  | IN_TESTING => [BLOCKED; PASSED; FAILED]
  | BLOCKED => [IN_TESTING; FAILED]
  | PASSED => [IN_TESTING]
  | FAILED => [IN_TESTING]
  end.

(** [to_enum in allowed_transitions] *)
Definition status_in (s : QAStatus) (l : list QAStatus) : bool :=
  bool_decide (s ∈ l).

Definition can_transition (from_status to_status : string) : bool :=
  match QAStatus_of from_status with
  | Raise _ => false
  | Ok from_enum =>
      match QAStatus_of to_status with
      | Raise _ => false
      | Ok to_enum =>
          if bool_decide (from_enum = to_enum) then true
          else status_in to_enum (VALID_TRANSITIONS from_enum)
      end
  end.

Definition blocker_test_plan : string := "Test plan must be checked".
Definition blocker_release_notes : string := "Release notes must be checked".
Definition blocker_started : string :=
  "QA testing must be started before marking as Passed".
Definition blocker_notes : string :=
  "QA notes are required (document what was tested and results)".

(** [not s or not s.strip()] for an optional text attribute. *)
Definition blank (x : option string) : bool :=
  negb (truthy_str x)
  || match x with
     | Some s => match strip s with [] => true | _ :: _ => false end
     | None => true
     end.

Definition _check_completion_blockers (a : Amendment) : list string :=
  (if negb (truthy_bool (qa_test_plan_check a)) then [blocker_test_plan] else [])
  ++ (if negb (truthy_bool (qa_test_release_notes_check a))
      then [blocker_release_notes] else [])
  ++ (if negb (truthy_datetime (qa_started_date a)) then [blocker_started] else [])
  ++ (if blank (qa_notes a) then [blocker_notes] else []).

Definition can_complete_qa (a : Amendment) : bool * list string :=
  let blockers := _check_completion_blockers a in
  (Nat.eqb (length blockers) 0, blockers).

Definition passed_header : string :=
  "Cannot mark as Passed. The following requirements must be met:" +:+ newline.

Definition bullet (blocker : string) : string := "  • " +:+ blocker.

Definition passed_error (blockers : list string) : string :=
  passed_header +:+ join newline (map bullet blockers).

Definition err_assigned : string :=
  "Cannot assign QA: No QA tester assigned. Please assign a QA tester first.".
Definition err_testing_tester : string :=
  "Cannot start testing: No QA tester assigned.".
Definition err_testing_date : string :=
  "Cannot start testing: QA assignment date not set.".
Definition err_blocked : string :=
  "Cannot mark as Blocked: Please provide a reason for blocking.".

(** [new_status_enum == m] *)
Definition is_status (s m : QAStatus) : bool := bool_decide (s = m).

(** The checks run in the order of the source; each one returns its message
    when it fails, and the final [return None] is reached otherwise. *)
Definition _validate_transition_requirements
    (a : Amendment) (new_status : string) : result (option string) :=
  new_status_enum <-! QAStatus_of new_status;
  let blockers := _check_completion_blockers a in
  Ok (if is_status new_status_enum ASSIGNED
         && negb (truthy_int (qa_assigned_id a))
      then Some err_assigned
      else if is_status new_status_enum IN_TESTING
              && negb (truthy_int (qa_assigned_id a))
      then Some err_testing_tester
      else if is_status new_status_enum IN_TESTING
              && negb (truthy_datetime (qa_assigned_date a))
      then Some err_testing_date
      else if is_status new_status_enum PASSED
              && negb (Nat.eqb (length blockers) 0)
      then Some (passed_error blockers)
      else if is_status new_status_enum BLOCKED
              && blank (qa_blocked_reason a)
      then Some err_blocked
      else None).

Definition workflow_path : string :=
  "Not Started → Assigned → In Testing → Passed/Failed/Blocked".

Definition invalid_transition_error (current_status new_status : string) : string :=
  "Invalid status transition: " +:+ current_status +:+ " → " +:+ new_status
  +:+ ". " +:+ "Follow the workflow: " +:+ workflow_path.

Definition validate_transition
    (a : Amendment) (new_status : string) : result (bool * option string) :=
  let current_status := qa_status a in
  if negb (can_transition current_status new_status)
  then Ok (false, Some (invalid_transition_error current_status new_status))
  else
    error <-! _validate_transition_requirements a new_status;
    if truthy_str error then Ok (false, error) else Ok (true, None).

Definition get_next_allowed_statuses (current_status : string) : list string :=
  match QAStatus_of current_status with
  | Raise _ => []
  | Ok status_enum => map value (VALID_TRANSITIONS status_enum)
  end.

Definition validate_qa_status_change := validate_transition.
Definition get_allowed_qa_statuses := get_next_allowed_statuses.

(* ===================================================================== *)
(** ** models.py: the tables of the collaboration engine                  *)
(* ===================================================================== *)

(** A value read from a column, as SQL sees it. *)
Inductive sqlval : Type :=
  | VNull
  | VInt (n : Z)
  | VText (s : string)
  | VBool (b : bool).

Definition of_text (x : option string) : sqlval :=
  match x with Some s => VText s | None => VNull end.
Definition of_bool (x : option bool) : sqlval :=
  match x with Some b => VBool b | None => VNull end.
Definition of_datetime (x : option datetime) : sqlval :=
  match x with Some t => VInt t | None => VNull end.

Module Employee.
Record t : Type := mk {
  employee_id : Z;
  employee_name : string;
  initials : option string;
  email : option string;
  windows_login : option string;
  is_active : option bool;
  role : string;
  password_hash : option string;
  last_login : option datetime;
  created_on : datetime;
  modified_on : datetime;
}.

(** The mapped columns of the class, in the order of their declaration. *)
Inductive column : Type :=
  | c_employee_id | c_employee_name | c_initials | c_email | c_windows_login
  | c_is_active | c_role | c_password_hash | c_last_login | c_created_on
  | c_modified_on.

Definition columns : list (string * column) :=
  [ ("employee_id", c_employee_id); ("employee_name", c_employee_name);
    ("initials", c_initials); ("email", c_email);
    ("windows_login", c_windows_login); ("is_active", c_is_active);
    ("role", c_role); ("password_hash", c_password_hash);
    ("last_login", c_last_login); ("created_on", c_created_on);
    ("modified_on", c_modified_on) ].

(** [Employee.<name>] used in a query expression: the column of that name,
    [AttributeError] when the class declares none. *)
Definition attr (name : string) : result column :=
  match find (fun p => String.eqb (fst p) name) columns with
  | Some p => Ok (snd p)
  | None =>
      Raise (AttributeError
               ("type object 'Employee' has no attribute '" +:+ name +:+ "'"))
  end.

Definition get (c : column) (e : t) : sqlval :=
  match c with
  | c_employee_id => VInt (employee_id e)
  | c_employee_name => VText (employee_name e)
  | c_initials => of_text (initials e)
  | c_email => of_text (email e)
  | c_windows_login => of_text (windows_login e)
  | c_is_active => of_bool (is_active e)
  | c_role => VText (role e)
  | c_password_hash => of_text (password_hash e)
  | c_last_login => of_datetime (last_login e)
  | c_created_on => VInt (created_on e)
  | c_modified_on => VInt (modified_on e)
  end.
End Employee.

Module QAHistory.
Record t : Type := mk {
  history_id : Z;
  amendment_id : Z;
  action : string;
  field_name : option string;
  old_value : option string;
  new_value : option string;
  comment : option string;
  changed_by_id : option Z;
}.
End QAHistory.

Module QANotification.
Record t : Type := mk {
  notification_id : Z;
  employee_id : Z;
  notification_type : string;
  title : string;
  message : option string;
  amendment_id : option Z;
  defect_id : option Z;
  is_read : option bool;
  is_email_sent : option bool;
  read_on : option datetime;
}.
End QANotification.

(** schemas.py: [QANotificationCreate] *)
Module QANotificationCreate.
Record t : Type := mk {
  notification_type : string;
  title : string;
  message : option string;
  amendment_id : option Z;
  defect_id : option Z;
  employee_id : Z;
  is_email_sent : bool;
}.
End QANotificationCreate.

Module QAComment.
Record t : Type := mk {
  comment_id : Z;
  amendment_id : Z;
  employee_id : Z;
  parent_comment_id : option Z;
  comment_text : string;
  comment_type : string;
  is_edited : option bool;
}.
End QAComment.

Module CommentMention.
Record t : Type := mk {
  mention_id : Z;
  comment_id : Z;
  mentioned_employee_id : Z;
  mentioned_by_employee_id : Z;
  is_notified : option bool;
}.
End CommentMention.

Module AmendmentWatcher.
Record t : Type := mk {
  watcher_id : Z;
  amendment_id : Z;
  employee_id : Z;
  watch_reason : option string;
  is_watching : option bool;
  notify_comments : option bool;
  notify_status_changes : option bool;
  notify_mentions : option bool;
}.
End AmendmentWatcher.

Module CommentReaction.
Record t : Type := mk {
  reaction_id : Z;
  comment_id : Z;
  employee_id : Z;
  emoji : string;
}.
End CommentReaction.

(** The committed content of the tables, each in the order in which the store
    returns its rows to a query without [ORDER BY] (insertion order), and what
    SQLite keeps to number new rows: [autoincrement] tells whether the tables
    were created by the migration scripts, whose integer primary keys are
    declared [AUTOINCREMENT], or by [create_all], which leaves the keyword
    out; [sqlite_sequence] holds, by table name, the largest key a table of
    the first kind has ever been given. *)
Record DB : Type := mkDB {
  amendments : list Amendment;
  employees : list Employee.t;
  qa_history : list QAHistory.t;
  qa_notifications : list QANotification.t;
  qa_comments : list QAComment.t;
  comment_mentions : list CommentMention.t;
  amendment_watchers : list AmendmentWatcher.t;
  comment_reactions : list CommentReaction.t;
  sqlite_sequence : gmap string Z;
  autoincrement : bool;
}.

(** The largest key present in a table, 0 when it is empty. *)
Definition max_key {A : Type} (key : A -> Z) (rows : list A) : Z :=
  foldr (fun r m => Z.max (key r) m) 0 rows.

(** The key of a new row: one more than the largest key present and, with
    [AUTOINCREMENT], than the largest key ever given. *)
Definition next_id {A : Type}
    (table : string) (key : A -> Z) (rows : list A) (db : DB) : Z :=
  1 + Z.max (if autoincrement db
             then default 0 (sqlite_sequence db !! table) else 0)
            (max_key key rows).

(** The store records the key it has given. *)
Definition set_sequence (table : string) (id : Z) (db : DB) : DB :=
  mkDB (amendments db) (employees db) (qa_history db) (qa_notifications db)
       (qa_comments db) (comment_mentions db) (amendment_watchers db)
       (comment_reactions db)
       (if autoincrement db then <[table := id]> (sqlite_sequence db)
        else sqlite_sequence db)
       (autoincrement db).

(** [query.first()] *)
Definition first {A : Type} (p : A -> bool) (rows : list A) : option A :=
  find p rows.

(* ===================================================================== *)
(** ** A store-passing monad with exceptions                              *)
(* ===================================================================== *)

Definition M (A : Type) : Type := DB -> DB * result A.

Definition ret {A : Type} (a : A) : M A := fun db => (db, Ok a).
Definition raise {A : Type} (e : exn) : M A := fun db => (db, Raise e).
Definition bind {A B : Type} (m : M A) (k : A -> M B) : M B :=
  fun db =>
    match m db with
    | (db', Ok a) => k a db'
    | (db', Raise e) => (db', Raise e)
    end.
Definition query {A : Type} (f : DB -> A) : M A := fun db => (db, Ok (f db)).
Definition commit (f : DB -> DB) : M unit := fun db => (f db, Ok tt).
Definition lift {A : Type} (r : result A) : M A := fun db => (db, r).

Notation "x <- m ;; k" := (bind m (fun x => k))
  (at level 100, m at next level, right associativity).
Notation "m ;; k" := (bind m (fun _ => k))
  (at level 100, right associativity).

(** [for x in l: body x], stopping at the first exception. *)
Fixpoint for_each {A : Type} (l : list A) (body : A -> M unit) : M unit :=
  match l with
  | [] => ret tt
  | x :: rest => body x ;; for_each rest body
  end.

(* ===================================================================== *)
(** ** Text matching: the mention pattern and SQL [LIKE]                  *)
(* ===================================================================== *)

Definition dquote : ascii := ascii_of_nat 34.
Definition at_sign : ascii := ascii_of_nat 64.
Definition percent : ascii := ascii_of_nat 37.
Definition underscore : ascii := ascii_of_nat 95.

(** The class [\w] of a [str] pattern holds the ASCII digits and letters, the
    underscore, and the characters beyond ASCII that are alphanumeric for
    Python ([str.isalnum]): these are given by the ranges of code points of
    the Unicode 14.0 database that CPython 3.11 carries. *)
Definition word_ranges : list (Z * Z) :=
  [(170, 170); (178, 179); (181, 181); (185, 186); (188, 190); (192, 214);
   (216, 246); (248, 705); (710, 721); (736, 740); (748, 748); (750, 750);
   (880, 884); (886, 887); (890, 893); (895, 895); (902, 902); (904, 906);
   (908, 908); (910, 929); (931, 1013); (1015, 1153); (1162, 1327);
   (1329, 1366); (1369, 1369); (1376, 1416); (1488, 1514); (1519, 1522);
   (1568, 1610); (1632, 1641); (1646, 1647); (1649, 1747); (1749, 1749);
   (1765, 1766); (1774, 1788); (1791, 1791); (1808, 1808); (1810, 1839);
   (1869, 1957); (1969, 1969); (1984, 2026); (2036, 2037); (2042, 2042);
   (2048, 2069); (2074, 2074); (2084, 2084); (2088, 2088); (2112, 2136);
   (2144, 2154); (2160, 2183); (2185, 2190); (2208, 2249); (2308, 2361);
   (2365, 2365); (2384, 2384); (2392, 2401); (2406, 2415); (2417, 2432);
   (2437, 2444); (2447, 2448); (2451, 2472); (2474, 2480); (2482, 2482);
   (2486, 2489); (2493, 2493); (2510, 2510); (2524, 2525); (2527, 2529);
   (2534, 2545); (2548, 2553); (2556, 2556); (2565, 2570); (2575, 2576);
   (2579, 2600); (2602, 2608); (2610, 2611); (2613, 2614); (2616, 2617);
   (2649, 2652); (2654, 2654); (2662, 2671); (2674, 2676); (2693, 2701);
   (2703, 2705); (2707, 2728); (2730, 2736); (2738, 2739); (2741, 2745);
   (2749, 2749); (2768, 2768); (2784, 2785); (2790, 2799); (2809, 2809);
   (2821, 2828); (2831, 2832); (2835, 2856); (2858, 2864); (2866, 2867);
   (2869, 2873); (2877, 2877); (2908, 2909); (2911, 2913); (2918, 2927);
   (2929, 2935); (2947, 2947); (2949, 2954); (2958, 2960); (2962, 2965);
   (2969, 2970); (2972, 2972); (2974, 2975); (2979, 2980); (2984, 2986);
   (2990, 3001); (3024, 3024); (3046, 3058); (3077, 3084); (3086, 3088);
   (3090, 3112); (3114, 3129); (3133, 3133); (3160, 3162); (3165, 3165);
   (3168, 3169); (3174, 3183); (3192, 3198); (3200, 3200); (3205, 3212);
   (3214, 3216); (3218, 3240); (3242, 3251); (3253, 3257); (3261, 3261);
   (3293, 3294); (3296, 3297); (3302, 3311); (3313, 3314); (3332, 3340);
   (3342, 3344); (3346, 3386); (3389, 3389); (3406, 3406); (3412, 3414);
   (3416, 3425); (3430, 3448); (3450, 3455); (3461, 3478); (3482, 3505);
   (3507, 3515); (3517, 3517); (3520, 3526); (3558, 3567); (3585, 3632);
   (3634, 3635); (3648, 3654); (3664, 3673); (3713, 3714); (3716, 3716);
   (3718, 3722); (3724, 3747); (3749, 3749); (3751, 3760); (3762, 3763);
   (3773, 3773); (3776, 3780); (3782, 3782); (3792, 3801); (3804, 3807);
   (3840, 3840); (3872, 3891); (3904, 3911); (3913, 3948); (3976, 3980);
   (4096, 4138); (4159, 4169); (4176, 4181); (4186, 4189); (4193, 4193);
   (4197, 4198); (4206, 4208); (4213, 4225); (4238, 4238); (4240, 4249);
   (4256, 4293); (4295, 4295); (4301, 4301); (4304, 4346); (4348, 4680);
   (4682, 4685); (4688, 4694); (4696, 4696); (4698, 4701); (4704, 4744);
   (4746, 4749); (4752, 4784); (4786, 4789); (4792, 4798); (4800, 4800);
   (4802, 4805); (4808, 4822); (4824, 4880); (4882, 4885); (4888, 4954);
   (4969, 4988); (4992, 5007); (5024, 5109); (5112, 5117); (5121, 5740);
   (5743, 5759); (5761, 5786); (5792, 5866); (5870, 5880); (5888, 5905);
   (5919, 5937); (5952, 5969); (5984, 5996); (5998, 6000); (6016, 6067);
   (6103, 6103); (6108, 6108); (6112, 6121); (6128, 6137); (6160, 6169);
   (6176, 6264); (6272, 6276); (6279, 6312); (6314, 6314); (6320, 6389);
   (6400, 6430); (6470, 6509); (6512, 6516); (6528, 6571); (6576, 6601);
   (6608, 6618); (6656, 6678); (6688, 6740); (6784, 6793); (6800, 6809);
   (6823, 6823); (6917, 6963); (6981, 6988); (6992, 7001); (7043, 7072);
   (7086, 7141); (7168, 7203); (7232, 7241); (7245, 7293); (7296, 7304);
   (7312, 7354); (7357, 7359); (7401, 7404); (7406, 7411); (7413, 7414);
   (7418, 7418); (7424, 7615); (7680, 7957); (7960, 7965); (7968, 8005);
   (8008, 8013); (8016, 8023); (8025, 8025); (8027, 8027); (8029, 8029);
   (8031, 8061); (8064, 8116); (8118, 8124); (8126, 8126); (8130, 8132);
   (8134, 8140); (8144, 8147); (8150, 8155); (8160, 8172); (8178, 8180);
   (8182, 8188); (8304, 8305); (8308, 8313); (8319, 8329); (8336, 8348);
   (8450, 8450); (8455, 8455); (8458, 8467); (8469, 8469); (8473, 8477);
   (8484, 8484); (8486, 8486); (8488, 8488); (8490, 8493); (8495, 8505);
   (8508, 8511); (8517, 8521); (8526, 8526); (8528, 8585); (9312, 9371);
   (9450, 9471); (10102, 10131); (11264, 11492); (11499, 11502);
   (11506, 11507); (11517, 11517); (11520, 11557); (11559, 11559);
   (11565, 11565); (11568, 11623); (11631, 11631); (11648, 11670);
   (11680, 11686); (11688, 11694); (11696, 11702); (11704, 11710);
   (11712, 11718); (11720, 11726); (11728, 11734); (11736, 11742);
   (11823, 11823); (12293, 12295); (12321, 12329); (12337, 12341);
   (12344, 12348); (12353, 12438); (12445, 12447); (12449, 12538);
   (12540, 12543); (12549, 12591); (12593, 12686); (12690, 12693);
   (12704, 12735); (12784, 12799); (12832, 12841); (12872, 12879);
   (12881, 12895); (12928, 12937); (12977, 12991); (13312, 19903);
   (19968, 42124); (42192, 42237); (42240, 42508); (42512, 42539);
   (42560, 42606); (42623, 42653); (42656, 42735); (42775, 42783);
   (42786, 42888); (42891, 42954); (42960, 42961); (42963, 42963);
   (42965, 42969); (42994, 43009); (43011, 43013); (43015, 43018);
   (43020, 43042); (43056, 43061); (43072, 43123); (43138, 43187);
   (43216, 43225); (43250, 43255); (43259, 43259); (43261, 43262);
   (43264, 43301); (43312, 43334); (43360, 43388); (43396, 43442);
   (43471, 43481); (43488, 43492); (43494, 43518); (43520, 43560);
   (43584, 43586); (43588, 43595); (43600, 43609); (43616, 43638);
   (43642, 43642); (43646, 43695); (43697, 43697); (43701, 43702);
   (43705, 43709); (43712, 43712); (43714, 43714); (43739, 43741);
   (43744, 43754); (43762, 43764); (43777, 43782); (43785, 43790);
   (43793, 43798); (43808, 43814); (43816, 43822); (43824, 43866);
   (43868, 43881); (43888, 44002); (44016, 44025); (44032, 55203);
   (55216, 55238); (55243, 55291); (63744, 64109); (64112, 64217);
   (64256, 64262); (64275, 64279); (64285, 64285); (64287, 64296);
   (64298, 64310); (64312, 64316); (64318, 64318); (64320, 64321);
   (64323, 64324); (64326, 64433); (64467, 64829); (64848, 64911);
   (64914, 64967); (65008, 65019); (65136, 65140); (65142, 65276);
   (65296, 65305); (65313, 65338); (65345, 65370); (65382, 65470);
   (65474, 65479); (65482, 65487); (65490, 65495); (65498, 65500);
   (65536, 65547); (65549, 65574); (65576, 65594); (65596, 65597);
   (65599, 65613); (65616, 65629); (65664, 65786); (65799, 65843);
   (65856, 65912); (65930, 65931); (66176, 66204); (66208, 66256);
   (66273, 66299); (66304, 66339); (66349, 66378); (66384, 66421);
   (66432, 66461); (66464, 66499); (66504, 66511); (66513, 66517);
   (66560, 66717); (66720, 66729); (66736, 66771); (66776, 66811);
   (66816, 66855); (66864, 66915); (66928, 66938); (66940, 66954);
   (66956, 66962); (66964, 66965); (66967, 66977); (66979, 66993);
   (66995, 67001); (67003, 67004); (67072, 67382); (67392, 67413);
   (67424, 67431); (67456, 67461); (67463, 67504); (67506, 67514);
   (67584, 67589); (67592, 67592); (67594, 67637); (67639, 67640);
   (67644, 67644); (67647, 67669); (67672, 67702); (67705, 67742);
   (67751, 67759); (67808, 67826); (67828, 67829); (67835, 67867);
   (67872, 67897); (67968, 68023); (68028, 68047); (68050, 68096);
   (68112, 68115); (68117, 68119); (68121, 68149); (68160, 68168);
   (68192, 68222); (68224, 68255); (68288, 68295); (68297, 68324);
   (68331, 68335); (68352, 68405); (68416, 68437); (68440, 68466);
   (68472, 68497); (68521, 68527); (68608, 68680); (68736, 68786);
   (68800, 68850); (68858, 68899); (68912, 68921); (69216, 69246);
   (69248, 69289); (69296, 69297); (69376, 69415); (69424, 69445);
   (69457, 69460); (69488, 69505); (69552, 69579); (69600, 69622);
   (69635, 69687); (69714, 69743); (69745, 69746); (69749, 69749);
   (69763, 69807); (69840, 69864); (69872, 69881); (69891, 69926);
   (69942, 69951); (69956, 69956); (69959, 69959); (69968, 70002);
   (70006, 70006); (70019, 70066); (70081, 70084); (70096, 70106);
   (70108, 70108); (70113, 70132); (70144, 70161); (70163, 70187);
   (70272, 70278); (70280, 70280); (70282, 70285); (70287, 70301);
   (70303, 70312); (70320, 70366); (70384, 70393); (70405, 70412);
   (70415, 70416); (70419, 70440); (70442, 70448); (70450, 70451);
   (70453, 70457); (70461, 70461); (70480, 70480); (70493, 70497);
   (70656, 70708); (70727, 70730); (70736, 70745); (70751, 70753);
   (70784, 70831); (70852, 70853); (70855, 70855); (70864, 70873);
   (71040, 71086); (71128, 71131); (71168, 71215); (71236, 71236);
   (71248, 71257); (71296, 71338); (71352, 71352); (71360, 71369);
   (71424, 71450); (71472, 71483); (71488, 71494); (71680, 71723);
   (71840, 71922); (71935, 71942); (71945, 71945); (71948, 71955);
   (71957, 71958); (71960, 71983); (71999, 71999); (72001, 72001);
   (72016, 72025); (72096, 72103); (72106, 72144); (72161, 72161);
   (72163, 72163); (72192, 72192); (72203, 72242); (72250, 72250);
   (72272, 72272); (72284, 72329); (72349, 72349); (72368, 72440);
   (72704, 72712); (72714, 72750); (72768, 72768); (72784, 72812);
   (72818, 72847); (72960, 72966); (72968, 72969); (72971, 73008);
   (73030, 73030); (73040, 73049); (73056, 73061); (73063, 73064);
   (73066, 73097); (73112, 73112); (73120, 73129); (73440, 73458);
   (73648, 73648); (73664, 73684); (73728, 74649); (74752, 74862);
   (74880, 75075); (77712, 77808); (77824, 78894); (82944, 83526);
   (92160, 92728); (92736, 92766); (92768, 92777); (92784, 92862);
   (92864, 92873); (92880, 92909); (92928, 92975); (92992, 92995);
   (93008, 93017); (93019, 93025); (93027, 93047); (93053, 93071);
   (93760, 93846); (93952, 94026); (94032, 94032); (94099, 94111);
   (94176, 94177); (94179, 94179); (94208, 100343); (100352, 101589);
   (101632, 101640); (110576, 110579); (110581, 110587); (110589, 110590);
   (110592, 110882); (110928, 110930); (110948, 110951); (110960, 111355);
   (113664, 113770); (113776, 113788); (113792, 113800); (113808, 113817);
   (119520, 119539); (119648, 119672); (119808, 119892); (119894, 119964);
   (119966, 119967); (119970, 119970); (119973, 119974); (119977, 119980);
   (119982, 119993); (119995, 119995); (119997, 120003); (120005, 120069);
   (120071, 120074); (120077, 120084); (120086, 120092); (120094, 120121);
   (120123, 120126); (120128, 120132); (120134, 120134); (120138, 120144);
   (120146, 120485); (120488, 120512); (120514, 120538); (120540, 120570);
   (120572, 120596); (120598, 120628); (120630, 120654); (120656, 120686);
   (120688, 120712); (120714, 120744); (120746, 120770); (120772, 120779);
   (120782, 120831); (122624, 122654); (123136, 123180); (123191, 123197);
   (123200, 123209); (123214, 123214); (123536, 123565); (123584, 123627);
   (123632, 123641); (124896, 124902); (124904, 124907); (124909, 124910);
   (124912, 124926); (124928, 125124); (125127, 125135); (125184, 125251);
   (125259, 125259); (125264, 125273); (126065, 126123); (126125, 126127);
   (126129, 126132); (126209, 126253); (126255, 126269); (126464, 126467);
   (126469, 126495); (126497, 126498); (126500, 126500); (126503, 126503);
   (126505, 126514); (126516, 126519); (126521, 126521); (126523, 126523);
   (126530, 126530); (126535, 126535); (126537, 126537); (126539, 126539);
   (126541, 126543); (126545, 126546); (126548, 126548); (126551, 126551);
   (126553, 126553); (126555, 126555); (126557, 126557); (126559, 126559);
   (126561, 126562); (126564, 126564); (126567, 126570); (126572, 126578);
   (126580, 126583); (126585, 126588); (126590, 126590); (126592, 126601);
   (126603, 126619); (126625, 126627); (126629, 126633); (126635, 126651);
   (127232, 127244); (130032, 130041); (131072, 173791); (173824, 177976);
   (177984, 178205); (178208, 183969); (183984, 191456); (194560, 195101);
   (196608, 201546)].

Definition in_ranges (ranges : list (Z * Z)) (c : Z) : bool :=
  existsb (fun r => (fst r <=? c) && (c <=? snd r)) ranges.

(** The class [\w] on a character. *)
Definition word_char (c : Z) : bool :=
  ((48 <=? c) && (c <=? 57)) || ((65 <=? c) && (c <=? 90))
  || ((97 <=? c) && (c <=? 122)) || (c =? 95)
  || in_ranges word_ranges c.

(** The longest prefix whose characters satisfy [p], and what follows it. *)
Fixpoint span (p : ascii -> bool) (s : string) : string * string :=
  match s with
  | EmptyString => (EmptyString, EmptyString)
  | String c s' =>
      if p c then let '(pre, post) := span p s' in (String c pre, post)
      else (EmptyString, s)
  end.

(** The longest prefix made of word characters, and what follows it. [skip]
    counts the bytes of the current character that are still to be taken. *)
Fixpoint span_word_from (skip : nat) (s : string) : string * string :=
  match s with
  | EmptyString => (EmptyString, EmptyString)
  | String b rest =>
      match skip with
      | S k =>
          let '(pre, post) := span_word_from k rest in (String b pre, post)
      | O =>
          let '(c, n) := first_char b rest in
          if word_char c
          then let '(pre, post) := span_word_from (pred n) rest in
               (String b pre, post)
          else (EmptyString, s)
      end
  end.

Definition span_word (s : string) : string * string := span_word_from O s.

(** The group of the mention pattern (an at-sign followed by either a run of
    word characters or a quoted phrase) matched at a position just after the
    at-sign: the first alternative, a longest non-empty run of word characters,
    is tried first; the second is a double quote, a non-empty run of characters
    other than a double quote, and a closing double quote. The captured text
    keeps the quotes. *)
Definition match_group (s : string) : option string :=
  let '(word, _) := span_word s in
  if negb (str_is_empty word) then Some word
  else
    match s with
    | String c r =>
        if Ascii.eqb c dquote then
          let '(body, after) := span (fun d => negb (Ascii.eqb d dquote)) r in
          match after with
          | String _ _ =>
              if negb (str_is_empty body)
              then Some (String dquote (body +:+ String dquote EmptyString))
              else None
          | EmptyString => None
          end
        else None
    | EmptyString => None
    end.

(** [re.findall] with the mention pattern: the groups of the successive
    non-overlapping matches, scanning from the left. [skip] counts the bytes
    of the current match that are still to be passed over. The at-sign is a
    byte that occurs in no other character, so that looking for it byte by
    byte is looking for it character by character. *)
Fixpoint findall_from (skip : nat) (s : string) : list string :=
  match s with
  | EmptyString => []
  | String c rest =>
      match skip with
      | S k => findall_from k rest
      | O =>
          if Ascii.eqb c at_sign then
            match match_group rest with
            | Some g => g :: findall_from (String.length g) rest
            | None => findall_from O rest
            end
          else findall_from O rest
      end
  end.

Definition findall_mentions (text : string) : list string := findall_from O text.

(** [s.lstrip(chars)], [s.rstrip(chars)] and [s.strip(chars)] for a set of
    characters given by its membership test. *)
Fixpoint lstrip_by (p : ascii -> bool) (s : string) : string :=
  match s with
  | EmptyString => EmptyString
  | String c s' => if p c then lstrip_by p s' else s
  end.

Fixpoint rstrip_by (p : ascii -> bool) (s : string) : string :=
  match s with
  | EmptyString => EmptyString
  | String c s' =>
      match rstrip_by p s' with
      | EmptyString => if p c then EmptyString else String c EmptyString
      | r => String c r
      end
  end.

Definition strip_by (p : ascii -> bool) (s : string) : string :=
  rstrip_by p (lstrip_by p s).

(** SQL [lower] on one byte and on a text: SQLite folds the case of the
    ASCII letters only, and leaves every other byte as it is. *)
Definition lower_char (c : ascii) : ascii :=
  let n := code c in
  if (65 <=? n) && (n <=? 90) then ascii_of_nat (nat_of_ascii c + 32) else c.

Fixpoint lower (s : string) : string :=
  match s with
  | EmptyString => EmptyString
  | String c s' => String (lower_char c) (lower s')
  end.

(** The text without its first [n] bytes. *)
Fixpoint drop_bytes (n : nat) (s : string) : string :=
  match n, s with
  | S k, String _ s' => drop_bytes k s'
  | _, _ => s
  end.

(** [s LIKE pat] without an escape character: [%] stands for any run of
    characters, [_] for any one character, and any other byte of the pattern
    for itself. In the run of [%], [skip] counts the bytes of the current
    character that are still to be passed over. *)
Fixpoint like (pat s : string) : bool :=
  match pat with
  | EmptyString => str_is_empty s
  | String c pat' =>
      if Ascii.eqb c percent then
        (fix any (skip : nat) (s : string) : bool :=
           match skip with
           | O =>
               like pat' s
               || match s with
                  | EmptyString => false
                  | String d s' => any (pred (snd (first_char d s'))) s'
                  end
           | S k =>
               match s with
               | EmptyString => false
               | String _ s' => any k s'
               end
           end) O s
      else
        match s with
        | EmptyString => false
        | String d s' =>
            if Ascii.eqb c underscore
            then like pat' (drop_bytes (pred (snd (first_char d s'))) s')
            else Ascii.eqb c d && like pat' s'
        end
  end.

(** SQL's three-valued conditions: [None] is the unknown of a [NULL]. *)
Definition tri : Type := option bool.

Definition sql_or (a b : tri) : tri :=
  match a, b with
  | Some true, _ | _, Some true => Some true
  | Some false, Some false => Some false
  | _, _ => None
  end.

Definition sql_and (a b : tri) : tri :=
  match a, b with
  | Some false, _ | _, Some false => Some false
  | Some true, Some true => Some true
  | _, _ => None
  end.

(** [column == text] *)
Definition sql_eq_text (v : sqlval) (s : string) : tri :=
  match v with
  | VText x => Some (String.eqb x s)
  | _ => None
  end.

(** [column.ilike(pattern)], rendered as [lower(column) LIKE lower(pattern)]. *)
Definition sql_ilike (v : sqlval) (pat : string) : tri :=
  match v with
  | VText x => Some (like (lower pat) (lower x))
  | _ => None
  end.

(** [column == True] *)
Definition sql_is_true (v : sqlval) : tri :=
  match v with
  | VBool b => Some b
  | _ => None
  end.

(** A row is selected when the condition is true, not when it is unknown. *)
Definition selected (c : tri) : bool :=
  match c with
  | Some true => true
  | _ => false
  end.

(* ===================================================================== *)
(** ** crud.py                                                            *)
(* ===================================================================== *)

Definition set_amendments (f : list Amendment -> list Amendment) (db : DB) : DB :=
  mkDB (f (amendments db)) (employees db) (qa_history db) (qa_notifications db)
       (qa_comments db) (comment_mentions db) (amendment_watchers db)
       (comment_reactions db) (sqlite_sequence db) (autoincrement db).

Definition set_qa_history (f : list QAHistory.t -> list QAHistory.t) (db : DB) : DB :=
  mkDB (amendments db) (employees db) (f (qa_history db)) (qa_notifications db)
       (qa_comments db) (comment_mentions db) (amendment_watchers db)
       (comment_reactions db) (sqlite_sequence db) (autoincrement db).

Definition set_qa_notifications
    (f : list QANotification.t -> list QANotification.t) (db : DB) : DB :=
  mkDB (amendments db) (employees db) (qa_history db) (f (qa_notifications db))
       (qa_comments db) (comment_mentions db) (amendment_watchers db)
       (comment_reactions db) (sqlite_sequence db) (autoincrement db).

Definition set_qa_comments (f : list QAComment.t -> list QAComment.t) (db : DB) : DB :=
  mkDB (amendments db) (employees db) (qa_history db) (qa_notifications db)
       (f (qa_comments db)) (comment_mentions db) (amendment_watchers db)
       (comment_reactions db) (sqlite_sequence db) (autoincrement db).

Definition set_comment_mentions
    (f : list CommentMention.t -> list CommentMention.t) (db : DB) : DB :=
  mkDB (amendments db) (employees db) (qa_history db) (qa_notifications db)
       (qa_comments db) (f (comment_mentions db)) (amendment_watchers db)
       (comment_reactions db) (sqlite_sequence db) (autoincrement db).

Definition set_amendment_watchers
    (f : list AmendmentWatcher.t -> list AmendmentWatcher.t) (db : DB) : DB :=
  mkDB (amendments db) (employees db) (qa_history db) (qa_notifications db)
       (qa_comments db) (comment_mentions db) (f (amendment_watchers db))
       (comment_reactions db) (sqlite_sequence db) (autoincrement db).

Definition set_comment_reactions
    (f : list CommentReaction.t -> list CommentReaction.t) (db : DB) : DB :=
  mkDB (amendments db) (employees db) (qa_history db) (qa_notifications db)
       (qa_comments db) (comment_mentions db) (amendment_watchers db)
       (f (comment_reactions db)) (sqlite_sequence db) (autoincrement db).

(** [db.add(row); db.commit()] on a table: the row goes to the end. *)
Definition add_row {A : Type} (row : A) (rows : list A) : list A := rows ++ [row].

(** The insertion of a row numbered [id] in [table], [add] putting the row in
    its table. *)
Definition inserted (table : string) (id : Z) (add : DB -> DB) (db : DB) : DB :=
  set_sequence table id (add db).

(** A changed attribute of a loaded row, committed: the row with that primary
    key is replaced. *)
Definition put_row {A : Type} (key : A -> Z) (row : A) (rows : list A) : list A :=
  map (fun r => if key r =? key row then row else r) rows.

(** [db.delete(row); db.commit()] *)
Definition delete_row {A : Type} (key : A -> Z) (row : A) (rows : list A) : list A :=
  filter (fun r => key r ≠ key row) rows.

(** *** Amendments *)

Definition get_amendment (amendment_id' : Z) : M (option Amendment) :=
  query (fun db => first (fun a => amendment_id a =? amendment_id') (amendments db)).

(** schemas.py: [AmendmentQAUpdate]. Every field is optional; the outer
    [option] tells whether the request set the field at all (what
    [model_dump(exclude_unset=True)] keeps), the inner one is its value. *)
Module AmendmentQAUpdate.
Record t : Type := mk {
  qa_status : option (option string);
  qa_assigned_id : option (option Z);
  qa_assigned_date : option (option datetime);
  qa_started_date : option (option datetime);
  qa_test_plan_check : option (option bool);
  qa_test_release_notes_check : option (option bool);
  qa_completed : option (option bool);
  qa_signature : option (option string);
  qa_completed_date : option (option datetime);
  qa_notes : option (option string);
  qa_test_plan_link : option (option string);
  qa_blocked_reason : option (option string);
  modified_by : option (option string);
}.

(** [qa_update.modified_by]: the value, [None] when unset. *)
Definition modified_by_value (u : t) : option string :=
  match modified_by u with
  | Some v => v
  | None => None
  end.
End AmendmentQAUpdate.

(** [update_data["modified_by"]] after the two overriding branches. *)
Definition modified_by_entry
    (qa_update : AmendmentQAUpdate.t) (modified_by' : option string)
    : option (option string) :=
  if truthy_str modified_by' then Some modified_by'
  else if truthy_str (AmendmentQAUpdate.modified_by_value qa_update)
       then Some (AmendmentQAUpdate.modified_by_value qa_update)
       else AmendmentQAUpdate.modified_by qa_update.

(** [setattr(db_amendment, field, value)] for an entry of [update_data], the
    attribute being kept when the entry is absent. *)
Definition setattr {A : Type} (entry : option A) (old : A) : A :=
  match entry with
  | Some v => v
  | None => old
  end.

(** The loop over [update_data.items()]. [qa_status] is the one column among
    these that is declared [nullable=False]: the commit of a [None] there is
    refused by the store, which is the [None] result. *)
Definition apply_qa_update
    (a : Amendment) (u : AmendmentQAUpdate.t) (modified_by' : option string)
    : option Amendment :=
  match setattr (AmendmentQAUpdate.qa_status u) (Some (qa_status a)) with
  | None => None
  | Some status =>
      Some (mkAmendment
              (amendment_id a)
              status
              (setattr (AmendmentQAUpdate.qa_assigned_id u) (qa_assigned_id a))
              (setattr (AmendmentQAUpdate.qa_assigned_date u) (qa_assigned_date a))
              (setattr (AmendmentQAUpdate.qa_started_date u) (qa_started_date a))
              (setattr (AmendmentQAUpdate.qa_test_plan_check u)
                       (qa_test_plan_check a))
              (setattr (AmendmentQAUpdate.qa_test_release_notes_check u)
                       (qa_test_release_notes_check a))
              (setattr (AmendmentQAUpdate.qa_completed u) (qa_completed a))
              (setattr (AmendmentQAUpdate.qa_signature u) (qa_signature a))
              (setattr (AmendmentQAUpdate.qa_completed_date u)
                       (qa_completed_date a))
              (setattr (AmendmentQAUpdate.qa_notes u) (qa_notes a))
              (setattr (AmendmentQAUpdate.qa_test_plan_link u)
                       (qa_test_plan_link a))
              (setattr (AmendmentQAUpdate.qa_blocked_reason u)
                       (qa_blocked_reason a))
              (setattr (modified_by_entry u modified_by') (modified_by a)))
  end.

(** SQLite keeps an integer in 64 bits, and the driver refuses to bind a
    Python [int] that does not fit. *)
Definition fits_int64 (n : Z) : bool :=
  (-9223372036854775808 <=? n) && (n <=? 9223372036854775807).

Definition int_too_large : exn :=
  OverflowError "Python int too large to convert to SQLite INTEGER".

Definition status_not_null : exn :=
  IntegrityError "NOT NULL constraint failed: amendments.qa_status".

(** The integer that the request gives for [qa_assigned_id], the one integer
    column among those it can set, can be bound. *)
Definition assigned_id_fits (qa_update : AmendmentQAUpdate.t) : bool :=
  match AmendmentQAUpdate.qa_assigned_id qa_update with
  | Some (Some n) => fits_int64 n
  | _ => true
  end.

Definition update_failed : string := "Failed to update QA fields: ".

(** The [try] block commits once, at its end, and [except Exception] turns
    whatever the commit raises into a [ValueError] after a rollback, so a
    refused commit leaves the store as it was. The commit flushes one
    [UPDATE] of the row: binding its parameters fails on an integer outside
    64 bits, then its execution fails on a [NULL] in [qa_status]. The other
    columns take any value of their type (the table puts no other constraint
    on them, and no foreign key on [qa_assigned_id]). The key looked for is
    taken within 64 bits, as the key of every stored row is. *)
Definition update_amendment_qa
    (amendment_id' : Z) (qa_update : AmendmentQAUpdate.t)
    (modified_by' : option string) : M (option Amendment) :=
  db_amendment <- get_amendment amendment_id' ;;
  match db_amendment with
  | None => ret None
  | Some a =>
      if negb (assigned_id_fits qa_update)
      then raise (ValueErrorFrom update_failed int_too_large)
      else
        match apply_qa_update a qa_update modified_by' with
        | None => raise (ValueErrorFrom update_failed status_not_null)
        | Some a' =>
            commit (set_amendments (put_row amendment_id a')) ;;
            ret (Some a')
        end
  end.

(** *** QA history *)

Definition create_qa_history
    (amendment_id' : Z) (action : string)
    (field_name old_value new_value comment : option string)
    (changed_by_id : option Z) : M QAHistory.t :=
  db_history <- query (fun db =>
    QAHistory.mk (next_id "qa_history" QAHistory.history_id (qa_history db) db)
                 amendment_id' action field_name old_value new_value comment
                 changed_by_id) ;;
  commit (inserted "qa_history" (QAHistory.history_id db_history)
                   (set_qa_history (add_row db_history))) ;;
  ret db_history.

Definition track_qa_change
    (amendment_id' : Z) (field_name old_value new_value : string)
    (changed_by_id : option Z) : M QAHistory.t :=
  create_qa_history amendment_id' "Field Updated" (Some field_name)
                    (Some old_value) (Some new_value) None changed_by_id.

(** *** Notifications *)

Definition create_notification
    (notification : QANotificationCreate.t) : M QANotification.t :=
  db_notification <- query (fun db =>
    QANotification.mk
      (next_id "qa_notifications" QANotification.notification_id
               (qa_notifications db) db)
      (QANotificationCreate.employee_id notification)
      (QANotificationCreate.notification_type notification)
      (QANotificationCreate.title notification)
      (QANotificationCreate.message notification)
      (QANotificationCreate.amendment_id notification)
      (QANotificationCreate.defect_id notification)
      (Some false)
      (Some (QANotificationCreate.is_email_sent notification))
      None) ;;
  commit (inserted "qa_notifications"
                   (QANotification.notification_id db_notification)
                   (set_qa_notifications (add_row db_notification))) ;;
  ret db_notification.

(** An argument passed to a call. *)
Inductive pyarg : Type :=
  | ArgInt (n : Z)
  | ArgStr (s : string)
  | ArgNotification (n : QANotificationCreate.t).

(** A call [create_notification(db, **kwargs)] with the session as the only
    positional argument. The function is declared with the parameters
    [(db, notification)]: a keyword that names neither is refused with
    [TypeError] before the body runs, and so is a call that gives
    [notification] no value. *)
Definition create_notification_params : list string := ["db"; "notification"].

Definition call_create_notification
    (kwargs : list (string * pyarg)) : M QANotification.t :=
  match find (fun kv => negb (existsb (String.eqb (fst kv))
                                      create_notification_params)) kwargs with
  | Some kv =>
      raise (TypeError
               ("create_notification() got an unexpected keyword argument '"
                +:+ fst kv +:+ "'"))
  | None =>
      if existsb (fun kv => String.eqb (fst kv) "db") kwargs
      then raise (TypeError
                    "create_notification() got multiple values for argument 'db'")
      else
        match find (fun kv => String.eqb (fst kv) "notification") kwargs with
        | Some (_, ArgNotification n) => create_notification n
        | Some (_, _) =>
            raise (AttributeError "object has no attribute 'employee_id'")
        | None =>
            raise (TypeError
                     "create_notification() missing 1 required positional argument: 'notification'")
        end
  end.

(** *** Comment mentions *)

(** The [filter] arguments of the employee query for one mention. The
    expression is built by reading three attributes of the [Employee] class,
    in this order, before the query is sent. *)
Definition mention_filter (mention : string) : result (Employee.t -> bool) :=
  username <-! Employee.attr "username";
  employee_name <-! Employee.attr "employee_name";
  is_active <-! Employee.attr "is_active";
  Ok (fun e =>
        selected
          (sql_and
             (sql_or (sql_eq_text (Employee.get username e) mention)
                     (sql_ilike (Employee.get employee_name e)
                                ("%" +:+ mention +:+ "%")))
             (sql_is_true (Employee.get is_active e)))).

(** The body of the loop over the matches, with the list built so far. *)
Fixpoint resolve_mentions
    (mentions : list string) (db : DB) (employee_ids : list Z)
    : result (list Z) :=
  match mentions with
  | [] => Ok employee_ids
  | mention :: rest =>
      let mention := strip_by (Ascii.eqb dquote) mention in
      p <-! mention_filter mention;
      match first p (employees db) with
      | Some employee =>
          resolve_mentions rest db
                           (employee_ids ++ [Employee.employee_id employee])
      | None => resolve_mentions rest db employee_ids
      end
  end.

Definition parse_mentions (comment_text : string) (db : DB) : result (list Z) :=
  resolve_mentions (findall_mentions comment_text) db [].

(** *** Amendment watchers *)

Definition watcher_of (amendment_id' employee_id' : Z) (w : AmendmentWatcher.t)
    : bool :=
  (AmendmentWatcher.amendment_id w =? amendment_id')
  && (AmendmentWatcher.employee_id w =? employee_id').

Definition set_is_watching (b : bool) (w : AmendmentWatcher.t) : AmendmentWatcher.t :=
  AmendmentWatcher.mk
    (AmendmentWatcher.watcher_id w) (AmendmentWatcher.amendment_id w)
    (AmendmentWatcher.employee_id w) (AmendmentWatcher.watch_reason w)
    (Some b)
    (AmendmentWatcher.notify_comments w)
    (AmendmentWatcher.notify_status_changes w)
    (AmendmentWatcher.notify_mentions w).

Definition add_watcher
    (amendment_id' employee_id' : Z) (reason : string) : M AmendmentWatcher.t :=
  existing <- query (fun db =>
    first (watcher_of amendment_id' employee_id') (amendment_watchers db)) ;;
  match existing with
  | Some existing =>
      if negb (truthy_bool (AmendmentWatcher.is_watching existing)) then
        let existing := set_is_watching true existing in
        commit (set_amendment_watchers
                  (put_row AmendmentWatcher.watcher_id existing)) ;;
        ret existing
      else ret existing
  | None =>
      watcher <- query (fun db =>
        AmendmentWatcher.mk
          (next_id "amendment_watchers" AmendmentWatcher.watcher_id
                   (amendment_watchers db) db)
          amendment_id' employee_id' (Some reason)
          (Some true) (Some true) (Some true) (Some true)) ;;
      commit (inserted "amendment_watchers" (AmendmentWatcher.watcher_id watcher)
                       (set_amendment_watchers (add_row watcher))) ;;
      ret watcher
  end.

Definition remove_watcher (amendment_id' employee_id' : Z) : M unit :=
  watcher <- query (fun db =>
    first (watcher_of amendment_id' employee_id') (amendment_watchers db)) ;;
  match watcher with
  | Some watcher =>
      commit (set_amendment_watchers
                (put_row AmendmentWatcher.watcher_id
                         (set_is_watching false watcher)))
  | None => ret tt
  end.

Definition active_watcher_of (amendment_id' : Z) (w : AmendmentWatcher.t) : bool :=
  (AmendmentWatcher.amendment_id w =? amendment_id')
  && selected (sql_is_true (of_bool (AmendmentWatcher.is_watching w))).

Definition get_watchers (amendment_id' : Z) : M (list AmendmentWatcher.t) :=
  query (fun db =>
    List.filter (active_watcher_of amendment_id') (amendment_watchers db)).

Definition is_watching (amendment_id' employee_id' : Z) : M bool :=
  query (fun db =>
    match first (fun w => watcher_of amendment_id' employee_id' w
                          && active_watcher_of amendment_id' w)
                (amendment_watchers db) with
    | Some _ => true
    | None => false
    end).

(** The body of the loop of [notify_watchers] for one watcher; [continue] is
    [ret tt]. *)
Definition notify_watcher
    (amendment_id' : Z) (event_type message : string)
    (exclude_employee_id : option Z) (watcher : AmendmentWatcher.t) : M unit :=
  if truthy_int exclude_employee_id
     && bool_decide (Some (AmendmentWatcher.employee_id watcher)
                     = exclude_employee_id)
  then ret tt
  else if String.eqb event_type "comment"
          && negb (truthy_bool (AmendmentWatcher.notify_comments watcher))
  then ret tt
  else if String.eqb event_type "status_change"
          && negb (truthy_bool (AmendmentWatcher.notify_status_changes watcher))
  then ret tt
  else if String.eqb event_type "mention"
          && negb (truthy_bool (AmendmentWatcher.notify_mentions watcher))
  then ret tt
  else
    call_create_notification
      [ ("employee_id", ArgInt (AmendmentWatcher.employee_id watcher));
        ("notification_type", ArgStr "Amendment Update");
        ("title", ArgStr ("Amendment Update - " +:+ event_type));
        ("message", ArgStr message);
        ("amendment_id", ArgInt amendment_id') ] ;;
    ret tt.

Definition notify_watchers
    (amendment_id' : Z) (event_type message : string)
    (exclude_employee_id : option Z) : M unit :=
  watchers <- get_watchers amendment_id' ;;
  for_each watchers
           (notify_watcher amendment_id' event_type message exclude_employee_id).

(** The first loop of [create_comment_mentions] and the commit that follows
    it: one mention row for every entry of the list, written in the order of
    the list. *)
Fixpoint add_mentions
    (comment_id' : Z) (mentioned_employee_ids : list Z)
    (mentioned_by_employee_id' : Z) : M (list CommentMention.t) :=
  match mentioned_employee_ids with
  | [] => ret []
  | employee_id' :: rest =>
      mention <- query (fun db =>
        CommentMention.mk
          (next_id "comment_mentions" CommentMention.mention_id
                   (comment_mentions db) db)
          comment_id' employee_id' mentioned_by_employee_id' (Some false)) ;;
      commit (inserted "comment_mentions" (CommentMention.mention_id mention)
                       (set_comment_mentions (add_row mention))) ;;
      mentions <- add_mentions comment_id' rest mentioned_by_employee_id' ;;
      ret (mention :: mentions)
  end.

(** Then every mentioned employee is made a watcher of the comment's
    amendment. *)
Definition create_comment_mentions
    (comment_id' : Z) (mentioned_employee_ids : list Z)
    (mentioned_by_employee_id' : Z) : M (list CommentMention.t) :=
  mentions <- add_mentions comment_id' mentioned_employee_ids
                           mentioned_by_employee_id' ;;
  comment <- query (fun db =>
    first (fun c => QAComment.comment_id c =? comment_id') (qa_comments db)) ;;
  match comment with
  | Some comment =>
      for_each mentioned_employee_ids
               (fun employee_id' =>
                  add_watcher (QAComment.amendment_id comment) employee_id'
                              "Mentioned" ;;
                  ret tt)
  | None => ret tt
  end ;;
  ret mentions.

(** *** Comment reactions *)

Definition reaction_of
    (comment_id' employee_id' : Z) (emoji' : string) (r : CommentReaction.t)
    : bool :=
  (CommentReaction.comment_id r =? comment_id')
  && (CommentReaction.employee_id r =? employee_id')
  && String.eqb (CommentReaction.emoji r) emoji'.

Definition toggle_reaction
    (comment_id' employee_id' : Z) (emoji' : string)
    : M (option CommentReaction.t) :=
  existing <- query (fun db =>
    first (reaction_of comment_id' employee_id' emoji') (comment_reactions db)) ;;
  match existing with
  | Some existing =>
      commit (set_comment_reactions
                (delete_row CommentReaction.reaction_id existing)) ;;
      ret None
  | None =>
      reaction <- query (fun db =>
        CommentReaction.mk
          (next_id "comment_reactions" CommentReaction.reaction_id
                   (comment_reactions db) db)
          comment_id' employee_id' emoji') ;;
      commit (inserted "comment_reactions"
                       (CommentReaction.reaction_id reaction)
                       (set_comment_reactions (add_row reaction))) ;;
      ret (Some reaction)
  end.

Definition get_reactions_for_comment (comment_id' : Z) : M (list CommentReaction.t) :=
  query (fun db =>
    List.filter (fun r => CommentReaction.comment_id r =? comment_id')
                (comment_reactions db)).

(** [summary[emoji] = summary.get(emoji, 0) + 1] over the reactions. *)
Definition count_reactions (reactions : list CommentReaction.t) : gmap string Z :=
  foldl (fun summary reaction =>
           let emoji' := CommentReaction.emoji reaction in
           <[emoji' := default 0 (summary !! emoji') + 1]> summary)
        ∅ reactions.

Definition get_reaction_summary (comment_id' : Z) : M (gmap string Z) :=
  reactions <- get_reactions_for_comment comment_id' ;;
  ret (count_reactions reactions).

(** *** Enhanced comment creation *)

(** [text[:n]], the first [n] characters. [skip] counts the bytes of the
    current character that are still to be taken. *)
Fixpoint take_from (skip n : nat) (s : string) : string :=
  match s with
  | EmptyString => EmptyString
  | String b rest =>
      match skip with
      | S k => String b (take_from k n rest)
      | O =>
          match n with
          | O => EmptyString
          | S m =>
              String b (take_from (pred (snd (first_char b rest))) m rest)
          end
      end
  end.

Definition str_take (n : nat) (s : string) : string := take_from O n s.

Definition create_qa_comment_enhanced
    (amendment_id' employee_id' : Z) (comment_text comment_type : string)
    (parent_comment_id : option Z) : M QAComment.t :=
  comment <- query (fun db =>
    QAComment.mk (next_id "qa_comments" QAComment.comment_id (qa_comments db) db)
                 amendment_id' employee_id' parent_comment_id
                 comment_text comment_type (Some false)) ;;
  commit (inserted "qa_comments" (QAComment.comment_id comment)
                   (set_qa_comments (add_row comment))) ;;
  db <- query (fun db => db) ;;
  mentioned_ids <- lift (parse_mentions comment_text db) ;;
  (if negb (Nat.eqb (length mentioned_ids) 0)
   then create_comment_mentions (QAComment.comment_id comment) mentioned_ids
                                employee_id' ;;
        ret tt
   else ret tt) ;;
  add_watcher amendment_id' employee_id' "Participated" ;;
  employee <- query (fun db =>
    first (fun e => Employee.employee_id e =? employee_id') (employees db)) ;;
  match employee with
  | Some employee =>
      notify_watchers amendment_id' "comment"
                      (Employee.employee_name employee +:+ " commented: "
                       +:+ str_take 100 comment_text)
                      (Some employee_id')
  | None => ret tt
  end ;;
  ret comment.

(* ===================================================================== *)
(** ** main.py: the transition-validation endpoint                        *)
(* ===================================================================== *)

Record ValidationResponse : Type := mkValidationResponse {
  is_valid : bool;
  error_message : option string;
  current_status : string;
  new_status : string;
}.

Definition validate_qa_transition_endpoint
    (amendment_id' : Z) (new_status' : string) : M ValidationResponse :=
  amendment <- get_amendment amendment_id' ;;
  match amendment with
  | None => raise (HTTPException 404 "Amendment not found")
  | Some amendment =>
      r <- lift (validate_qa_status_change amendment new_status') ;;
      ret (mkValidationResponse (fst r) (snd r) (qa_status amendment) new_status')
  end.

(* ===================================================================== *)
(** ** qa_workflow.py: the validators of assignments and checklist edits  *)
(* ===================================================================== *)

(** [amendment.qa_status in ["In Testing", "Passed"]] *)
Definition testing_or_passed (a : Amendment) : bool :=
  existsb (String.eqb (qa_status a)) ["In Testing"; "Passed"].

Definition validate_qa_assignment
    (a : Amendment) (qa_assigned_id' : option Z) : bool * option string :=
  match qa_assigned_id' with
  | None =>
      if testing_or_passed a
      then (false,
            Some ("Cannot unassign QA: Amendment is in '" +:+ qa_status a
                  +:+ "' status"))
      else (true, None)
  | Some _ => (true, None)
  end.

Definition validate_checklist_update
    (a : Amendment) (field_name : string) (new_value : bool)
    : bool * option string :=
  if String.eqb (qa_status a) "Passed" && negb new_value
  then (false,
        Some ("Cannot uncheck " +:+ field_name +:+ ": QA has already passed"))
  else (true, None).

Definition defect_warning : string :=
  "Warning: There are open defects. Consider resolving all defects before marking QA as Passed, "
  +:+ "or document why defects are acceptable in QA notes.".

Definition validate_defect_resolution
    (a : Amendment) (has_open_defects : bool) : bool * option string :=
  if has_open_defects && String.eqb (qa_status a) "Passed"
  then (false, Some defect_warning)
  else (true, None).

Definition can_mark_qa_passed := can_complete_qa.

(* ===================================================================== *)
(** ** crud.py: reading and clearing notifications                        *)
(* ===================================================================== *)

(** [column == False] *)
Definition sql_is_false (v : sqlval) : tri :=
  match v with
  | VBool b => Some (negb b)
  | _ => None
  end.

(** [and_(QANotification.employee_id == employee_id,
          QANotification.is_read == False)] *)
Definition unread_of (employee_id' : Z) (n : QANotification.t) : bool :=
  selected
    (sql_and (Some (QANotification.employee_id n =? employee_id'))
             (sql_is_false (of_bool (QANotification.is_read n)))).

Definition get_unread_count (employee_id' : Z) : M Z :=
  query (fun db =>
    Z.of_nat (length (List.filter (unread_of employee_id')
                                  (qa_notifications db)))).

(** The two assignments [is_read = True] and [read_on = datetime.now()],
    [now] being the reading of the clock. *)
Definition set_read (now : datetime) (n : QANotification.t) : QANotification.t :=
  QANotification.mk
    (QANotification.notification_id n) (QANotification.employee_id n)
    (QANotification.notification_type n) (QANotification.title n)
    (QANotification.message n) (QANotification.amendment_id n)
    (QANotification.defect_id n) (Some true)
    (QANotification.is_email_sent n) (Some now).

Definition notification_of (notification_id' : Z) (n : QANotification.t) : bool :=
  QANotification.notification_id n =? notification_id'.

Definition mark_notification_read
    (now : datetime) (notification_id' : Z) : M (option QANotification.t) :=
  db_notification <- query (fun db =>
    first (notification_of notification_id') (qa_notifications db)) ;;
  match db_notification with
  | None => ret None
  | Some db_notification =>
      let db_notification := set_read now db_notification in
      commit (set_qa_notifications
                (put_row QANotification.notification_id db_notification)) ;;
      ret (Some db_notification)
  end.

(** [query.filter(...).update({...})]: every row the filter selects is
    changed, and their number is returned. *)
Definition mark_all_notifications_read (now : datetime) (employee_id' : Z) : M Z :=
  updated_count <- query (fun db =>
    Z.of_nat (length (List.filter (unread_of employee_id')
                                  (qa_notifications db)))) ;;
  commit (set_qa_notifications
            (map (fun n => if unread_of employee_id' n then set_read now n
                           else n))) ;;
  ret updated_count.

Definition delete_notification (notification_id' : Z) : M bool :=
  db_notification <- query (fun db =>
    first (notification_of notification_id') (qa_notifications db)) ;;
  match db_notification with
  | None => ret false
  | Some db_notification =>
      commit (set_qa_notifications
                (delete_row QANotification.notification_id db_notification)) ;;
      ret true
  end.

(** *** Comments and mentions read back *)


Definition get_mentions_for_comment (comment_id' : Z) : M (list CommentMention.t) :=
  query (fun db =>
    List.filter (fun m => CommentMention.comment_id m =? comment_id')
                (comment_mentions db)).

(* ===================================================================== *)
(** ** main.py: the endpoints of notifications, watchers and reactions    *)
(* ===================================================================== *)

(** The endpoints receive the authenticated employee as [current_user]. *)

Definition mark_notification_read_endpoint
    (now : datetime) (notification_id' : Z) (current_user : Employee.t)
    : M QANotification.t :=
  notification <- mark_notification_read now notification_id' ;;
  match notification with
  | None => raise (HTTPException 404 "Notification not found")
  | Some notification =>
      if bool_decide (QANotification.employee_id notification
                      ≠ Employee.employee_id current_user)
      then raise (HTTPException 403 "Not authorized to modify this notification")
      else ret notification
  end.

Definition delete_notification_endpoint
    (notification_id' : Z) (current_user : Employee.t) : M unit :=
  notification <- query (fun db =>
    first (notification_of notification_id') (qa_notifications db)) ;;
  match notification with
  | None => raise (HTTPException 404 "Notification not found")
  | Some notification =>
      if bool_decide (QANotification.employee_id notification
                      ≠ Employee.employee_id current_user)
      then raise (HTTPException 403 "Not authorized to delete this notification")
      else
        success <- delete_notification notification_id' ;;
        if negb success
        then raise (HTTPException 404 "Notification not found")
        else ret tt
  end.

(** schemas.py: [AmendmentWatcherCreate] and [AmendmentWatcherUpdate] *)
Module AmendmentWatcherCreate.
Record t : Type := mk {
  watch_reason : string;
  notify_comments : bool;
  notify_status_changes : bool;
  notify_mentions : bool;
}.
End AmendmentWatcherCreate.

Module AmendmentWatcherUpdate.
Record t : Type := mk {
  is_watching : option bool;
  notify_comments : option bool;
  notify_status_changes : option bool;
  notify_mentions : option bool;
}.
End AmendmentWatcherUpdate.


Definition unwatch_amendment_endpoint
    (amendment_id' : Z) (current_user : Employee.t) : M unit :=
  remove_watcher amendment_id' (Employee.employee_id current_user).

Definition check_if_watching_endpoint
    (amendment_id' : Z) (current_user : Employee.t) : M bool :=
  is_watching amendment_id' (Employee.employee_id current_user).




Definition get_user_watched_amendments_endpoint
    (employee_id' : Z) (current_user : Employee.t) : M (list Z) :=
  if bool_decide (employee_id' ≠ Employee.employee_id current_user)
  then raise (HTTPException 403 "Not authorized")
  else
    watchers <- query (fun db =>
      List.filter
        (fun w => (AmendmentWatcher.employee_id w =? employee_id')
                  && selected (sql_is_true
                                 (of_bool (AmendmentWatcher.is_watching w))))
        (amendment_watchers db)) ;;
    ret (map AmendmentWatcher.amendment_id watchers).


(* ===================================================================== *)
(** ** Notions used in the statements                                     *)
(* ===================================================================== *)

(** A text recognised by the enumeration. *)
Definition is_status_value (s : string) : Prop := ∃ m : QAStatus, s = value m.

(** [sub] occurs in [s]. *)
Definition contains (s sub : string) : Prop :=
  ∃ pre post : string, s = pre +:+ sub +:+ post.

(** The white space of Python, character by character: the code points for
    which [str.isspace] holds. *)
Definition whitespace : list Z :=
  [9; 10; 11; 12; 13; 28; 29; 30; 31; 32; 133; 160; 5760;
   8192; 8193; 8194; 8195; 8196; 8197; 8198; 8199; 8200; 8201; 8202;
   8232; 8233; 8239; 8287; 12288].

(** A tester is assigned: the reference is set, and is not the number 0,
    which Python takes for false. *)
Definition tester_assigned (a : Amendment) : Prop :=
  ∃ n : Z, qa_assigned_id a = Some n ∧ n ≠ 0.

(** The text attribute is set and one of its characters at least is not
    white space. *)
Definition has_text (x : option string) : Prop :=
  ∃ (s : string) (c : Z), x = Some s ∧ c ∈ chars s ∧ c ∉ whitespace.

(** The four prerequisites of Passed. *)
Definition passed_prerequisites (a : Amendment) : Prop :=
  qa_test_plan_check a = Some true
  ∧ qa_test_release_notes_check a = Some true
  ∧ qa_started_date a ≠ None
  ∧ has_text (qa_notes a).

(** The gate on entering each status, as section 4.1 of the specification
    words it. *)
Definition entry_gate (s : QAStatus) (a : Amendment) : Prop :=
  match s with
  | NOT_STARTED | FAILED => True
  | ASSIGNED => tester_assigned a
  | IN_TESTING => tester_assigned a ∧ qa_assigned_date a ≠ None
  | PASSED => passed_prerequisites a
  | BLOCKED => has_text (qa_blocked_reason a)
  end.

(** The two exceptions met below. *)
Definition unexpected_keyword : exn :=
  TypeError
    "create_notification() got an unexpected keyword argument 'employee_id'".

Definition no_username : exn :=
  AttributeError "type object 'Employee' has no attribute 'username'".

(** The constraints the schema puts on the watcher table: the primary key
    [watcher_id], and [uq_amendment_watcher] on the pair of the amendment and
    the employee. *)
Definition watcher_pair (w : AmendmentWatcher.t) : Z * Z :=
  (AmendmentWatcher.amendment_id w, AmendmentWatcher.employee_id w).

Definition watchers_wf (db : DB) : Prop :=
  NoDup (map AmendmentWatcher.watcher_id (amendment_watchers db))
  ∧ NoDup (map watcher_pair (amendment_watchers db)).

(** The number of watcher rows of a pair. *)
Definition watcher_rows (amendment_id' employee_id' : Z) (db : DB) : nat :=
  length (List.filter (watcher_of amendment_id' employee_id')
                      (amendment_watchers db)).

(** The number of reactions with a given emoji among some rows. *)
Definition emoji_count (emoji' : string) (rows : list CommentReaction.t) : Z :=
  Z.of_nat (length (List.filter
                      (fun r => String.eqb (CommentReaction.emoji r) emoji')
                      rows)).

(** Two stores hold the same rows in every table. *)
Definition same_tables (db db' : DB) : Prop :=
  amendments db = amendments db'
  ∧ employees db = employees db'
  ∧ qa_history db = qa_history db'
  ∧ qa_notifications db = qa_notifications db'
  ∧ qa_comments db = qa_comments db'
  ∧ comment_mentions db = comment_mentions db'
  ∧ amendment_watchers db = amendment_watchers db'
  ∧ comment_reactions db = comment_reactions db'.

(** The rows of the ledger that a (comment, collaborator, emoji) triple
    contributes. *)
Definition reaction_rows
    (comment_id' employee_id' : Z) (emoji' : string) (db : DB)
    : list CommentReaction.t :=
  List.filter (reaction_of comment_id' employee_id' emoji') (comment_reactions db).

(* ===================================================================== *)
(** ** Concrete inputs                                                    *)
(* ===================================================================== *)

(** An amendment with the given status and nothing else recorded. *)
Definition bare_amendment (id : Z) (status : string) : Amendment :=
  mkAmendment id status None None None None None None None None None None None
              None.

(** Blocked, with no reason recorded. *)
Definition blocked_without_reason : Amendment := bare_amendment 1 "Blocked".

(** In Testing, nothing of the checklist done. *)
Definition testing_nothing_done : Amendment := bare_amendment 1 "In Testing".

(** In Testing, with the four prerequisites of Passed. *)
Definition testing_all_done : Amendment :=
  mkAmendment 1 "In Testing" (Some 7) (Some 100) (Some 200) (Some true)
              (Some true) None None None (Some "all cases run") None None None.

(** Not Started, with a tester assigned: the transition to Assigned is
    accepted by the validator. *)
Definition ready_to_assign : Amendment :=
  mkAmendment 1 "Not Started" (Some 7) None None None None None None None None
              None None None.

(** The request that sets [qa_status] to Assigned and nothing else. *)
Definition assign_update : AmendmentQAUpdate.t :=
  AmendmentQAUpdate.mk (Some (Some "Assigned")) None None None None None None
                       None None None None None None.

Definition empty_db : DB := mkDB [] [] [] [] [] [] [] [] ∅ true.

Definition assign_db : DB := set_amendments (fun _ => [ready_to_assign]) empty_db.

(** Two active collaborators: alice, whose login name is alice, and
    Bob Smith. *)
Definition employee (id : Z) (name login : string) : Employee.t :=
  Employee.mk id name None None (Some login) (Some true) "User" None None 0 0.

Definition alice : Employee.t := employee 1 "Alice Jones" "alice".
Definition bob : Employee.t := employee 2 "Bob Smith" "bsmith".
Definition carol : Employee.t := employee 3 "Carol Diaz" "cdiaz".

Definition staff_db : DB :=
  mkDB [] [alice; bob; carol] [] [] [] [] [] [] ∅ true.

(** [ping @alice and @"Bob Smith"], the quotes being character 34. *)
Definition dq : string := String dquote EmptyString.
Definition ping_text : string :=
  "ping @alice and @" +:+ dq +:+ "Bob Smith" +:+ dq.

(** Amendment 10 watched by alice, bob and carol, all three active, carol
    having switched the status-change notifications off. *)
Definition watcher (id amendment_id' employee_id' : Z) (status_changes : bool)
    : AmendmentWatcher.t :=
  AmendmentWatcher.mk id amendment_id' employee_id' (Some "Manual") (Some true)
                      (Some true) (Some status_changes) (Some true).

Definition watched_db : DB :=
  mkDB [] [alice; bob; carol] [] [] [] []
       [watcher 1 10 1 true; watcher 2 10 2 true; watcher 3 10 3 false] []
       {["amendment_watchers" := 3]} true.

(** Comment 5 with one reaction of bob. *)
Definition reacted_db : DB :=
  mkDB [] [alice; bob; carol] [] [] [] [] []
       [CommentReaction.mk 1 5 2 "+1"] {["comment_reactions" := 1]} true.

(** Requests to [update_amendment_qa] that set one field. *)
Definition no_update : AmendmentQAUpdate.t :=
  AmendmentQAUpdate.mk None None None None None None None None None None None
                       None None.

Definition status_update (status : option string) : AmendmentQAUpdate.t :=
  AmendmentQAUpdate.mk (Some status) None None None None None None None None
                       None None None None.

Definition unassign_update : AmendmentQAUpdate.t :=
  AmendmentQAUpdate.mk None (Some None) None None None None None None None
                       None None None None.

Definition test_plan_update (value : bool) : AmendmentQAUpdate.t :=
  AmendmentQAUpdate.mk None None None None (Some (Some value)) None None None
                       None None None None None.

Definition release_notes_update (value : bool) : AmendmentQAUpdate.t :=
  AmendmentQAUpdate.mk None None None None None (Some (Some value)) None None
                       None None None None None.

(** Assigned, with tester 7 and the date of the assignment. *)
Definition assigned_to_tester : Amendment :=
  mkAmendment 1 "Assigned" (Some 7) (Some 100) None None None None None None
              None None None None.

(** Passed, with the four prerequisites. *)
Definition passed_all_done : Amendment :=
  mkAmendment 1 "Passed" (Some 7) (Some 100) (Some 200) (Some true)
              (Some true) None None None (Some "all cases run") None None None.

(** Notifications 1 and 3 for alice, 2 for bob; 1 and 2 unread, 3 with no
    read flag recorded. *)
Definition notification (id employee_id' : Z) (read : option bool)
    : QANotification.t :=
  QANotification.mk id employee_id' "Status Changed" "QA Status Changed" None
                    (Some 10) None read (Some false) None.

Definition inbox_db : DB :=
  mkDB [] [alice; bob; carol] []
       [notification 1 1 (Some false); notification 2 2 (Some false);
        notification 3 1 None]
       [] [] [] [] {["qa_notifications" := 3]} true.

(** A row of the watcher table says that the employee watches the
    amendment. *)
Definition watching (amendment_id' employee_id' : Z) (db : DB) : Prop :=
  ∃ w, w ∈ amendment_watchers db
       ∧ watcher_pair w = (amendment_id', employee_id')
       ∧ AmendmentWatcher.is_watching w = Some true.

(** The watcher is passed over by the broadcast of an event: it is the
    acting employee, or it has switched the notifications of that kind of
    event off. *)
Definition passed_over
    (event_type : string) (exclude_employee_id : option Z)
    (w : AmendmentWatcher.t) : Prop :=
  (exclude_employee_id = Some (AmendmentWatcher.employee_id w)
   ∧ AmendmentWatcher.employee_id w ≠ 0)
  ∨ (event_type = "comment"
     ∧ AmendmentWatcher.notify_comments w ≠ Some true)
  ∨ (event_type = "status_change"
     ∧ AmendmentWatcher.notify_status_changes w ≠ Some true)
  ∨ (event_type = "mention"
     ∧ AmendmentWatcher.notify_mentions w ≠ Some true).




(** The key of the constraint [uq_comment_reaction], and the two constraints
    of the reaction ledger. *)
Definition reaction_triple (r : CommentReaction.t) : Z * Z * string :=
  (CommentReaction.comment_id r, CommentReaction.employee_id r,
   CommentReaction.emoji r).

Definition reactions_wf (db : DB) : Prop :=
  NoDup (map CommentReaction.reaction_id (comment_reactions db))
  ∧ NoDup (map reaction_triple (comment_reactions db)).

(** The reactions that [get_reactions_for_comment] reads. *)
Definition reactions_of_comment (comment_id' : Z) (db : DB)
    : list CommentReaction.t :=
  List.filter (fun r => CommentReaction.comment_id r =? comment_id')
              (comment_reactions db).

(** Two stores differ at most by their watcher table and by the numbering of
    its rows. *)
Definition same_but_watchers (db db' : DB) : Prop :=
  amendments db = amendments db'
  ∧ employees db = employees db'
  ∧ qa_history db = qa_history db'
  ∧ qa_notifications db = qa_notifications db'
  ∧ qa_comments db = qa_comments db'
  ∧ comment_mentions db = comment_mentions db'
  ∧ comment_reactions db = comment_reactions db'.

(** An ASCII word character: a digit, a letter or the underscore. *)
Definition is_word (c : ascii) : bool :=
  let n := code c in
  ((48 <=? n) && (n <=? 57)) || ((65 <=? n) && (n <=? 90))
  || ((97 <=? n) && (n <=? 122)) || (n =? 95).

(** The text holds an at-sign directly followed by an ASCII word
    character. *)
Fixpoint at_word (s : string) : bool :=
  match s with
  | EmptyString => false
  | String c rest =>
      match rest with
      | EmptyString => false
      | String d _ => (Ascii.eqb c at_sign && is_word d) || at_word rest
      end
  end.

(** The text holds no at-sign. *)
Fixpoint no_at (s : string) : bool :=
  match s with
  | EmptyString => true
  | String c rest => negb (Ascii.eqb c at_sign) && no_at rest
  end.

(** The watchers of amendment 10 and a comment of bob on it. *)
Definition commented_db : DB :=
  mkDB [bare_amendment 10 "Not Started"] [alice; bob; carol] [] []
       [QAComment.mk 5 10 2 None "ready for a look" "General" (Some false)] []
       [watcher 1 10 1 true; watcher 2 10 2 true; watcher 3 10 3 false] []
       {["amendment_watchers" := 3; "qa_comments" := 5]} true.

(** Texts made of white space only: three blanks, one NO-BREAK SPACE
    (U+00A0, the bytes C2 A0), an EM SPACE (U+2003, the bytes E2 80 83)
    followed by a tab, and one IDEOGRAPHIC SPACE (U+3000, E3 80 80). *)
Definition three_blanks : string := "   ".

Definition nbsp : string :=
  String (ascii_of_nat 194) (String (ascii_of_nat 160) EmptyString).

Definition em_space_tab : string :=
  String (ascii_of_nat 226)
    (String (ascii_of_nat 128)
       (String (ascii_of_nat 131) (String (ascii_of_nat 9) EmptyString))).

Definition ideographic_space : string :=
  String (ascii_of_nat 227)
    (String (ascii_of_nat 128) (String (ascii_of_nat 128) EmptyString)).

(** In Testing with the checklist done and the given notes, and Blocked with
    the given reason. *)
Definition tested_with_notes (notes : string) : Amendment :=
  mkAmendment 1 "In Testing" (Some 7) (Some 100) (Some 200) (Some true)
              (Some true) None None None (Some notes) None None None.

Definition blocked_with (reason : string) : Amendment :=
  mkAmendment 1 "Blocked" (Some 7) (Some 100) (Some 200) None None None None
              None None None (Some reason) None.

(** The integers that fit in 64 bits. *)
Definition in_int64 (n : Z) : Prop := - 2 ^ 63 ≤ n ∧ n < 2 ^ 63.

(** The request names no tester outside 64 bits. *)
Definition tester_in_int64 (u : AmendmentQAUpdate.t) : Prop :=
  ∀ n, AmendmentQAUpdate.qa_assigned_id u = Some (Some n) → in_int64 n.

(** The request that assigns tester [n] and nothing else. *)
Definition assign_tester (n : Z) : AmendmentQAUpdate.t :=
  AmendmentQAUpdate.mk None (Some (Some n)) None None None None None None None
                       None None None None.

(* ===================================================================== *)
(** * Properties                                                          *)
(* ===================================================================== *)

(** ** Strings *)

Lemma append_empty_l (b : string) : "" +:+ b = b.
Proof. reflexivity. Qed.

Lemma append_cons (x : ascii) (a b : string) :
  String x a +:+ b = String x (a +:+ b).
Proof. reflexivity. Qed.

Lemma append_assoc (a b c : string) : (a +:+ b) +:+ c = a +:+ (b +:+ c).
Proof.
  induction a as [|x a IH]; [done |]. rewrite !append_cons. by f_equal.
Qed.

Lemma append_empty_r (a : string) : a +:+ "" = a.
Proof.
  induction a as [|x a IH]; [done |]. rewrite append_cons. by f_equal.
Qed.

Lemma contains_refl (s : string) : contains s s.
Proof. exists "", "". by rewrite append_empty_l, append_empty_r. Qed.

Lemma contains_prefix (p s sub : string) : contains s sub → contains (p +:+ s) sub.
Proof.
  intros (pre & post & ->). exists (p +:+ pre), post. by rewrite append_assoc.
Qed.

Lemma contains_suffix (s q sub : string) : contains s sub → contains (s +:+ q) sub.
Proof.
  intros (pre & post & ->). exists pre, (post +:+ q).
  by rewrite !append_assoc.
Qed.

Lemma contains_join (sep : string) (f : string → string) (l : list string) (b : string) :
  (∀ x, contains (f x) x) → b ∈ l → contains (join sep (map f l)) b.
Proof.
  intros Hf. induction l as [|x l IH]; intros Hin.
  - by apply elem_of_nil in Hin.
  - apply elem_of_cons in Hin as [-> | Hin].
    + destruct l as [|y l]; simpl; [apply Hf |].
      apply contains_suffix, Hf.
    + destruct l as [|y l]; [by apply elem_of_nil in Hin |].
      change (join sep (map f (x :: y :: l)))
        with (f x +:+ sep +:+ join sep (map f (y :: l))).
      by apply contains_prefix, contains_prefix, IH.
Qed.

Lemma is_space_whitespace (c : Z) : is_space c = true ↔ c ∈ whitespace.
Proof.
  unfold is_space, whitespace.
  rewrite !orb_true_iff, !andb_true_iff, !Z.leb_le, !Z.eqb_eq.
  rewrite !elem_of_cons, elem_of_nil. lia.
Qed.

Lemma lstrip_nil (l : list Z) : lstrip l = [] ↔ Forall (fun c => is_space c = true) l.
Proof.
  induction l as [|c l IH]; simpl; [by split |].
  destruct (is_space c) eqn:Hc.
  - rewrite IH. split; [by constructor | by intros [_ ?]%Forall_cons].
  - split; [done | intros [? _]%Forall_cons; congruence].
Qed.

Lemma rstrip_nil (l : list Z) : rstrip l = [] ↔ Forall (fun c => is_space c = true) l.
Proof.
  induction l as [|c l IH]; simpl; [by split |].
  destruct (rstrip l) as [|r rs] eqn:Hr.
  - destruct (is_space c) eqn:Hc.
    + split; [intros _; constructor; [done | by apply IH] | done].
    + split; [done | intros [? _]%Forall_cons; congruence].
  - split; [done |]. intros [_ Hl]%Forall_cons. by apply IH in Hl.
Qed.

Lemma lstrip_suffix (l : list Z) : ∃ pre, l = pre ++ lstrip l
                                          ∧ Forall (fun c => is_space c = true) pre.
Proof.
  induction l as [|c l IH]; simpl; [by exists [] |].
  destruct (is_space c) eqn:Hc; [| by exists []].
  destruct IH as (pre & Hl & Hpre). exists (c :: pre). simpl.
  split; [by f_equal | by constructor].
Qed.

(** The stripped text is empty exactly when every character is white
    space. *)
Lemma strip_nil (s : string) :
  strip s = [] ↔ Forall (fun c => c ∈ whitespace) (chars s).
Proof.
  unfold strip. rewrite rstrip_nil.
  destruct (lstrip_suffix (chars s)) as (pre & Hl & Hpre).
  assert (Hws : ∀ l, Forall (fun c => is_space c = true) l
                     ↔ Forall (fun c => c ∈ whitespace) l).
  { intros l. apply Forall_iff. intros c. apply is_space_whitespace. }
  rewrite <- Hws. generalize dependent (chars s). intros l Hl. split.
  - intros H. rewrite Hl. apply Forall_app. by split.
  - intros H. rewrite Hl in H. by apply Forall_app in H as [_ ?].
Qed.

Lemma blank_false (x : option string) : blank x = false ↔ has_text x.
Proof.
  unfold blank, has_text. destruct x as [s|]; simpl.
  - pose proof (strip_nil s) as Hnil. split.
    + intros [_ H]%orb_false_elim.
      assert (Hn : ¬ Forall (fun c => c ∈ whitespace) (chars s)).
      { intros HF. apply Hnil in HF. by rewrite HF in H. }
      apply not_Forall_Exists in Hn; [| intros c; apply _].
      apply Exists_exists in Hn as (c & Hin & Hc). by exists s, c.
    + intros (s' & c & [= <-] & Hin & Hc).
      destruct (strip s) as [|c' l'] eqn:E.
      * exfalso.
        assert (HF : Forall (fun c => c ∈ whitespace) (chars s))
          by (by apply Hnil).
        rewrite Forall_forall in HF. by apply Hc, HF.
      * destruct s; [by apply elem_of_nil in Hin | done].
  - split; [done | by intros (s & ? & ? & _)].
Qed.

Lemma blank_true (x : option string) : blank x = true ↔ ¬ has_text x.
Proof.
  rewrite <- blank_false. destruct (blank x); split; congruence.
Qed.

Lemma has_text_exists (s : string) :
  has_text (Some s) ↔ Exists (fun c => c ∉ whitespace) (chars s).
Proof.
  unfold has_text. rewrite Exists_exists. split.
  - intros (s' & c & [= <-] & ? & ?). by exists c.
  - intros (c & ? & ?). by exists s, c.
Qed.

(** How texts are read: a NO-BREAK SPACE, an EM SPACE and a tab, a letter
    of two bytes and a sign of three, a character of four bytes, and a byte
    that starts nothing. *)
Lemma chars_read :
  chars nbsp = [160]
  ∧ chars em_space_tab = [8195; 9]
  ∧ chars ideographic_space = [12288]
  ∧ chars "é€" = [233; 8364]
  ∧ chars "😀" = [128512]
  ∧ chars (String (ascii_of_nat 160) "a") = [1114272; 97].
Proof. by vm_compute. Qed.

(** A slice counts characters, not bytes. *)
Lemma str_take_counts_characters :
  str_take 2 "é€x" = "é€"
  ∧ str_take 100 "é€x" = "é€x"
  ∧ String.length (str_take 2 "é€x") = 5%nat.
Proof. by vm_compute. Qed.

(** An ASCII text is read byte by byte. *)
Lemma first_char_ascii (b : ascii) (rest : string) :
  code b < 128 → first_char b rest = (code b, 1%nat).
Proof.
  intros H. unfold first_char. by rewrite (proj2 (Z.ltb_lt _ _) H).
Qed.

Lemma truthy_int_true (x : option Z) :
  truthy_int x = true ↔ ∃ n, x = Some n ∧ n ≠ 0.
Proof.
  destruct x as [n|]; simpl.
  - rewrite negb_true_iff, Z.eqb_neq. split; [eauto | by intros (? & [= <-] & ?)].
  - split; [done | by intros (? & ? & _)].
Qed.

Lemma truthy_datetime_true (x : option datetime) :
  truthy_datetime x = true ↔ x ≠ None.
Proof. by destruct x. Qed.

Lemma truthy_bool_true (x : option bool) : truthy_bool x = true ↔ x = Some true.
Proof. destruct x as [[]|]; simpl; split; congruence. Qed.

(** ** The enumeration *)

Lemma QAStatus_of_value (m : QAStatus) : QAStatus_of (value m) = Ok m.
Proof. by destruct m. Qed.

Lemma QAStatus_of_Ok (s : string) (m : QAStatus) : QAStatus_of s = Ok m → s = value m.
Proof.
  unfold QAStatus_of. destruct (find _ _) as [m'|] eqn:E; [| done].
  intros [= ->]. apply find_some in E as [_ E]. by apply String.eqb_eq in E.
Qed.

Lemma QAStatus_of_unknown (s : string) :
  ¬ is_status_value s → ∃ e, QAStatus_of s = Raise e.
Proof.
  intros Hs. destruct (QAStatus_of s) as [m|e] eqn:E; [| eauto].
  destruct Hs. exists m. by apply QAStatus_of_Ok.
Qed.

Lemma can_transition_value (from to : QAStatus) :
  can_transition (value from) (value to)
  = if bool_decide (from = to) then true
    else status_in to (VALID_TRANSITIONS from).
Proof. unfold can_transition. by rewrite !QAStatus_of_value. Qed.

(** ** The status machine *)

Lemma invalid_transition_error_nonempty (x y : string) :
  invalid_transition_error x y ≠ "".
Proof. unfold invalid_transition_error. by rewrite append_cons. Qed.

Lemma invalid_transition_error_path (x y : string) :
  contains (invalid_transition_error x y) workflow_path.
Proof.
  unfold invalid_transition_error.
  do 6 apply contains_prefix. apply contains_refl.
Qed.

Lemma validate_transition_off_table (a : Amendment) (to : string) :
  can_transition (qa_status a) to = false →
  validate_transition a to
  = Ok (false, Some (invalid_transition_error (qa_status a) to)).
Proof. intros H. unfold validate_transition. by rewrite H. Qed.

(** C1. A transition between two different statuses that is not an edge of
    the transition table is rejected by [validate_transition] with a
    non-empty reason, which names the legal path; the validation endpoint
    reports the rejection, returns the store as it received it, and answers
    with the status the amendment had. *)
Theorem validate_transition_rejects_off_table
    (a : Amendment) (from to : QAStatus) :
  qa_status a = value from →
  from ≠ to →
  to ∉ VALID_TRANSITIONS from →
  let reason := invalid_transition_error (value from) (value to) in
  validate_transition a (value to) = Ok (false, Some reason)
  ∧ reason ≠ ""
  ∧ contains reason workflow_path
  ∧ ∀ db : DB,
      first (fun x => amendment_id x =? amendment_id a) (amendments db) = Some a →
      validate_qa_transition_endpoint (amendment_id a) (value to) db
      = (db, Ok (mkValidationResponse false (Some reason) (value from) (value to))).
Proof.
  intros Hst Hne Hedge reason.
  assert (Hv : validate_transition a (value to) = Ok (false, Some reason)).
  { rewrite validate_transition_off_table; rewrite Hst; [done |].
    rewrite can_transition_value, bool_decide_eq_false_2 by done.
    by apply bool_decide_eq_false_2. }
  split_and!; [done | apply invalid_transition_error_nonempty
              | apply invalid_transition_error_path |].
  intros db Hrow.
  unfold validate_qa_transition_endpoint, bind, get_amendment, query, lift, ret,
    validate_qa_status_change.
  by rewrite Hrow, Hv, Hst.
Qed.

Lemma validate_transition_rejects_off_table_witness :
  qa_status (bare_amendment 1 "Not Started") = value NOT_STARTED
  ∧ NOT_STARTED ≠ PASSED
  ∧ (PASSED ∉ VALID_TRANSITIONS NOT_STARTED)
  ∧ validate_transition (bare_amendment 1 "Not Started") (value PASSED)
    = Ok (false, Some (invalid_transition_error "Not Started" "Passed")).
Proof.
  assert (H1 : qa_status (bare_amendment 1 "Not Started") = value NOT_STARTED)
    by reflexivity.
  assert (H2 : NOT_STARTED ≠ PASSED) by discriminate.
  assert (H3 : PASSED ∉ VALID_TRANSITIONS NOT_STARTED).
  { intros H. apply list_elem_of_singleton in H. discriminate. }
  split_and!; [exact H1 | exact H2 | exact H3 |].
  exact (proj1 (validate_transition_rejects_off_table
                  (bare_amendment 1 "Not Started") NOT_STARTED PASSED H1 H2 H3)).
Defined.

Lemma passed_error_truthy (blockers : list string) :
  truthy_str (Some (passed_error blockers)) = true.
Proof. unfold passed_error, passed_header. by rewrite !append_cons. Qed.

Lemma passed_error_nonempty (blockers : list string) : passed_error blockers ≠ "".
Proof. unfold passed_error, passed_header. by rewrite !append_cons. Qed.

Lemma completion_blockers_nil (a : Amendment) :
  _check_completion_blockers a = [] ↔ passed_prerequisites a.
Proof.
  unfold _check_completion_blockers, passed_prerequisites.
  rewrite <- !truthy_bool_true, <- truthy_datetime_true, <- blank_false.
  destruct (truthy_bool (qa_test_plan_check a)),
    (truthy_bool (qa_test_release_notes_check a)),
    (truthy_datetime (qa_started_date a)), (blank (qa_notes a));
    simpl; split; try done; intros (? & ? & ? & ?); congruence.
Qed.

(** What the requirement checks return for each target status. *)
Lemma requirements_value (a : Amendment) (to : QAStatus) :
  _validate_transition_requirements a (value to)
  = Ok match to with
       | NOT_STARTED | FAILED => None
       | ASSIGNED =>
           if truthy_int (qa_assigned_id a) then None else Some err_assigned
       | IN_TESTING =>
           if truthy_int (qa_assigned_id a)
           then if truthy_datetime (qa_assigned_date a) then None
                else Some err_testing_date
           else Some err_testing_tester
       | PASSED =>
           match _check_completion_blockers a with
           | [] => None
           | blockers => Some (passed_error blockers)
           end
       | BLOCKED => if blank (qa_blocked_reason a) then Some err_blocked else None
       end.
Proof.
  unfold _validate_transition_requirements. rewrite QAStatus_of_value.
  unfold rbind, is_status.
  destruct to; repeat case_bool_decide; try congruence; simpl; f_equal;
    try destruct (_check_completion_blockers a); simpl;
    repeat (match goal with
            | |- context [truthy_int ?x] => destruct (truthy_int x)
            | |- context [truthy_datetime ?x] => destruct (truthy_datetime x)
            | |- context [blank ?x] => destruct (blank x)
            end; simpl);
    reflexivity.
Qed.

(** The two shapes a case of the judgment takes once the attributes it
    tests are fixed. *)
Ltac accept_case :=
  split;
  [ split; [intros _; repeat split; reflexivity | reflexivity]
  | intros HP; exfalso; apply HP; repeat split; reflexivity ].

Ltac refuse_case :=
  split;
  [ split; [discriminate | intros HP; exfalso; intuition discriminate]
  | intros _; eexists; split; [reflexivity | by compute] ].

(** Once the table check has passed, the judgment is the entry gate of the
    target status, and a refusal always carries a non-empty reason. *)
Lemma validate_transition_on_table (a : Amendment) (to : QAStatus) :
  can_transition (qa_status a) (value to) = true →
  (validate_transition a (value to) = Ok (true, None) ↔ entry_gate to a)
  ∧ (¬ entry_gate to a →
     ∃ reason, validate_transition a (value to) = Ok (false, Some reason)
               ∧ reason ≠ "").
Proof.
  intros Hcan. unfold validate_transition. rewrite Hcan, requirements_value.
  unfold rbind, negb, entry_gate, tester_assigned.
  destruct to.
  - accept_case.
  - rewrite <- (truthy_int_true (qa_assigned_id a)).
    destruct (truthy_int _); simpl; [accept_case | refuse_case].
  - rewrite <- (truthy_int_true (qa_assigned_id a)), <- truthy_datetime_true.
    destruct (truthy_int _), (truthy_datetime _); simpl;
      [accept_case | refuse_case..].
  - rewrite <- blank_false.
    destruct (blank _); simpl; [refuse_case | accept_case].
  - rewrite <- completion_blockers_nil.
    destruct (_check_completion_blockers a) as [|b bl] eqn:E.
    + accept_case.
    + rewrite passed_error_truthy.
      split; [done |]. intros _. eexists. split; [done |].
      apply passed_error_nonempty.
  - accept_case.
Qed.

(** C2, the case that fails: a Blocked amendment with no reason recorded is
    refused the transition to Blocked. *)
Lemma self_transition_refused :
  qa_status blocked_without_reason = value BLOCKED
  ∧ validate_transition blocked_without_reason (value BLOCKED)
    = Ok (false, Some err_blocked)
  ∧ validate_transition blocked_without_reason (value BLOCKED)
    ≠ Ok (true, None).
Proof. by vm_compute. Qed.

(** C2, amended. A self-transition from one of the six statuses always passes
    the table check; [validate_transition] then accepts it exactly when the
    entry gate of that status holds on the amendment (there is none for
    Not Started and Failed), and otherwise returns a non-empty reason. *)
Theorem self_transition_subject_to_entry_gate (a : Amendment) (s : QAStatus) :
  qa_status a = value s →
  can_transition (qa_status a) (value s) = true
  ∧ (validate_transition a (value s) = Ok (true, None) ↔ entry_gate s a)
  ∧ (¬ entry_gate s a →
     ∃ reason, validate_transition a (value s) = Ok (false, Some reason)
               ∧ reason ≠ "").
Proof.
  intros Hst.
  assert (Hcan : can_transition (qa_status a) (value s) = true).
  { by rewrite Hst, can_transition_value, bool_decide_eq_true_2. }
  split; [done |]. by apply validate_transition_on_table.
Qed.

Lemma self_transition_subject_to_entry_gate_witness :
  qa_status (blocked_with "waiting for test data") = value BLOCKED
  ∧ validate_transition (blocked_with "waiting for test data") (value BLOCKED)
    = Ok (true, None)
  ∧ validate_transition (blocked_with nbsp) (value BLOCKED) ≠ Ok (true, None)
  ∧ validate_transition (blocked_with three_blanks) (value BLOCKED)
    ≠ Ok (true, None)
  ∧ validate_transition (bare_amendment 1 "Failed") (value FAILED)
    = Ok (true, None).
Proof.
  split_and!.
  - reflexivity.
  - apply (proj1 (proj2 (self_transition_subject_to_entry_gate
                           (blocked_with "waiting for test data") BLOCKED
                           eq_refl))).
    apply has_text_exists. apply (bool_decide_unpack _). vm_compute. exact I.
  - intros H.
    apply (proj1 (proj2 (self_transition_subject_to_entry_gate
                           (blocked_with nbsp) BLOCKED eq_refl))) in H.
    apply has_text_exists in H. revert H.
    apply (bool_decide_unpack _). vm_compute. exact I.
  - intros H.
    apply (proj1 (proj2 (self_transition_subject_to_entry_gate
                           (blocked_with three_blanks) BLOCKED eq_refl))) in H.
    apply has_text_exists in H. revert H.
    apply (bool_decide_unpack _). vm_compute. exact I.
  - exact (proj2 (proj1 (proj2 (self_transition_subject_to_entry_gate
                                  (bare_amendment 1 "Failed") FAILED eq_refl)))
                 I).
Defined.

Lemma bullet_contains (b : string) : contains (bullet b) b.
Proof. unfold bullet. apply contains_prefix, contains_refl. Qed.

Lemma passed_error_lists (blockers : list string) (b : string) :
  b ∈ blockers → contains (passed_error blockers) b.
Proof.
  intros Hin. unfold passed_error.
  by apply contains_prefix, contains_join; [apply bullet_contains |].
Qed.

(** Each missing prerequisite puts its message in the list of blockers. *)
Lemma completion_blockers_complete (a : Amendment) :
  let blockers := _check_completion_blockers a in
  (qa_test_plan_check a ≠ Some true → blocker_test_plan ∈ blockers)
  ∧ (qa_test_release_notes_check a ≠ Some true → blocker_release_notes ∈ blockers)
  ∧ (qa_started_date a = None → blocker_started ∈ blockers)
  ∧ (¬ has_text (qa_notes a) → blocker_notes ∈ blockers).
Proof.
  unfold _check_completion_blockers.
  rewrite <- !truthy_bool_true, <- blank_true.
  split_and!; intros H; try apply not_true_is_false in H; rewrite H; simpl;
    repeat case_match; set_solver.
Qed.

Lemma completion_blockers_two (a : Amendment) :
  qa_test_plan_check a ≠ Some true →
  qa_test_release_notes_check a ≠ Some true →
  (2 ≤ length (_check_completion_blockers a))%nat.
Proof.
  rewrite <- !truthy_bool_true. intros H1%not_true_is_false H2%not_true_is_false.
  unfold _check_completion_blockers. rewrite H1, H2. simpl. lia.
Qed.

(** C3. From In Testing, [validate_transition] to Passed returns ok exactly
    when the four prerequisites hold. Otherwise it returns not-ok with the
    message built from the whole list of blockers: every missing prerequisite
    has its message in that list, every message of the list occurs in the
    reason, and with both checklist flags unset the list has at least two
    entries. *)
Theorem passed_requires_all_prerequisites (a : Amendment) :
  qa_status a = value IN_TESTING →
  let blockers := _check_completion_blockers a in
  (validate_transition a (value PASSED) = Ok (true, None)
   ↔ passed_prerequisites a)
  ∧ (¬ passed_prerequisites a →
     validate_transition a (value PASSED)
     = Ok (false, Some (passed_error blockers))
     ∧ can_complete_qa a = (false, blockers))
  ∧ (qa_test_plan_check a ≠ Some true → blocker_test_plan ∈ blockers)
  ∧ (qa_test_release_notes_check a ≠ Some true → blocker_release_notes ∈ blockers)
  ∧ (qa_started_date a = None → blocker_started ∈ blockers)
  ∧ (¬ has_text (qa_notes a) → blocker_notes ∈ blockers)
  ∧ (∀ b, b ∈ blockers → contains (passed_error blockers) b)
  ∧ (qa_test_plan_check a ≠ Some true →
     qa_test_release_notes_check a ≠ Some true →
     (2 ≤ length blockers)%nat).
Proof.
  intros Hst blockers.
  assert (Hcan : can_transition (qa_status a) (value PASSED) = true)
    by (by rewrite Hst).
  destruct (completion_blockers_complete a) as (H1 & H2 & H3 & H4).
  split_and!; try done.
  - by apply (validate_transition_on_table a PASSED).
  - intros Hmiss. rewrite <- completion_blockers_nil in Hmiss.
    unfold validate_transition, can_complete_qa.
    rewrite Hcan, requirements_value. fold blockers in Hmiss |- *.
    destruct blockers as [|b bl]; [done |].
    unfold rbind, negb. by rewrite passed_error_truthy.
  - apply passed_error_lists.
  - apply completion_blockers_two.
Qed.

Lemma passed_requires_all_prerequisites_witness :
  qa_status testing_nothing_done = value IN_TESTING
  ∧ validate_transition testing_nothing_done (value PASSED)
    = Ok (false,
          Some (passed_error [blocker_test_plan; blocker_release_notes;
                              blocker_started; blocker_notes]))
  ∧ validate_transition testing_all_done (value PASSED) = Ok (true, None)
  ∧ validate_transition (tested_with_notes nbsp) (value PASSED)
    = Ok (false, Some (passed_error [blocker_notes]))
  ∧ validate_transition (tested_with_notes three_blanks) (value PASSED)
    = Ok (false, Some (passed_error [blocker_notes]))
  ∧ validate_transition (tested_with_notes em_space_tab) (value PASSED)
    = Ok (false, Some (passed_error [blocker_notes]))
  ∧ validate_transition (tested_with_notes ideographic_space) (value PASSED)
    = Ok (false, Some (passed_error [blocker_notes])).
Proof.
  assert (H : qa_status testing_nothing_done = value IN_TESTING) by reflexivity.
  assert (Hno : ∀ notes,
            ¬ Exists (fun c => c ∉ whitespace) (chars notes) →
            ¬ passed_prerequisites (tested_with_notes notes)).
  { intros notes Hn (_ & _ & _ & Ht). by apply has_text_exists in Ht. }
  split_and!; [exact H | | | | | |].
  - refine (proj1 (proj1 (proj2 (passed_requires_all_prerequisites
                                   testing_nothing_done H)) _)).
    intros (Hplan & _). discriminate Hplan.
  - refine (proj2 (proj1 (passed_requires_all_prerequisites
                            testing_all_done eq_refl)) _).
    split_and!; [reflexivity | reflexivity | discriminate |].
    apply has_text_exists. apply (bool_decide_unpack _). vm_compute. exact I.
  - refine (proj1 (proj1 (proj2 (passed_requires_all_prerequisites
                                   (tested_with_notes nbsp) eq_refl)) _)).
    apply Hno. apply (bool_decide_unpack _). vm_compute. exact I.
  - refine (proj1 (proj1 (proj2 (passed_requires_all_prerequisites
                                   (tested_with_notes three_blanks) eq_refl))
                         _)).
    apply Hno. apply (bool_decide_unpack _). vm_compute. exact I.
  - refine (proj1 (proj1 (proj2 (passed_requires_all_prerequisites
                                   (tested_with_notes em_space_tab) eq_refl))
                         _)).
    apply Hno. apply (bool_decide_unpack _). vm_compute. exact I.
  - refine (proj1 (proj1 (proj2 (passed_requires_all_prerequisites
                                   (tested_with_notes ideographic_space)
                                   eq_refl)) _)).
    apply Hno. apply (bool_decide_unpack _). vm_compute. exact I.
Defined.

(** C10. When either text is not a value of the enumeration,
    [can_transition] is false, equal texts included; and
    [get_next_allowed_statuses] of such a text is the empty list. *)
Theorem unknown_status_never_transitions (from to : string) :
  ¬ is_status_value from ∨ ¬ is_status_value to →
  can_transition from to = false
  ∧ (¬ is_status_value from → can_transition from from = false)
  ∧ (¬ is_status_value from → get_next_allowed_statuses from = []).
Proof.
  intros H. split_and!.
  - unfold can_transition. destruct H as [H | H].
    + by destruct (QAStatus_of_unknown from H) as [e ->].
    + destruct (QAStatus_of_unknown to H) as [e ->].
      by destruct (QAStatus_of from).
  - intros Hf. unfold can_transition.
    by destruct (QAStatus_of_unknown from Hf) as [e ->].
  - intros Hf. unfold get_next_allowed_statuses.
    by destruct (QAStatus_of_unknown from Hf) as [e ->].
Qed.

Lemma not_status_value_lowercase : ¬ is_status_value "passed".
Proof. intros [m Hm]. destruct m; discriminate Hm. Defined.

Lemma unknown_status_never_transitions_witness :
  can_transition "passed" "passed" = false
  ∧ get_next_allowed_statuses "passed" = [].
Proof.
  pose proof (unknown_status_never_transitions "passed" "passed"
                (or_introl not_status_value_lowercase)) as (H1 & _ & H3).
  split; [exact H1 | exact (H3 not_status_value_lowercase)].
Defined.

(** ** The store-passing monad *)

Lemma for_each_preserves {A : Type} (P : DB → Prop) (body : A → M unit) (l : list A) :
  (∀ x db, P db → P (fst (body x db))) →
  ∀ db, P db → P (fst (for_each l body db)).
Proof.
  intros Hbody. induction l as [|x l IH]; intros db Hdb; [done |].
  simpl. unfold bind. specialize (Hbody x db Hdb).
  destruct (body x db) as [db' [[]|e]]; simpl in *; [by apply IH | done].
Qed.

(** ** History of QA status changes *)

Lemma update_amendment_qa_history
    (db : DB) (id : Z) (u : AmendmentQAUpdate.t) (mb : option string) :
  qa_history (fst (update_amendment_qa id u mb db)) = qa_history db.
Proof.
  unfold update_amendment_qa, bind, get_amendment, query, ret, raise, commit.
  destruct (first _ (amendments db)) as [a|]; [| done].
  destruct (assigned_id_fits u); [| done].
  by destruct (apply_qa_update a u mb).
Qed.

(** C4, what the code does. The transition Not Started -> Assigned of an
    amendment with a tester is accepted by the validator and applied by
    [update_amendment_qa], which changes the stored status and leaves the
    history table empty; no call of [update_amendment_qa] ever adds a history
    row. *)
Theorem accepted_transition_writes_no_history :
  validate_transition ready_to_assign (value ASSIGNED) = Ok (true, None)
  ∧ (∃ a', snd (update_amendment_qa 1 assign_update None assign_db) = Ok (Some a')
           ∧ qa_status a' = "Assigned"
           ∧ amendments (fst (update_amendment_qa 1 assign_update None assign_db))
             = [a'])
  ∧ qa_history (fst (update_amendment_qa 1 assign_update None assign_db)) = []
  ∧ ∀ db id u mb,
      qa_history (fst (update_amendment_qa id u mb db)) = qa_history db.
Proof.
  split_and!.
  - reflexivity.
  - eexists. split_and!; reflexivity.
  - reflexivity.
  - apply update_amendment_qa_history.
Qed.

(** ** Notification of watchers *)

Lemma notify_watcher_cases
    (am : Z) (ev msg : string) (ex : option Z) (w : AmendmentWatcher.t) (db : DB) :
  notify_watcher am ev msg ex w db = (db, Ok tt)
  ∨ notify_watcher am ev msg ex w db = (db, Raise unexpected_keyword).
Proof.
  unfold notify_watcher.
  repeat (match goal with
          | |- context [if ?b then _ else _] => destruct b
          end; [by left |]).
  by right.
Qed.

Lemma notify_watchers_creates_nothing
    (am : Z) (ev msg : string) (ex : option Z) (db : DB) :
  fst (notify_watchers am ev msg ex db) = db.
Proof.
  unfold notify_watchers, bind, get_watchers, query.
  generalize (List.filter (active_watcher_of am) (amendment_watchers db)).
  intros l. induction l as [|w l IH]; [done |].
  simpl. unfold bind.
  by destruct (notify_watcher_cases am ev msg ex w db) as [-> | ->].
Qed.

(** C5, what the code does. With alice, bob and carol watching amendment 10,
    carol muted on status changes and alice acting, the broadcast of a status
    change raises [TypeError] at bob, the first recipient, and creates no
    notification; no call of [notify_watchers] ever changes the store. *)
Theorem notify_watchers_raises_at_first_recipient :
  notify_watchers 10 "status_change" "QA status changed" (Some 1) watched_db
  = (watched_db, Raise unexpected_keyword)
  ∧ qa_notifications
      (fst (notify_watchers 10 "status_change" "QA status changed" (Some 1)
                            watched_db)) = []
  ∧ ∀ am ev msg ex db, fst (notify_watchers am ev msg ex db) = db.
Proof.
  split_and!; [reflexivity | reflexivity |].
  apply notify_watchers_creates_nothing.
Qed.

(** ** Mentions *)

Lemma mention_filter_raises (mention : string) :
  mention_filter mention = Raise no_username.
Proof. reflexivity. Qed.

Lemma parse_mentions_cases (text : string) (db : DB) :
  parse_mentions text db
  = match findall_mentions text with
    | [] => Ok []
    | _ :: _ => Raise no_username
    end.
Proof. unfold parse_mentions. by destruct (findall_mentions text). Qed.

(** C6, what the code does. The pattern finds the two mentions of the text,
    and the resolution of the first one raises [AttributeError], the
    [Employee] class having no [username] column; [parse_mentions] returns a
    list only for a text without a mention, and that list is empty. *)
Theorem parse_mentions_raises_on_a_mention :
  findall_mentions ping_text = ["alice"; dq +:+ "Bob Smith" +:+ dq]
  ∧ parse_mentions ping_text staff_db = Raise no_username
  ∧ ∀ text db ids, parse_mentions text db = Ok ids → ids = [].
Proof.
  split_and!; [reflexivity | reflexivity |].
  intros text db ids. rewrite parse_mentions_cases.
  destruct (findall_mentions text); [by intros [= <-] | done].
Qed.

(** Whatever the store and the author, a comment whose text holds a mention
    is inserted and nothing more is done: the resolution of the mentions
    raises before any mention or watcher is written. *)
Lemma create_qa_comment_enhanced_cases
    (am emp : Z) (text ty : string) (parent : option Z) (db : DB) :
  let comment := QAComment.mk
                   (next_id "qa_comments" QAComment.comment_id (qa_comments db) db)
                   am emp parent text ty (Some false) in
  match findall_mentions text with
  | [] => True
  | _ :: _ =>
      create_qa_comment_enhanced am emp text ty parent db
      = (inserted "qa_comments" (QAComment.comment_id comment)
                  (set_qa_comments (add_row comment)) db,
         Raise no_username)
  end.
Proof.
  intros comment. destruct (findall_mentions text) as [|g gs] eqn:E; [done |].
  unfold create_qa_comment_enhanced, bind, query, commit, lift. simpl.
  by rewrite parse_mentions_cases, E.
Qed.

(** C7, what the code does. A comment by bob that mentions alice is stored,
    then the mention resolution raises [AttributeError]: no mention row and no
    watcher row is written, for alice or for bob; and so it goes for every
    comment whose text holds a mention: the tables of the mentions and of the
    watchers are left as they were. *)
Theorem comment_with_mention_raises :
  (∀ am emp text ty parent db,
      match findall_mentions text with
      | [] => True
      | _ :: _ =>
          snd (create_qa_comment_enhanced am emp text ty parent db)
          = Raise no_username
          ∧ comment_mentions
              (fst (create_qa_comment_enhanced am emp text ty parent db))
            = comment_mentions db
          ∧ amendment_watchers
              (fst (create_qa_comment_enhanced am emp text ty parent db))
            = amendment_watchers db
      end)
  ∧ findall_mentions "thanks @alice" = ["alice"]
  ∧ snd (create_qa_comment_enhanced 10 2 "thanks @alice" "General" None staff_db)
    = Raise no_username
  ∧ qa_comments
      (fst (create_qa_comment_enhanced 10 2 "thanks @alice" "General" None
                                       staff_db))
    = [QAComment.mk 1 10 2 None "thanks @alice" "General" (Some false)]
  ∧ comment_mentions
      (fst (create_qa_comment_enhanced 10 2 "thanks @alice" "General" None
                                       staff_db)) = []
  ∧ amendment_watchers
      (fst (create_qa_comment_enhanced 10 2 "thanks @alice" "General" None
                                       staff_db)) = [].
Proof.
  split_and!; try reflexivity.
  intros am emp text ty parent db.
  pose proof (create_qa_comment_enhanced_cases am emp text ty parent db) as H.
  simpl in H. destruct (findall_mentions text); [done |].
  by rewrite H.
Qed.

(** ** Tables: keys, first match, insertion and deletion *)

Lemma max_key_above {A : Type} (key : A → Z) (rows : list A) (r : A) :
  r ∈ rows → key r ≤ max_key key rows.
Proof.
  unfold max_key. induction rows as [|x rows IH]; intros Hin.
  - by apply elem_of_nil in Hin.
  - apply elem_of_cons in Hin as [-> | Hin]; simpl; [lia |].
    specialize (IH Hin). lia.
Qed.

(** A new key is larger than every key present, whichever way the store
    numbers its rows. *)
Lemma next_id_above {A : Type}
    (table : string) (key : A → Z) (rows : list A) (db : DB) (r : A) :
  r ∈ rows → key r < next_id table key rows db.
Proof.
  intros Hin%(max_key_above key). unfold next_id. lia.
Qed.

Lemma next_id_fresh {A : Type}
    (table : string) (key : A → Z) (rows : list A) (db : DB) :
  next_id table key rows db ∉ map key rows.
Proof.
  intros Hin. apply list_elem_of_In, in_map_iff in Hin as (r & Heq & Hin).
  apply list_elem_of_In, (next_id_above table key rows db) in Hin. lia.
Qed.

Lemma delete_row_fresh {A : Type} (key : A → Z) (row : A) (rows : list A) :
  (∀ r, r ∈ rows → key r ≠ key row) → delete_row key row rows = rows.
Proof.
  unfold delete_row. induction rows as [|x rows IH]; intros H; [done |].
  rewrite filter_cons_True by (apply H; left).
  f_equal. apply IH. intros r Hr. apply H. by right.
Qed.

Lemma delete_row_added {A : Type} (key : A → Z) (row : A) (rows : list A) :
  (∀ r, r ∈ rows → key r ≠ key row) →
  delete_row key row (add_row row rows) = rows.
Proof.
  intros H. pose proof (delete_row_fresh key row rows H) as Hrows.
  unfold delete_row, add_row in *.
  rewrite filter_app, Hrows, filter_cons_False by (intros Hne; by apply Hne).
  by rewrite filter_nil, app_nil_r.
Qed.

Lemma first_nil_filter {A : Type} (p : A → bool) (l : list A) :
  first p l = None ↔ List.filter p l = [].
Proof.
  unfold first. induction l as [|x l IH]; simpl; [done |].
  destruct (p x); [split; discriminate | done].
Qed.

Lemma first_added {A : Type} (p : A → bool) (l : list A) (x : A) :
  first p l = None → p x = true → first p (add_row x l) = Some x.
Proof.
  unfold first, add_row. intros Hl Hx.
  induction l as [|y l IH]; simpl in *; [by rewrite Hx |].
  destruct (p y); [done | by apply IH].
Qed.

(** ** The reaction ledger *)

Lemma reaction_of_refl (c e : Z) (em : string) (id : Z) :
  reaction_of c e em (CommentReaction.mk id c e em) = true.
Proof.
  unfold reaction_of. simpl. by rewrite !Z.eqb_refl, String.eqb_refl.
Qed.

Lemma toggle_reaction_absent (db : DB) (c e : Z) (em : string) :
  first (reaction_of c e em) (comment_reactions db) = None →
  let row := CommentReaction.mk
               (next_id "comment_reactions" CommentReaction.reaction_id
                        (comment_reactions db) db)
               c e em in
  toggle_reaction c e em db
  = (inserted "comment_reactions" (CommentReaction.reaction_id row)
              (set_comment_reactions (add_row row)) db,
     Ok (Some row)).
Proof.
  intros H. unfold toggle_reaction, bind, query, commit, ret. by rewrite H.
Qed.

Lemma toggle_reaction_present
    (db : DB) (c e : Z) (em : string) (x : CommentReaction.t) :
  first (reaction_of c e em) (comment_reactions db) = Some x →
  toggle_reaction c e em db
  = (set_comment_reactions (delete_row CommentReaction.reaction_id x) db,
     Ok None).
Proof.
  intros H. unfold toggle_reaction, bind, query, commit, ret. by rewrite H.
Qed.

Lemma count_reactions_snoc (l : list CommentReaction.t) (r : CommentReaction.t) :
  count_reactions (l ++ [r])
  = <[CommentReaction.emoji r :=
        default 0 (count_reactions l !! CommentReaction.emoji r) + 1]>
      (count_reactions l).
Proof. unfold count_reactions. by rewrite foldl_app. Qed.

Lemma emoji_count_snoc (em : string) (l : list CommentReaction.t) (r : CommentReaction.t) :
  emoji_count em (l ++ [r])
  = emoji_count em l + (if String.eqb (CommentReaction.emoji r) em then 1 else 0).
Proof.
  unfold emoji_count. rewrite List.filter_app, List.length_app. simpl.
  destruct (String.eqb _ _); simpl; lia.
Qed.

(** The summary maps an emoji to the number of rows that carry it, and has
    no entry for an emoji that no row carries. *)
Lemma count_reactions_lookup (l : list CommentReaction.t) (em : string) :
  count_reactions l !! em
  = if bool_decide (emoji_count em l = 0) then None
    else Some (emoji_count em l).
Proof.
  induction l as [|r l IH] using rev_ind; [done |].
  rewrite count_reactions_snoc, emoji_count_snoc.
  assert (0 ≤ emoji_count em l) by (unfold emoji_count; lia).
  destruct (String.eqb (CommentReaction.emoji r) em) eqn:E.
  - apply String.eqb_eq in E as ->. rewrite lookup_insert_eq, IH.
    rewrite (bool_decide_eq_false_2 (_ + 1 = 0)) by lia.
    by case_bool_decide as H0; [rewrite H0 |].
  - apply String.eqb_neq in E. rewrite lookup_insert_ne by done.
    by rewrite IH, Z.add_0_r.
Qed.

Lemma summary_count (db : DB) (c : Z) (em : string) :
  ∃ s, get_reaction_summary c db = (db, Ok s)
       ∧ default 0 (s !! em)
         = emoji_count em (List.filter
                             (fun r => CommentReaction.comment_id r =? c)
                             (comment_reactions db)).
Proof.
  eexists. split; [reflexivity |].
  rewrite count_reactions_lookup. by case_bool_decide as H0; [rewrite H0 |].
Qed.

(** C9. When the triple has no row in the ledger, the first
    [toggle_reaction] inserts one and returns it, and the summary of the
    comment then counts one more for the emoji; the second call with the same
    arguments returns no row and leaves every table as it was before the
    first, so that the triple contributes nothing and the summary of the
    comment is the one of the start. *)
Theorem toggle_reaction_twice_round_trips (db : DB) (c e : Z) (em : string) :
  reaction_rows c e em db = [] →
  ∃ (row : CommentReaction.t) (db1 db2 : DB) (s0 s1 : gmap string Z),
    toggle_reaction c e em db = (db1, Ok (Some row))
    ∧ CommentReaction.comment_id row = c
    ∧ CommentReaction.employee_id row = e
    ∧ CommentReaction.emoji row = em
    ∧ reaction_rows c e em db1 = [row]
    ∧ toggle_reaction c e em db1 = (db2, Ok None)
    ∧ same_tables db2 db
    ∧ reaction_rows c e em db2 = []
    ∧ get_reaction_summary c db = (db, Ok s0)
    ∧ get_reaction_summary c db1 = (db1, Ok s1)
    ∧ get_reaction_summary c db2 = (db2, Ok s0)
    ∧ s1 = <[em := default 0 (s0 !! em) + 1]> s0
    ∧ default 0 (s1 !! em) = default 0 (s0 !! em) + 1
    ∧ default 0 (s0 !! em)
      = emoji_count em (List.filter
                          (fun r => CommentReaction.comment_id r =? c)
                          (comment_reactions db)).
Proof.
  intros Habs. unfold reaction_rows in *.
  pose proof (proj2 (first_nil_filter _ _) Habs) as Hfirst.
  pose proof (toggle_reaction_absent db c e em Hfirst) as Hadd. simpl in Hadd.
  pose proof (reaction_of_refl c e em
                (next_id "comment_reactions" CommentReaction.reaction_id
                         (comment_reactions db) db))
    as Hrow.
  assert (Hfresh : ∀ r, r ∈ comment_reactions db →
                        CommentReaction.reaction_id r
                        ≠ next_id "comment_reactions" CommentReaction.reaction_id
                                  (comment_reactions db) db).
  { intros r Hr.
    apply (next_id_above "comment_reactions" CommentReaction.reaction_id
                         _ db) in Hr. lia. }
  remember (CommentReaction.mk
              (next_id "comment_reactions" CommentReaction.reaction_id
                       (comment_reactions db) db)
              c e em) as row eqn:Erow.
  assert (Hid : CommentReaction.reaction_id row
                = next_id "comment_reactions" CommentReaction.reaction_id
                          (comment_reactions db) db)
    by (by rewrite Erow).
  rewrite <- Hid in Hadd.
  set (db1 := inserted "comment_reactions" (CommentReaction.reaction_id row)
                       (set_comment_reactions (add_row row)) db) in *.
  set (db2 := set_comment_reactions
                (delete_row CommentReaction.reaction_id row) db1).
  assert (Hrows1 : comment_reactions db1 = add_row row (comment_reactions db))
    by done.
  assert (Hrows2 : comment_reactions db2 = comment_reactions db).
  { change (comment_reactions db2)
      with (delete_row CommentReaction.reaction_id row (comment_reactions db1)).
    rewrite Hrows1. apply delete_row_added.
    intros r Hr. rewrite Hid. by apply Hfresh. }
  set (on_c := fun r => CommentReaction.comment_id r =? c).
  set (s0 := count_reactions (List.filter on_c (comment_reactions db))).
  assert (Hs1 : count_reactions (List.filter on_c (comment_reactions db1))
                = <[em := default 0 (s0 !! em) + 1]> s0).
  { rewrite Hrows1. unfold add_row. rewrite List.filter_app. simpl.
    unfold on_c at 2. rewrite Erow. simpl. rewrite Z.eqb_refl.
    by rewrite count_reactions_snoc. }
  exists row, db1, db2, s0, (<[em := default 0 (s0 !! em) + 1]> s0).
  split_and!.
  - exact Hadd.
  - by rewrite Erow.
  - by rewrite Erow.
  - by rewrite Erow.
  - rewrite Hrows1. unfold add_row.
    rewrite List.filter_app, Habs. simpl. by rewrite Hrow.
  - apply toggle_reaction_present. rewrite Hrows1. by apply first_added.
  - by split_and!.
  - by rewrite Hrows2.
  - reflexivity.
  - unfold get_reaction_summary, get_reactions_for_comment, bind, query, ret.
    fold on_c. by rewrite Hs1.
  - unfold get_reaction_summary, get_reactions_for_comment, bind, query, ret.
    fold on_c. by rewrite Hrows2.
  - reflexivity.
  - by rewrite lookup_insert_eq.
  - unfold s0. rewrite count_reactions_lookup.
    by case_bool_decide as H0; [rewrite H0 |].
Qed.

Lemma toggle_reaction_twice_round_trips_witness :
  reaction_rows 5 1 "+1" reacted_db = []
  ∧ ∃ (row : CommentReaction.t) (db1 db2 : DB),
      toggle_reaction 5 1 "+1" reacted_db = (db1, Ok (Some row))
      ∧ toggle_reaction 5 1 "+1" db1 = (db2, Ok None)
      ∧ same_tables db2 reacted_db
      ∧ snd (get_reaction_summary 5 db2) = snd (get_reaction_summary 5 reacted_db).
Proof.
  split; [reflexivity |].
  destruct (toggle_reaction_twice_round_trips reacted_db 5 1 "+1" eq_refl)
    as (row & db1 & db2 & s0 & s1 & H1 & _ & _ & _ & _ & H2 & H3 & _ & H4 & _
        & H5 & _).
  exists row, db1, db2. split_and!; try assumption.
  rewrite H4, H5. reflexivity.
Defined.

(** ** The watch registry *)

(** The first match of a query splits the table around it. *)
Lemma first_split {A : Type} (p : A → bool) (l : list A) (x : A) :
  first p l = Some x →
  ∃ l1 l2, l = l1 ++ x :: l2 ∧ p x = true ∧ List.filter p l1 = [].
Proof.
  unfold first. induction l as [|y l IH]; simpl; [done |].
  destruct (p y) eqn:Hy.
  - intros [= ->]. by exists [], l.
  - intros (l1 & l2 & -> & Hx & Hl1)%IH.
    exists (y :: l1), l2. simpl. by rewrite Hy.
Qed.

Lemma first_middle {A : Type} (p : A → bool) (l1 l2 : list A) (x : A) :
  List.filter p l1 = [] → p x = true → first p (l1 ++ x :: l2) = Some x.
Proof.
  unfold first. intros Hl1 Hx.
  induction l1 as [|y l1 IH]; simpl in *; [by rewrite Hx |].
  destruct (p y); [done | by apply IH].
Qed.

Lemma put_row_other {A : Type} (key : A → Z) (row : A) (l : list A) :
  key row ∉ map key l → put_row key row l = l.
Proof.
  unfold put_row. induction l as [|y l IH]; simpl; intros Hl; [done |].
  apply not_elem_of_cons in Hl as [Hy Hl].
  rewrite (proj2 (Z.eqb_neq _ _)) by done. f_equal. by apply IH.
Qed.

(** With a primary key, changing a row changes that row and no other. *)
Lemma put_row_middle {A : Type} (key : A → Z) (row x : A) (l1 l2 : list A) :
  NoDup (map key (l1 ++ x :: l2)) → key row = key x →
  put_row key row (l1 ++ x :: l2) = l1 ++ row :: l2.
Proof.
  rewrite map_app. simpl. intros Hnd Hkey.
  apply NoDup_app in Hnd as (_ & Hl1 & [Hx _]%NoDup_cons).
  assert (H1 : key row ∉ map key l1).
  { rewrite Hkey. intros Hin. apply (Hl1 _ Hin). left. }
  assert (H2 : key row ∉ map key l2) by (by rewrite Hkey).
  pose proof (put_row_other key row l1 H1) as E1.
  pose proof (put_row_other key row l2 H2) as E2.
  unfold put_row in *. rewrite map_app. simpl.
  by rewrite E1, E2, Hkey, Z.eqb_refl.
Qed.

Lemma watcher_of_pair (am emp : Z) (w : AmendmentWatcher.t) :
  watcher_of am emp w = true ↔ watcher_pair w = (am, emp).
Proof.
  unfold watcher_of, watcher_pair.
  rewrite andb_true_iff, !Z.eqb_eq. split; [by intros [-> ->] | by intros [= -> ->]].
Qed.

Lemma watcher_of_set_is_watching (am emp : Z) (b : bool) (w : AmendmentWatcher.t) :
  watcher_of am emp (set_is_watching b w) = watcher_of am emp w.
Proof. reflexivity. Qed.

(** The unique constraint leaves one row for the pair around its first
    match. *)
Lemma unique_pair_rows (am emp : Z) (l1 l2 : list AmendmentWatcher.t)
    (x x' : AmendmentWatcher.t) :
  NoDup (map watcher_pair (l1 ++ x :: l2)) →
  List.filter (watcher_of am emp) l1 = [] →
  watcher_of am emp x = true → watcher_of am emp x' = true →
  List.filter (watcher_of am emp) (l1 ++ x' :: l2) = [x'].
Proof.
  rewrite map_app. simpl.
  intros (_ & _ & [Hx _]%NoDup_cons)%NoDup_app Hl1 Hpx Hpx'.
  rewrite List.filter_app, Hl1. simpl. rewrite Hpx'. f_equal.
  apply watcher_of_pair in Hpx.
  induction l2 as [|y l2 IH]; simpl in *; [done |].
  apply not_elem_of_cons in Hx as [Hy Hx].
  destruct (watcher_of am emp y) eqn:Hpy; [| by apply IH].
  apply watcher_of_pair in Hpy. congruence.
Qed.

Lemma add_watcher_new (db : DB) (am emp : Z) (reason : string) :
  first (watcher_of am emp) (amendment_watchers db) = None →
  let w := AmendmentWatcher.mk
             (next_id "amendment_watchers" AmendmentWatcher.watcher_id
                      (amendment_watchers db) db)
             am emp (Some reason) (Some true) (Some true) (Some true)
             (Some true) in
  add_watcher am emp reason db
  = (inserted "amendment_watchers" (AmendmentWatcher.watcher_id w)
              (set_amendment_watchers (add_row w)) db,
     Ok w).
Proof.
  intros H. unfold add_watcher, bind, query, commit, ret. by rewrite H.
Qed.

Lemma add_watcher_active (db : DB) (am emp : Z) (reason : string)
    (w : AmendmentWatcher.t) :
  first (watcher_of am emp) (amendment_watchers db) = Some w →
  AmendmentWatcher.is_watching w = Some true →
  add_watcher am emp reason db = (db, Ok w).
Proof.
  intros H Hw. unfold add_watcher, bind, query, commit, ret.
  by rewrite H, Hw.
Qed.

Lemma add_watcher_muted (db : DB) (am emp : Z) (reason : string)
    (w : AmendmentWatcher.t) :
  first (watcher_of am emp) (amendment_watchers db) = Some w →
  AmendmentWatcher.is_watching w ≠ Some true →
  add_watcher am emp reason db
  = (set_amendment_watchers
       (put_row AmendmentWatcher.watcher_id (set_is_watching true w)) db,
     Ok (set_is_watching true w)).
Proof.
  intros H Hw. unfold add_watcher, bind, query, commit, ret. rewrite H.
  rewrite <- truthy_bool_true in Hw. apply not_true_is_false in Hw.
  by rewrite Hw.
Qed.

Lemma remove_watcher_found (db : DB) (am emp : Z) (w : AmendmentWatcher.t) :
  first (watcher_of am emp) (amendment_watchers db) = Some w →
  remove_watcher am emp db
  = (set_amendment_watchers
       (put_row AmendmentWatcher.watcher_id (set_is_watching false w)) db,
     Ok tt).
Proof.
  intros H. unfold remove_watcher, bind, query, commit, ret. by rewrite H.
Qed.

Lemma watchers_set (f : list AmendmentWatcher.t → list AmendmentWatcher.t) (db : DB) :
  amendment_watchers (set_amendment_watchers f db) = f (amendment_watchers db).
Proof. reflexivity. Qed.

Lemma filter_nil_false {A : Type} (p : A → bool) (l : list A) (x : A) :
  List.filter p l = [] → x ∈ l → p x = false.
Proof.
  intros Hl Hx. destruct (p x) eqn:Hp; [| done].
  assert (Hin : In x (List.filter p l)).
  { apply List.filter_In. split; [by apply list_elem_of_In | done]. }
  rewrite Hl in Hin. destruct Hin.
Qed.

(** Changing the watching flag of the row found by the query keeps the two
    constraints and touches no other row. *)
Lemma watchers_wf_put (db : DB) (w0 w' : AmendmentWatcher.t)
    (l1 l2 : list AmendmentWatcher.t) :
  amendment_watchers db = l1 ++ w0 :: l2 →
  watchers_wf db →
  AmendmentWatcher.watcher_id w' = AmendmentWatcher.watcher_id w0 →
  watcher_pair w' = watcher_pair w0 →
  amendment_watchers
    (set_amendment_watchers (put_row AmendmentWatcher.watcher_id w') db)
  = l1 ++ w' :: l2
  ∧ watchers_wf
      (set_amendment_watchers (put_row AmendmentWatcher.watcher_id w') db).
Proof.
  intros Hws [Hid Hpair] Hk Hp. unfold watchers_wf.
  rewrite watchers_set. rewrite Hws in *.
  rewrite put_row_middle by done.
  rewrite !map_app in *. simpl in *. by rewrite Hk, Hp.
Qed.

(** Inserting a row for a pair that has none keeps the two constraints. *)
Lemma watchers_wf_add (db : DB) (am emp : Z) (w : AmendmentWatcher.t) :
  watchers_wf db →
  List.filter (watcher_of am emp) (amendment_watchers db) = [] →
  AmendmentWatcher.watcher_id w
  = next_id "amendment_watchers" AmendmentWatcher.watcher_id
            (amendment_watchers db) db →
  watcher_pair w = (am, emp) →
  watchers_wf (inserted "amendment_watchers" (AmendmentWatcher.watcher_id w)
                        (set_amendment_watchers (add_row w)) db).
Proof.
  intros [Hid Hpair] Habs Hk Hp. unfold watchers_wf.
  change (amendment_watchers
            (inserted "amendment_watchers" (AmendmentWatcher.watcher_id w)
                      (set_amendment_watchers (add_row w)) db))
    with (amendment_watchers db ++ [w]).
  rewrite !map_app. simpl.
  split; apply NoDup_app; (split_and!; [done | | apply NoDup_singleton]).
  - intros k Hin ->%list_elem_of_singleton. rewrite Hk in Hin.
    by apply next_id_fresh in Hin.
  - intros k Hin ->%list_elem_of_singleton.
    apply list_elem_of_In, in_map_iff in Hin as (x & Hx & Hin).
    apply list_elem_of_In, (filter_nil_false _ _ _ Habs) in Hin.
    assert (watcher_of am emp x = true) by (apply watcher_of_pair; congruence).
    congruence.
Qed.

(** C8. On a watcher table that satisfies its primary key and its unique
    constraint, two calls of [add_watcher] for one pair return the same row,
    the second leaving the store as the first left it, with exactly one row
    for the pair, which is that row and is active; and when the pair has a
    row, [remove_watcher] followed by [add_watcher] returns that row with its
    identity and its preferences, active again, in a table that has the same
    rows at the same places and no new one. *)
Theorem add_watcher_idempotent (db : DB) (am emp : Z) (r1 r2 r3 : string) :
  watchers_wf db →
  (∃ (w : AmendmentWatcher.t) (db1 : DB),
      add_watcher am emp r1 db = (db1, Ok w)
      ∧ add_watcher am emp r2 db1 = (db1, Ok w)
      ∧ AmendmentWatcher.is_watching w = Some true
      ∧ List.filter (watcher_of am emp) (amendment_watchers db1) = [w]
      ∧ watcher_rows am emp db1 = 1%nat
      ∧ watchers_wf db1)
  ∧ (∀ w0 : AmendmentWatcher.t,
      first (watcher_of am emp) (amendment_watchers db) = Some w0 →
      ∃ (db1 db2 : DB) (w : AmendmentWatcher.t),
        remove_watcher am emp db = (db1, Ok tt)
        ∧ List.filter (watcher_of am emp) (amendment_watchers db1)
          = [set_is_watching false w0]
        ∧ add_watcher am emp r3 db1 = (db2, Ok w)
        ∧ w = set_is_watching true w0
        ∧ AmendmentWatcher.watcher_id w = AmendmentWatcher.watcher_id w0
        ∧ AmendmentWatcher.is_watching w = Some true
        ∧ List.filter (watcher_of am emp) (amendment_watchers db2) = [w]
        ∧ map AmendmentWatcher.watcher_id (amendment_watchers db2)
          = map AmendmentWatcher.watcher_id (amendment_watchers db)
        ∧ watcher_rows am emp db2 = 1%nat).
Proof.
  intros Hwf. split.
  - destruct (first (watcher_of am emp) (amendment_watchers db)) as [w0|] eqn:Hq.
    + destruct (first_split _ _ _ Hq) as (l1 & l2 & Hws & Hp & Hl1).
      destruct (decide (AmendmentWatcher.is_watching w0 = Some true)) as [Hon | Hoff].
      * exists w0, db. unfold watcher_rows.
        rewrite (add_watcher_active db am emp r1 w0 Hq Hon).
        rewrite (add_watcher_active db am emp r2 w0 Hq Hon).
        assert (List.filter (watcher_of am emp) (amendment_watchers db) = [w0]) as ->.
        { rewrite Hws. apply (unique_pair_rows am emp l1 l2 w0 w0); try done.
          rewrite <- Hws. apply Hwf. }
        done.
      * set (w := set_is_watching true w0).
        destruct (watchers_wf_put db w0 w l1 l2 Hws Hwf eq_refl eq_refl)
          as [Hws1 Hwf1].
        exists w, (set_amendment_watchers
                     (put_row AmendmentWatcher.watcher_id w) db).
        unfold watcher_rows.
        rewrite (add_watcher_muted db am emp r1 w0 Hq Hoff).
        assert (Hq1 : first (watcher_of am emp)
                            (amendment_watchers
                               (set_amendment_watchers
                                  (put_row AmendmentWatcher.watcher_id w) db))
                      = Some w).
        { rewrite Hws1. by apply first_middle. }
        rewrite (add_watcher_active _ am emp r2 w Hq1 eq_refl).
        assert (List.filter (watcher_of am emp) (l1 ++ w :: l2) = [w]) as Hone.
        { apply (unique_pair_rows am emp l1 l2 w0 w); try done.
          rewrite <- Hws. apply Hwf. }
        rewrite Hws1, Hone. done.
    + pose proof (proj1 (first_nil_filter _ _) Hq) as Habs.
      pose proof (add_watcher_new db am emp r1 Hq) as Hadd. simpl in Hadd.
      set (w := AmendmentWatcher.mk
                  (next_id "amendment_watchers" AmendmentWatcher.watcher_id
                           (amendment_watchers db) db)
                  am emp (Some r1) (Some true) (Some true) (Some true)
                  (Some true)) in *.
      assert (Hpw : watcher_of am emp w = true).
      { unfold watcher_of. simpl. by rewrite !Z.eqb_refl. }
      set (db1 := inserted "amendment_watchers" (AmendmentWatcher.watcher_id w)
                           (set_amendment_watchers (add_row w)) db) in *.
      assert (Hws1 : amendment_watchers db1 = amendment_watchers db ++ [w])
        by done.
      exists w, db1.
      unfold watcher_rows. rewrite Hadd.
      assert (Hq1 : first (watcher_of am emp) (amendment_watchers db1) = Some w).
      { rewrite Hws1. by apply first_added. }
      rewrite (add_watcher_active _ am emp r2 w Hq1 eq_refl).
      rewrite Hws1.
      rewrite List.filter_app, Habs. simpl. rewrite Hpw.
      split_and!; try done.
      by apply (watchers_wf_add db am emp w).
  - intros w0 Hq.
    destruct (first_split _ _ _ Hq) as (l1 & l2 & Hws & Hp & Hl1).
    set (w_off := set_is_watching false w0).
    set (w_on := set_is_watching true w0).
    destruct (watchers_wf_put db w0 w_off l1 l2 Hws Hwf eq_refl eq_refl)
      as [Hws1 Hwf1].
    set (db1 := set_amendment_watchers
                  (put_row AmendmentWatcher.watcher_id w_off) db) in *.
    destruct (watchers_wf_put db1 w_off w_on l1 l2 Hws1 Hwf1 eq_refl eq_refl)
      as [Hws2 Hwf2].
    assert (Hq1 : first (watcher_of am emp) (amendment_watchers db1) = Some w_off).
    { rewrite Hws1. by apply first_middle. }
    assert (Hnd : NoDup (map watcher_pair (l1 ++ w0 :: l2))).
    { rewrite <- Hws. apply Hwf. }
    exists db1, (set_amendment_watchers
                   (put_row AmendmentWatcher.watcher_id w_on) db1), w_on.
    unfold watcher_rows. rewrite Hws1, Hws2.
    rewrite (unique_pair_rows am emp l1 l2 w0 w_off) by done.
    rewrite (unique_pair_rows am emp l1 l2 w0 w_on) by done.
    split_and!; try done.
    + by apply remove_watcher_found.
    + by rewrite (add_watcher_muted db1 am emp r3 w_off Hq1).
    + rewrite Hws, !map_app. done.
Qed.

Lemma watched_db_wf : watchers_wf watched_db.
Proof. split; apply (bool_decide_unpack _); vm_compute; exact I. Defined.

Lemma add_watcher_idempotent_witness :
  watchers_wf watched_db
  ∧ (∃ (w : AmendmentWatcher.t) (db1 : DB),
        add_watcher 10 2 "Manual" watched_db = (db1, Ok w)
        ∧ add_watcher 10 2 "Mentioned" db1 = (db1, Ok w)
        ∧ watcher_rows 10 2 db1 = 1%nat)
  ∧ (∃ (db1 db2 : DB) (w : AmendmentWatcher.t),
        remove_watcher 10 2 watched_db = (db1, Ok tt)
        ∧ add_watcher 10 2 "Manual" db1 = (db2, Ok w)
        ∧ AmendmentWatcher.watcher_id w = 2
        ∧ AmendmentWatcher.is_watching w = Some true
        ∧ watcher_rows 10 2 db2 = 1%nat).
Proof.
  split; [exact watched_db_wf |].
  destruct (add_watcher_idempotent watched_db 10 2 "Manual" "Mentioned"
              "Manual" watched_db_wf)
    as [(w & db1 & H1 & H2 & _ & _ & H5 & _) Hback].
  split.
  - exists w, db1. split_and!; assumption.
  - destruct (Hback (watcher 2 10 2 true) eq_refl)
      as (db1' & db2 & w' & R1 & _ & R2 & _ & R3 & R4 & _ & _ & R5).
    exists db1', db2, w'. split_and!; assumption.
Defined.

(* ===================================================================== *)
(** * Further properties of the status machine                            *)
(* ===================================================================== *)

Lemma can_transition_values (from to : string) :
  can_transition from to = true →
  ∃ f t, from = value f ∧ to = value t
         ∧ (f = t ∨ t ∈ VALID_TRANSITIONS f).
Proof.
  unfold can_transition.
  destruct (QAStatus_of from) as [f|] eqn:Ef; [| done].
  destruct (QAStatus_of to) as [t|] eqn:Et; [| done].
  apply QAStatus_of_Ok in Ef, Et. intros H. exists f, t.
  split_and!; [done | done |].
  case_bool_decide; [by left | right].
  by apply bool_decide_eq_true_1 in H.
Qed.

(** X1. [validate_transition] never raises, whatever the amendment and
    whatever text is requested: the conversion of the requested status in
    the requirement checks is only reached after the table check has
    recognised it. The judgment is either ok with no message, or not-ok with
    a non-empty message. *)
Theorem validate_transition_never_raises (a : Amendment) (new_status : string) :
  validate_transition a new_status = Ok (true, None)
  ∨ ∃ reason, validate_transition a new_status = Ok (false, Some reason)
              ∧ reason ≠ "".
Proof.
  destruct (can_transition (qa_status a) new_status) eqn:Hcan.
  - destruct (can_transition_values _ _ Hcan) as (f & t & _ & -> & _).
    unfold validate_transition. rewrite Hcan, requirements_value.
    unfold rbind, negb.
    destruct t; simpl;
      repeat (match goal with
              | |- context [truthy_int ?x] => destruct (truthy_int x)
              | |- context [truthy_datetime ?x] => destruct (truthy_datetime x)
              | |- context [blank ?x] => destruct (blank x)
              | |- context [_check_completion_blockers ?x] =>
                  destruct (_check_completion_blockers x)
              end; simpl);
      rewrite ?passed_error_truthy;
      first [ by left
            | right; eexists; split;
              [reflexivity | first [apply passed_error_nonempty | by compute]] ].
  - right. eexists. split; [by apply validate_transition_off_table |].
    apply invalid_transition_error_nonempty.
Qed.

(** X2. The statuses offered by [get_next_allowed_statuses] are exactly the
    targets that [can_transition] accepts apart from staying in place: every
    offered status is accepted, and every accepted target is the current
    status or an offered one. Both hold for arbitrary texts. *)
Theorem allowed_statuses_are_the_transitions (current next : string) :
  (next ∈ get_next_allowed_statuses current →
   can_transition current next = true)
  ∧ (can_transition current next = true →
     next = current ∨ next ∈ get_next_allowed_statuses current).
Proof.
  split.
  - unfold get_next_allowed_statuses.
    destruct (QAStatus_of current) as [f|] eqn:Ef;
      [| by intros ?%elem_of_nil].
    apply QAStatus_of_Ok in Ef as ->.
    intros (t & -> & Ht)%list_elem_of_fmap.
    rewrite can_transition_value. case_bool_decide; [done |].
    by apply bool_decide_eq_true_2.
  - intros (f & t & -> & -> & [-> | Ht])%can_transition_values; [by left |].
    right. unfold get_next_allowed_statuses. rewrite QAStatus_of_value.
    apply list_elem_of_fmap. eauto.
Qed.

(** X3. The shape of the transition table, for arbitrary texts: Not Started
    is never entered from another status, Assigned is entered only from
    Not Started, Passed only from In Testing, and Blocked only from
    In Testing. *)
Theorem entry_points_of_the_table (from : string) :
  (can_transition from "Not Started" = true → from = "Not Started")
  ∧ (can_transition from "Assigned" = true →
     from = "Not Started" ∨ from = "Assigned")
  ∧ (can_transition from "Passed" = true →
     from = "In Testing" ∨ from = "Passed")
  ∧ (can_transition from "Blocked" = true →
     from = "In Testing" ∨ from = "Blocked").
Proof.
  split_and!; intros (f & t & -> & Ht & Hedge)%can_transition_values;
    destruct t; try discriminate Ht; clear Ht;
    destruct f; destruct Hedge as [Heq | Hin];
      try discriminate Heq; auto;
      exfalso; revert Hin; apply (bool_decide_unpack _); vm_compute; exact I.
Qed.

(** X4. Assigning a tester is always accepted by [validate_qa_assignment];
    unassigning is refused exactly in the statuses In Testing and Passed. In
    particular it is accepted on an Assigned amendment, and once the
    unassignment is applied that amendment is refused both Assigned and
    In Testing by [validate_transition], for want of a tester. *)
Theorem unassignment_accepted_when_assigned (a : Amendment) :
  (∀ id, validate_qa_assignment a (Some id) = (true, None))
  ∧ (fst (validate_qa_assignment a None) = false
     ↔ qa_status a = "In Testing" ∨ qa_status a = "Passed")
  ∧ (∀ a', qa_status a = "Assigned" →
           apply_qa_update a unassign_update None = Some a' →
           validate_qa_assignment a None = (true, None)
           ∧ qa_status a' = "Assigned"
           ∧ validate_transition a' "Assigned" = Ok (false, Some err_assigned)
           ∧ validate_transition a' "In Testing"
             = Ok (false, Some err_testing_tester)).
Proof.
  split_and!.
  - done.
  - unfold validate_qa_assignment, testing_or_passed. simpl.
    destruct (String.eqb_spec (qa_status a) "In Testing") as [-> | H1];
      [simpl; split; auto |].
    destruct (String.eqb_spec (qa_status a) "Passed") as [-> | H2];
      [simpl; split; auto |].
    simpl. split; [done | by intros [? | ?]].
  - intros a' Hst. unfold apply_qa_update. simpl. intros [= <-].
    unfold validate_qa_assignment, testing_or_passed, validate_transition.
    simpl. rewrite Hst. split_and!; reflexivity.
Qed.

(** X5. On a Passed amendment that meets the four prerequisites,
    [validate_checklist_update] accepts an edit of the test-plan or of the
    release-notes flag exactly when the edited amendment still has no
    completion blocker. A refused edit is one that would bring a blocker
    back: the refusal names the field it was asked about, and the amendment
    so edited has the blocker of its flag and no other, and is refused its
    own status Passed by [validate_transition]. *)
Theorem checklist_guard_matches_blockers
    (a a' : Amendment) (field_name : string) (new_value : bool) :
  qa_status a = "Passed" →
  passed_prerequisites a →
  apply_qa_update a (test_plan_update new_value) None = Some a'
  ∨ apply_qa_update a (release_notes_update new_value) None = Some a' →
  (validate_checklist_update a field_name new_value = (true, None)
   ↔ can_complete_qa a' = (true, []))
  ∧ (validate_checklist_update a field_name new_value ≠ (true, None) →
     ∃ reason b,
       validate_checklist_update a field_name new_value = (false, Some reason)
       ∧ contains reason field_name
       ∧ new_value = false
       ∧ can_complete_qa a' = (false, [b])
       ∧ (apply_qa_update a (test_plan_update new_value) None = Some a' →
          b = blocker_test_plan)
       ∧ (apply_qa_update a (release_notes_update new_value) None = Some a' →
          b = blocker_release_notes)
       ∧ validate_transition a' "Passed"
         = Ok (false, Some (passed_error [b]))).
Proof.
  intros Hst (Hplan & Hnotes & Hstart & Htext) Ha'.
  apply truthy_datetime_true in Hstart. apply blank_false in Htext.
  assert (Hst' : qa_status a' = "Passed").
  { destruct Ha' as [Ha' | Ha']; unfold apply_qa_update in Ha';
      simpl in Ha'; by injection Ha' as <-. }
  assert (Hcan : can_transition (qa_status a') "Passed" = true)
    by (by rewrite Hst').
  unfold validate_checklist_update. rewrite Hst. simpl.
  destruct new_value; simpl.
  - assert (Hb : _check_completion_blockers a' = []).
    { destruct Ha' as [Ha' | Ha']; unfold apply_qa_update in Ha';
        simpl in Ha'; injection Ha' as <-;
        unfold _check_completion_blockers; simpl;
        by rewrite ?Hplan, ?Hnotes, Hstart, Htext. }
    unfold can_complete_qa. rewrite Hb. by split.
  - assert (Hb : (apply_qa_update a (test_plan_update false) None = Some a'
                  ∧ _check_completion_blockers a' = [blocker_test_plan])
                 ∨ (apply_qa_update a (release_notes_update false) None = Some a'
                    ∧ _check_completion_blockers a' = [blocker_release_notes])).
    { destruct Ha' as [Ha' | Ha']; [left | right]; (split; [done |]);
        unfold apply_qa_update in Ha'; simpl in Ha'; injection Ha' as <-;
        unfold _check_completion_blockers; simpl;
        by rewrite ?Hplan, ?Hnotes, Hstart, Htext. }
    assert (Hone : ∃ b, _check_completion_blockers a' = [b]
                        ∧ (apply_qa_update a (test_plan_update false) None
                           = Some a' → b = blocker_test_plan)
                        ∧ (apply_qa_update a (release_notes_update false) None
                           = Some a' → b = blocker_release_notes)).
    { destruct Hb as [[Hu Hb] | [Hu Hb]]; eexists; (split; [exact Hb |]).
      - split; [done |]. intros Hu'. exfalso.
        unfold apply_qa_update in Hu, Hu'. simpl in Hu, Hu'.
        rewrite <- Hu in Hu'. injection Hu' as H1 H2. congruence.
      - split; [| done]. intros Hu'. exfalso.
        unfold apply_qa_update in Hu, Hu'. simpl in Hu, Hu'.
        rewrite <- Hu in Hu'. injection Hu' as H1 H2. congruence. }
    destruct Hone as (b & Hbl & Hb1 & Hb2).
    unfold can_complete_qa. rewrite Hbl. simpl. split; [by split |].
    intros _. eexists _, b. split_and!; try done.
    + apply contains_prefix, contains_suffix, contains_refl.
    + unfold validate_transition. rewrite Hcan.
      change "Passed" with (value PASSED). rewrite requirements_value, Hbl.
      unfold rbind, negb. by rewrite passed_error_truthy.
Qed.

Lemma checklist_guard_matches_blockers_witness :
  ∃ a',
    apply_qa_update passed_all_done (test_plan_update false) None = Some a'
    ∧ validate_checklist_update passed_all_done "qa_test_plan_check" false
      ≠ (true, None)
    ∧ can_complete_qa a' = (false, [blocker_test_plan])
    ∧ validate_transition a' "Passed"
      = Ok (false, Some (passed_error [blocker_test_plan])).
Proof.
  eexists. split; [reflexivity |].
  assert (Hpre : passed_prerequisites passed_all_done).
  { split_and!; [reflexivity | reflexivity | discriminate |].
    apply has_text_exists. apply (bool_decide_unpack _). vm_compute. exact I. }
  destruct (checklist_guard_matches_blockers passed_all_done _
              "qa_test_plan_check" false eq_refl Hpre (or_introl eq_refl))
    as [Hiff Href].
  assert (Hno : validate_checklist_update passed_all_done "qa_test_plan_check"
                                          false ≠ (true, None))
    by discriminate.
  destruct (Href Hno) as (reason & b & _ & _ & _ & Hc & Hb & _ & Hv).
  rewrite (Hb eq_refl) in Hc, Hv. by split_and!.
Defined.

(* ===================================================================== *)
(** * Further properties of the QA update                                 *)
(* ===================================================================== *)

Lemma update_amendment_qa_absent
    (db : DB) (id : Z) (u : AmendmentQAUpdate.t) (mb : option string) :
  first (fun a => amendment_id a =? id) (amendments db) = None →
  update_amendment_qa id u mb db = (db, Ok None).
Proof.
  intros H. unfold update_amendment_qa, bind, get_amendment, query, ret.
  by rewrite H.
Qed.

Lemma update_amendment_qa_found
    (db : DB) (id : Z) (u : AmendmentQAUpdate.t) (mb : option string)
    (a a' : Amendment) :
  first (fun a => amendment_id a =? id) (amendments db) = Some a →
  assigned_id_fits u = true →
  apply_qa_update a u mb = Some a' →
  update_amendment_qa id u mb db
  = (set_amendments (put_row amendment_id a') db, Ok (Some a')).
Proof.
  intros H Hf Ha. unfold update_amendment_qa, bind, get_amendment, query, ret,
    commit.
  by rewrite H, Hf, Ha.
Qed.

(** A refused commit: the store is the one received. *)
Lemma update_amendment_qa_refused
    (db : DB) (id : Z) (u : AmendmentQAUpdate.t) (mb : option string)
    (a : Amendment) :
  first (fun a => amendment_id a =? id) (amendments db) = Some a →
  assigned_id_fits u = false ∨ apply_qa_update a u mb = None →
  update_amendment_qa id u mb db
  = (db, Raise (ValueErrorFrom update_failed
                  (if assigned_id_fits u then status_not_null
                   else int_too_large))).
Proof.
  intros H Hr. unfold update_amendment_qa, bind, get_amendment, query, raise.
  rewrite H. destruct (assigned_id_fits u); simpl.
  - destruct Hr as [? | ->]; done.
  - done.
Qed.

Lemma fits_int64_in (n : Z) : fits_int64 n = true ↔ in_int64 n.
Proof.
  unfold fits_int64, in_int64. rewrite andb_true_iff, !Z.leb_le.
  change (2 ^ 63) with 9223372036854775808. lia.
Qed.

Lemma assigned_id_fits_in (u : AmendmentQAUpdate.t) :
  assigned_id_fits u = true ↔ tester_in_int64 u.
Proof.
  unfold assigned_id_fits, tester_in_int64.
  destruct (AmendmentQAUpdate.qa_assigned_id u) as [[n|]|].
  - rewrite fits_int64_in. split; [by intros ? ? [= <-] | by intros H; apply H].
  - by split.
  - by split.
Qed.

Lemma first_key {A : Type} (key : A → Z) (rows : list A) (id : Z) (x : A) :
  first (fun r => key r =? id) rows = Some x → key x = id.
Proof.
  intros (_ & H)%find_some. by apply Z.eqb_eq.
Qed.

Lemma apply_qa_update_id
    (a a' : Amendment) (u : AmendmentQAUpdate.t) (mb : option string) :
  apply_qa_update a u mb = Some a' → amendment_id a' = amendment_id a.
Proof.
  unfold apply_qa_update. destruct (setattr _ _); [| done]. by intros [= <-].
Qed.

(** After the change of a row, the query by its key returns the new row. *)
Lemma first_put_row_key {A : Type} (key : A → Z) (row x : A) (rows : list A) :
  first (fun r => key r =? key row) rows = Some x →
  first (fun r => key r =? key row) (put_row key row rows) = Some row.
Proof.
  unfold first, put_row. induction rows as [|y rows IH]; simpl; [done |].
  destruct (key y =? key row) eqn:E.
  - intros _. by rewrite Z.eqb_refl.
  - rewrite E. apply IH.
Qed.

(** The query by another key does not see the change. *)
Lemma first_put_row_other {A : Type} (key : A → Z) (row : A) (rows : list A) (i : Z) :
  key row ≠ i →
  first (fun r => key r =? i) (put_row key row rows)
  = first (fun r => key r =? i) rows.
Proof.
  unfold first, put_row. intros Hne.
  induction rows as [|y rows IH]; simpl; [done |].
  destruct (key y =? key row) eqn:E.
  - apply Z.eqb_eq in E.
    rewrite (proj2 (Z.eqb_neq (key row) i)) by done.
    rewrite (proj2 (Z.eqb_neq (key y) i)) by congruence. apply IH.
  - by rewrite IH.
Qed.

Lemma put_row_keys {A : Type} (key : A → Z) (row : A) (rows : list A) :
  map key (put_row key row rows) = map key rows.
Proof.
  unfold put_row. induction rows as [|y rows IH]; simpl; [done |].
  rewrite IH. f_equal.
  destruct (key y =? key row) eqn:E; [| done].
  apply Z.eqb_eq in E. congruence.
Qed.

Lemma put_row_twice {A : Type} (key : A → Z) (row : A) (rows : list A) :
  put_row key row (put_row key row rows) = put_row key row rows.
Proof.
  unfold put_row. induction rows as [|y rows IH]; simpl; [done |].
  rewrite IH. f_equal.
  destruct (key y =? key row) eqn:E; [by rewrite Z.eqb_refl | by rewrite E].
Qed.

Lemma setattr_twice {A : Type} (entry : option A) (old : A) :
  setattr entry (setattr entry old) = setattr entry old.
Proof. by destruct entry. Qed.

Lemma apply_qa_update_twice
    (a a' : Amendment) (u : AmendmentQAUpdate.t) (mb : option string) :
  apply_qa_update a u mb = Some a' → apply_qa_update a' u mb = Some a'.
Proof.
  unfold apply_qa_update.
  destruct (AmendmentQAUpdate.qa_status u) as [[s|]|] eqn:Es; simpl;
    [| done |]; intros [= <-]; simpl; by rewrite !setattr_twice.
Qed.

(** X6. [update_amendment_qa] writes whatever status text the request
    carries on the stored amendment, without consulting the validator: the
    call succeeds, the amendment read back by its id carries the requested
    status, and its other QA attributes are the ones it had. *)
Theorem update_amendment_qa_applies_any_status
    (db : DB) (id : Z) (a : Amendment) (status : string) :
  first (fun x => amendment_id x =? id) (amendments db) = Some a →
  ∃ (a' : Amendment) (db1 : DB),
    update_amendment_qa id (status_update (Some status)) None db
    = (db1, Ok (Some a'))
    ∧ get_amendment id db1 = (db1, Ok (Some a'))
    ∧ qa_status a' = status
    ∧ qa_assigned_id a' = qa_assigned_id a
    ∧ qa_assigned_date a' = qa_assigned_date a
    ∧ qa_started_date a' = qa_started_date a
    ∧ qa_test_plan_check a' = qa_test_plan_check a
    ∧ qa_test_release_notes_check a' = qa_test_release_notes_check a
    ∧ qa_notes a' = qa_notes a
    ∧ qa_blocked_reason a' = qa_blocked_reason a.
Proof.
  intros Hq.
  destruct (apply_qa_update a (status_update (Some status)) None) as [a'|] eqn:Ha;
    [| done].
  pose proof (apply_qa_update_id _ _ _ _ Ha) as Hid.
  pose proof (first_key _ _ _ _ Hq) as Hk.
  exists a', (set_amendments (put_row amendment_id a') db).
  split; [by apply (update_amendment_qa_found db id _ None a) |].
  split.
  - unfold get_amendment, query. f_equal. f_equal. simpl.
    replace id with (amendment_id a') in * by congruence.
    by apply (first_put_row_key amendment_id a' a).
  - unfold apply_qa_update in Ha. simpl in Ha. injection Ha as <-.
    by split_and!.
Qed.

Lemma update_amendment_qa_applies_any_status_witness :
  validate_transition (bare_amendment 1 "Not Started") "Passed"
  = Ok (false, Some (invalid_transition_error "Not Started" "Passed"))
  ∧ ∃ (a' : Amendment) (db1 : DB),
      update_amendment_qa 1 (status_update (Some "Passed")) None
        (set_amendments (fun _ => [bare_amendment 1 "Not Started"]) empty_db)
      = (db1, Ok (Some a'))
      ∧ get_amendment 1 db1 = (db1, Ok (Some a'))
      ∧ qa_status a' = "Passed".
Proof.
  split; [reflexivity |].
  destruct (update_amendment_qa_applies_any_status
              (set_amendments (fun _ => [bare_amendment 1 "Not Started"]) empty_db)
              1 (bare_amendment 1 "Not Started") "Passed" eq_refl)
    as (a' & db1 & H1 & H2 & H3 & _).
  exists a', db1. split_and!; assumption.
Defined.

(** X7. The failures of [update_amendment_qa]. An id within 64 bits that
    no stored amendment has gives [None]. On a stored amendment, a request
    that names a tester outside 64 bits raises [ValueError] caused by the
    [OverflowError] of the driver, whatever else it sets; otherwise a
    request that sets [qa_status] to null raises [ValueError] caused by the
    [IntegrityError] of the store; and every other request succeeds and
    stores the amendment with the fields of the request. In the three cases
    without a result the store is left as it was. *)
Theorem update_amendment_qa_failures
    (db : DB) (id : Z) (u : AmendmentQAUpdate.t) (mb : option string) :
  (in_int64 id →
   first (fun x => amendment_id x =? id) (amendments db) = None →
   update_amendment_qa id u mb db = (db, Ok None))
  ∧ (∀ a, first (fun x => amendment_id x =? id) (amendments db) = Some a →
       (¬ tester_in_int64 u →
        update_amendment_qa id u mb db
        = (db, Raise (ValueErrorFrom "Failed to update QA fields: "
                        (OverflowError
                           "Python int too large to convert to SQLite INTEGER"))))
       ∧ (tester_in_int64 u →
          AmendmentQAUpdate.qa_status u = Some None →
          update_amendment_qa id u mb db
          = (db, Raise (ValueErrorFrom "Failed to update QA fields: "
                          (IntegrityError
                             "NOT NULL constraint failed: amendments.qa_status"))))
       ∧ (tester_in_int64 u →
          AmendmentQAUpdate.qa_status u ≠ Some None →
          ∃ a', update_amendment_qa id u mb db
                = (set_amendments (put_row amendment_id a') db, Ok (Some a'))
                ∧ apply_qa_update a u mb = Some a'
                ∧ get_amendment id (set_amendments (put_row amendment_id a') db)
                  = (set_amendments (put_row amendment_id a') db,
                     Ok (Some a')))).
Proof.
  split.
  - intros _. apply update_amendment_qa_absent.
  - intros a Hq. split_and!.
    + intros Hfit. rewrite <- assigned_id_fits_in in Hfit.
      apply not_true_is_false in Hfit.
      rewrite (update_amendment_qa_refused db id u mb a Hq (or_introl Hfit)).
      by rewrite Hfit.
    + intros Hfit%assigned_id_fits_in Hu.
      assert (Ha : apply_qa_update a u mb = None).
      { unfold apply_qa_update. by rewrite Hu. }
      rewrite (update_amendment_qa_refused db id u mb a Hq (or_intror Ha)).
      by rewrite Hfit.
    + intros Hfit%assigned_id_fits_in Hu.
      destruct (apply_qa_update a u mb) as [a'|] eqn:Ha.
      * exists a'. split_and!; [| done |].
        -- by apply (update_amendment_qa_found db id u mb a a').
        -- pose proof (apply_qa_update_id _ _ _ _ Ha) as Hid.
           pose proof (first_key _ _ _ _ Hq) as Hk.
           unfold get_amendment, query. do 2 f_equal. simpl.
           replace id with (amendment_id a') in * by congruence.
           by apply (first_put_row_key amendment_id a' a).
      * unfold apply_qa_update in Ha.
        destruct (AmendmentQAUpdate.qa_status u) as [[st|]|]; done.
Qed.

Lemma update_amendment_qa_failures_witness :
  update_amendment_qa 1 (assign_tester (2 ^ 63)) None assign_db
  = (assign_db,
     Raise (ValueErrorFrom "Failed to update QA fields: "
              (OverflowError
                 "Python int too large to convert to SQLite INTEGER")))
  ∧ update_amendment_qa 1 (status_update None) None assign_db
    = (assign_db,
       Raise (ValueErrorFrom "Failed to update QA fields: "
                (IntegrityError
                   "NOT NULL constraint failed: amendments.qa_status")))
  ∧ ∃ a', snd (update_amendment_qa 1 (assign_tester (2 ^ 63 - 1)) None
                                   assign_db) = Ok (Some a')
          ∧ qa_assigned_id a' = Some (2 ^ 63 - 1).
Proof.
  destruct (proj2 (update_amendment_qa_failures assign_db 1
                     (assign_tester (2 ^ 63)) None) ready_to_assign eq_refl)
    as (Hbig & _ & _).
  destruct (proj2 (update_amendment_qa_failures assign_db 1
                     (status_update None) None) ready_to_assign eq_refl)
    as (_ & Hnull & _).
  destruct (proj2 (update_amendment_qa_failures assign_db 1
                     (assign_tester (2 ^ 63 - 1)) None) ready_to_assign eq_refl)
    as (_ & _ & Hok).
  split_and!.
  - apply Hbig. intros H. specialize (H _ eq_refl). unfold in_int64 in H. lia.
  - apply Hnull; [by intros n [=] | reflexivity].
  - destruct Hok as (a' & Hrun & Ha & _).
    + intros n [= <-]. unfold in_int64. lia.
    + discriminate.
    + exists a'. rewrite Hrun. split; [reflexivity |].
      injection Ha as <-. reflexivity.
Defined.

(** X8. [update_amendment_qa] is idempotent: repeating a call on the store
    it produced gives the same answer and the same store. *)
Theorem update_amendment_qa_idempotent
    (db : DB) (id : Z) (u : AmendmentQAUpdate.t) (mb : option string) :
  update_amendment_qa id u mb (fst (update_amendment_qa id u mb db))
  = update_amendment_qa id u mb db.
Proof.
  destruct (first (fun x => amendment_id x =? id) (amendments db)) as [a|] eqn:Hq.
  - destruct (assigned_id_fits u) eqn:Hf;
      [destruct (apply_qa_update a u mb) as [a'|] eqn:Ha |].
    + rewrite (update_amendment_qa_found db id u mb a a' Hq Hf Ha). simpl.
      pose proof (apply_qa_update_id _ _ _ _ Ha) as Hid.
      pose proof (first_key _ _ _ _ Hq) as Hk.
      assert (Hq' : first (fun x => amendment_id x =? id)
                          (amendments
                             (set_amendments (put_row amendment_id a') db))
                    = Some a').
      { simpl. replace id with (amendment_id a') in * by congruence.
        by apply (first_put_row_key amendment_id a' a). }
      rewrite (update_amendment_qa_found _ id u mb a' a' Hq' Hf
                 (apply_qa_update_twice _ _ _ _ Ha)).
      f_equal. destruct db; unfold set_amendments; simpl.
      by rewrite put_row_twice.
    + rewrite (update_amendment_qa_refused db id u mb a Hq (or_intror Ha)).
      simpl. exact (update_amendment_qa_refused db id u mb a Hq (or_intror Ha)).
    + rewrite (update_amendment_qa_refused db id u mb a Hq (or_introl Hf)).
      simpl. exact (update_amendment_qa_refused db id u mb a Hq (or_introl Hf)).
  - rewrite (update_amendment_qa_absent db id u mb Hq). simpl.
    by apply update_amendment_qa_absent.
Qed.

(** X9. [update_amendment_qa] touches one amendment and nothing else: the
    amendment read by any other id is the one that was stored, the ids of
    the amendment table are the same in the same order, and every other
    table is left as it was. *)
Theorem update_amendment_qa_frame
    (db : DB) (id : Z) (u : AmendmentQAUpdate.t) (mb : option string) :
  let db1 := fst (update_amendment_qa id u mb db) in
  (∀ i, i ≠ id → get_amendment i db1 = (db1, snd (get_amendment i db)))
  ∧ map amendment_id (amendments db1) = map amendment_id (amendments db)
  ∧ employees db1 = employees db
  ∧ qa_history db1 = qa_history db
  ∧ qa_notifications db1 = qa_notifications db
  ∧ qa_comments db1 = qa_comments db
  ∧ comment_mentions db1 = comment_mentions db
  ∧ amendment_watchers db1 = amendment_watchers db
  ∧ comment_reactions db1 = comment_reactions db.
Proof.
  destruct (first (fun x => amendment_id x =? id) (amendments db)) as [a|] eqn:Hq.
  - destruct (assigned_id_fits u) eqn:Hf;
      [destruct (apply_qa_update a u mb) as [a'|] eqn:Ha |].
    + rewrite (update_amendment_qa_found db id u mb a a' Hq Hf Ha). simpl.
      pose proof (apply_qa_update_id _ _ _ _ Ha) as Hid.
      pose proof (first_key _ _ _ _ Hq) as Hk.
      split_and!; try done.
      * intros i Hi. unfold get_amendment, query. simpl. do 2 f_equal.
        apply first_put_row_other. congruence.
      * apply put_row_keys.
    + rewrite (update_amendment_qa_refused db id u mb a Hq (or_intror Ha)).
      simpl. by split_and!.
    + rewrite (update_amendment_qa_refused db id u mb a Hq (or_introl Hf)).
      simpl. by split_and!.
  - rewrite (update_amendment_qa_absent db id u mb Hq). simpl. by split_and!.
Qed.

(* ===================================================================== *)
(** * Further properties of the history and of the notifications          *)
(* ===================================================================== *)

(** X10. [create_qa_history] only appends: the entries already recorded stay
    in place and unchanged, the new entry comes last with the values passed,
    under a key that no recorded entry has, so that keys stay distinct; no
    other table changes. *)
Theorem create_qa_history_appends
    (db : DB) (am : Z) (action : string)
    (field_name old_value new_value comment : option string)
    (changed_by_id : option Z) :
  ∃ (h : QAHistory.t) (db1 : DB),
    create_qa_history am action field_name old_value new_value comment
                      changed_by_id db = (db1, Ok h)
    ∧ qa_history db1 = qa_history db ++ [h]
    ∧ h = QAHistory.mk (QAHistory.history_id h) am action field_name old_value
                       new_value comment changed_by_id
    ∧ (QAHistory.history_id h ∉ map QAHistory.history_id (qa_history db))
    ∧ (NoDup (map QAHistory.history_id (qa_history db)) →
       NoDup (map QAHistory.history_id (qa_history db1)))
    ∧ amendments db1 = amendments db
    ∧ qa_notifications db1 = qa_notifications db
    ∧ amendment_watchers db1 = amendment_watchers db.
Proof.
  eexists _, _. split; [reflexivity |]. simpl.
  pose proof (next_id_fresh "qa_history" QAHistory.history_id (qa_history db) db)
    as Hfresh.
  split_and!; try done.
  intros Hnd. unfold add_row. rewrite map_app. simpl.
  apply NoDup_app. split_and!; [done | | apply NoDup_singleton].
  by intros k Hk ->%list_elem_of_singleton.
Qed.

Lemma unread_of_set_read (e : Z) (now : datetime) (n : QANotification.t) :
  unread_of e (set_read now n) = false.
Proof. unfold unread_of. simpl. by destruct (_ =? _). Qed.

Lemma unread_of_employee (e : Z) (n : QANotification.t) :
  unread_of e n = true → QANotification.employee_id n = e.
Proof.
  unfold unread_of. simpl.
  destruct (QANotification.employee_id n =? e) eqn:E; [by apply Z.eqb_eq in E |].
  by destruct (QANotification.is_read n) as [[]|].
Qed.

Lemma length_filter_map {A : Type} (p : A → bool) (f : A → A) (l : list A) :
  (∀ x, p (f x) = p x) →
  length (List.filter p (map f l)) = length (List.filter p l).
Proof.
  intros Hf. induction l as [|x l IH]; simpl; [done |].
  rewrite Hf. destruct (p x); simpl; by rewrite IH.
Qed.

Lemma filter_map_none {A : Type} (p : A → bool) (f : A → A) (l : list A) :
  (∀ x, p (f x) = false) → List.filter p (map f l) = [].
Proof.
  intros Hf. induction l as [|x l IH]; simpl; [done |]. by rewrite Hf.
Qed.

Lemma map_unchanged {A : Type} (p : A → bool) (g : A → A) (l : list A) :
  List.filter p l = [] → map (fun x => if p x then g x else x) l = l.
Proof.
  induction l as [|x l IH]; simpl; [done |].
  destruct (p x); [done | intros H; by rewrite IH].
Qed.

(** X11. [create_notification] adds one unread notification: it comes last
    in the table under a key no stored notification has, and the unread count
    of its recipient grows by one while that of every other employee stays
    the same. *)
Theorem create_notification_adds_one_unread
    (db : DB) (n : QANotificationCreate.t) (e : Z) :
  ∃ (row : QANotification.t) (db1 : DB) (k : Z),
    create_notification n db = (db1, Ok row)
    ∧ qa_notifications db1 = qa_notifications db ++ [row]
    ∧ QANotification.employee_id row = QANotificationCreate.employee_id n
    ∧ QANotification.is_read row = Some false
    ∧ (QANotification.notification_id row
       ∉ map QANotification.notification_id (qa_notifications db))
    ∧ get_unread_count e db = (db, Ok k)
    ∧ get_unread_count e db1
      = (db1, Ok (k + if QANotificationCreate.employee_id n =? e then 1 else 0)).
Proof.
  eexists _, _, _. split; [reflexivity |]. simpl.
  split_and!; try reflexivity.
  - apply next_id_fresh.
  - unfold get_unread_count, query. simpl. do 2 f_equal.
    unfold add_row. rewrite List.filter_app, List.length_app. simpl.
    unfold unread_of at 2. simpl.
    destruct (QANotificationCreate.employee_id n =? e); simpl; lia.
Qed.

(** X12. [mark_all_notifications_read] returns the unread count of the
    employee, after which that count is zero; the unread counts of the other
    employees, and the notifications present, are the same as before; a second
    call returns zero and changes nothing. *)
Theorem mark_all_notifications_read_clears
    (db : DB) (now now' : datetime) (e : Z) :
  ∃ (db1 : DB) (k : Z),
    mark_all_notifications_read now e db = (db1, Ok k)
    ∧ get_unread_count e db = (db, Ok k)
    ∧ get_unread_count e db1 = (db1, Ok 0)
    ∧ (∀ e', e' ≠ e →
        snd (get_unread_count e' db1) = snd (get_unread_count e' db))
    ∧ map QANotification.notification_id (qa_notifications db1)
      = map QANotification.notification_id (qa_notifications db)
    ∧ mark_all_notifications_read now' e db1 = (db1, Ok 0).
Proof.
  set (mark := fun n => if unread_of e n then set_read now n else n).
  assert (Hnone : List.filter (unread_of e) (map mark (qa_notifications db)) = []).
  { apply filter_map_none. intros n. unfold mark.
    destruct (unread_of e n) eqn:E; [apply unread_of_set_read | done]. }
  eexists _, _. split; [reflexivity |]. simpl.
  split_and!.
  - reflexivity.
  - unfold get_unread_count, query. simpl. fold mark. by rewrite Hnone.
  - intros e' He'. unfold get_unread_count, query. simpl. do 2 f_equal.
    fold mark. apply length_filter_map. intros n. unfold mark.
    destruct (unread_of e n) eqn:E; [| done].
    rewrite unread_of_set_read. apply unread_of_employee in E.
    destruct (unread_of e' n) eqn:E'; [| done].
    apply unread_of_employee in E'. congruence.
  - fold mark. rewrite map_map. apply map_ext. intros n. unfold mark.
    by destruct (unread_of e n).
  - unfold mark_all_notifications_read, bind, query, commit, ret. simpl.
    fold mark. rewrite Hnone. simpl. f_equal.
    destruct db; unfold set_qa_notifications; simpl. f_equal.
    by apply (map_unchanged (unread_of e) (set_read now')).
Qed.

Lemma mark_notification_read_found
    (db : DB) (now : datetime) (id : Z) (n : QANotification.t) :
  first (notification_of id) (qa_notifications db) = Some n →
  mark_notification_read now id db
  = (set_qa_notifications
       (put_row QANotification.notification_id (set_read now n)) db,
     Ok (Some (set_read now n))).
Proof.
  intros H. unfold mark_notification_read, bind, query, commit, ret.
  by rewrite H.
Qed.

(** X13. The two notification endpoints check the owner at different
    moments. For a notification that belongs to someone else, marking it read
    answers 403 after the change has been committed: the stored notification
    is read from then on. Deleting it answers 403 before anything is done:
    the store is the one received. *)
Theorem notification_owner_check_order
    (db : DB) (now : datetime) (id : Z) (current_user : Employee.t)
    (n : QANotification.t) :
  first (notification_of id) (qa_notifications db) = Some n →
  QANotification.employee_id n ≠ Employee.employee_id current_user →
  (∃ db1,
      mark_notification_read_endpoint now id current_user db
      = (db1, Raise (HTTPException 403 "Not authorized to modify this notification"))
      ∧ first (notification_of id) (qa_notifications db1) = Some (set_read now n)
      ∧ QANotification.is_read (set_read now n) = Some true)
  ∧ delete_notification_endpoint id current_user db
    = (db, Raise (HTTPException 403 "Not authorized to delete this notification")).
Proof.
  intros Hq Hown. split.
  - eexists. unfold mark_notification_read_endpoint, bind.
    rewrite (mark_notification_read_found db now id n Hq). simpl.
    rewrite bool_decide_eq_true_2 by done.
    split; [reflexivity |]. split; [| done].
    pose proof (first_key QANotification.notification_id _ _ _ Hq) as Hk.
    unfold notification_of in *. subst id.
    exact (first_put_row_key QANotification.notification_id
             (set_read now n) n _ Hq).
  - unfold delete_notification_endpoint, bind, query, raise.
    rewrite Hq. by rewrite bool_decide_eq_true_2.
Qed.

Lemma notification_owner_check_order_witness :
  first (notification_of 1) (qa_notifications inbox_db)
  = Some (notification 1 1 (Some false))
  ∧ QANotification.employee_id (notification 1 1 (Some false))
    ≠ Employee.employee_id bob
  ∧ (∃ db1,
        mark_notification_read_endpoint 500 1 bob inbox_db
        = (db1, Raise (HTTPException 403
                         "Not authorized to modify this notification"))
        ∧ first (notification_of 1) (qa_notifications db1)
          = Some (set_read 500 (notification 1 1 (Some false))))
  ∧ delete_notification_endpoint 1 bob inbox_db
    = (inbox_db,
       Raise (HTTPException 403 "Not authorized to delete this notification")).
Proof.
  assert (H1 : first (notification_of 1) (qa_notifications inbox_db)
               = Some (notification 1 1 (Some false))) by reflexivity.
  assert (H2 : QANotification.employee_id (notification 1 1 (Some false))
               ≠ Employee.employee_id bob) by discriminate.
  destruct (notification_owner_check_order inbox_db 500 1 bob _ H1 H2)
    as [(db1 & R1 & R2 & _) R3].
  split_and!; [exact H1 | exact H2 | exists db1; by split | exact R3].
Defined.

Lemma first_delete_row {A : Type} (key : A → Z) (row : A) (rows : list A) :
  first (fun r => key r =? key row) (delete_row key row rows) = None.
Proof.
  apply first_nil_filter.
  destruct (List.filter _ _) as [|x l] eqn:E; [done |].
  assert (Hin : In x (List.filter (fun r => key r =? key row)
                                  (delete_row key row rows)))
    by (rewrite E; by left).
  apply List.filter_In in Hin as [Hin Hk].
  apply list_elem_of_In, list_elem_of_filter in Hin as [Hne _].
  by apply Z.eqb_eq in Hk.
Qed.

(** X14. [delete_notification] answers [False] exactly when no notification
    has the id, and then leaves the store as it was; in every case no
    notification has the id afterwards, and every notification with another
    id is still there. *)
Theorem delete_notification_removes_the_id (db : DB) (id : Z) :
  ∃ (db1 : DB) (deleted : bool),
    delete_notification id db = (db1, Ok deleted)
    ∧ (deleted = false
       ↔ first (notification_of id) (qa_notifications db) = None)
    ∧ (deleted = false → db1 = db)
    ∧ first (notification_of id) (qa_notifications db1) = None
    ∧ (∀ n, n ∈ qa_notifications db → QANotification.notification_id n ≠ id →
            n ∈ qa_notifications db1).
Proof.
  unfold delete_notification, bind, query, commit, ret.
  destruct (first (notification_of id) (qa_notifications db)) as [x|] eqn:Hq.
  - eexists _, _. split; [reflexivity |]. simpl.
    pose proof (first_key QANotification.notification_id _ _ _ Hq) as Hk.
    split_and!; try done.
    + unfold notification_of. rewrite <- Hk. apply first_delete_row.
    + intros n Hin Hne. apply list_elem_of_filter. split; [congruence | done].
  - eexists _, _. split; [reflexivity |]. by split_and!.
Qed.



(* ===================================================================== *)
(** * Further properties of the watch registry                            *)
(* ===================================================================== *)

Lemma active_watcher_of_true (am : Z) (w : AmendmentWatcher.t) :
  active_watcher_of am w = true
  ↔ AmendmentWatcher.amendment_id w = am
    ∧ AmendmentWatcher.is_watching w = Some true.
Proof.
  unfold active_watcher_of. rewrite andb_true_iff, Z.eqb_eq.
  destruct (AmendmentWatcher.is_watching w) as [[]|]; simpl; split;
    intros [? ?]; split; congruence.
Qed.

Lemma is_watching_true (db : DB) (am emp : Z) :
  is_watching am emp db = (db, Ok true) ↔ watching am emp db.
Proof.
  unfold is_watching, query, watching.
  destruct (first _ _) as [x|] eqn:Hq.
  - split; [intros _ | done].
    apply find_some in Hq as [Hin [Hp Ha]%andb_prop].
    exists x. split_and!; [by apply list_elem_of_In | by apply watcher_of_pair |].
    by apply active_watcher_of_true in Ha as [_ ?].
  - split; [done |]. intros (w & Hin & Hp & Hw). exfalso.
    apply list_elem_of_In in Hin.
    pose proof (find_none _ _ Hq w Hin) as Hf. simpl in Hf.
    apply watcher_of_pair in Hp as Hp'. rewrite Hp' in Hf. simpl in Hf.
    assert (active_watcher_of am w = true); [| congruence].
    apply active_watcher_of_true. split; [| done].
    by injection Hp.
Qed.

Lemma is_watching_result (db : DB) (am emp : Z) :
  ∃ b, is_watching am emp db = (db, Ok b).
Proof. unfold is_watching, query. by eexists. Qed.

(** The answer of [is_watching] only depends on who is watching. *)
Lemma is_watching_ext (db db' : DB) (am emp : Z) :
  (watching am emp db ↔ watching am emp db') →
  snd (is_watching am emp db) = snd (is_watching am emp db').
Proof.
  intros H. rewrite <- !is_watching_true in H.
  destruct (is_watching_result db am emp) as [b Hb].
  destruct (is_watching_result db' am emp) as [b' Hb'].
  rewrite Hb, Hb' in *. simpl.
  destruct b, b'; try done.
  - destruct H as [H _]. by specialize (H eq_refl).
  - destruct H as [_ H]. by specialize (H eq_refl).
Qed.


(** Who is watching after the row found by the query has been replaced by a
    row of the same pair. *)
Lemma watching_replaced
    (am emp : Z) (l1 l2 : list AmendmentWatcher.t)
    (w0 w' : AmendmentWatcher.t) (db db1 : DB) (am' emp' : Z) :
  amendment_watchers db = l1 ++ w0 :: l2 →
  amendment_watchers db1 = l1 ++ w' :: l2 →
  watcher_pair w0 = (am, emp) → watcher_pair w' = (am, emp) →
  (am', emp') ≠ (am, emp) →
  watching am' emp' db1 ↔ watching am' emp' db.
Proof.
  intros Hws Hws1 Hp0 Hp' Hne. unfold watching. rewrite Hws, Hws1.
  split; intros (w & Hin & Hp & Hw); exists w; (split_and!; [| done | done]).
  - apply elem_of_app in Hin as [Hin | Hin]; apply elem_of_app; [by left |].
    apply elem_of_cons in Hin as [-> | Hin]; [congruence |]. right. by right.
  - apply elem_of_app in Hin as [Hin | Hin]; apply elem_of_app; [by left |].
    apply elem_of_cons in Hin as [-> | Hin]; [congruence |]. right. by right.
Qed.




Lemma set_is_watching_active (w : AmendmentWatcher.t) :
  AmendmentWatcher.is_watching w = Some true → set_is_watching true w = w.
Proof. destruct w. simpl. by intros ->. Qed.

Lemma watching_added (db db1 : DB) (w : AmendmentWatcher.t) (am emp am' emp' : Z) :
  amendment_watchers db1 = amendment_watchers db ++ [w] →
  watcher_pair w = (am, emp) → (am', emp') ≠ (am, emp) →
  watching am' emp' db1 ↔ watching am' emp' db.
Proof.
  intros Hws Hp Hne. unfold watching. rewrite Hws.
  split; intros (x & Hin & Hpx & Hw); exists x; (split_and!; [| done | done]).
  - apply elem_of_app in Hin as [Hin | Hin]; [done |].
    apply list_elem_of_singleton in Hin as ->. congruence.
  - apply elem_of_app. by left.
Qed.

(** X18. On a watcher table that satisfies its constraints, [add_watcher]
    leaves the employee watching the amendment and keeps the constraints. A
    row that exists for the pair is returned with its key, its reason and its
    preferences, whatever reason is passed, only switched on; otherwise a row
    is appended with the reason passed and the three preferences on. Whether
    anyone else watches anything does not change. *)
Theorem add_watcher_subscribes (db : DB) (am emp : Z) (reason : string) :
  watchers_wf db →
  ∃ (w : AmendmentWatcher.t) (db1 : DB),
    add_watcher am emp reason db = (db1, Ok w)
    ∧ is_watching am emp db1 = (db1, Ok true)
    ∧ watchers_wf db1
    ∧ (∀ w0, first (watcher_of am emp) (amendment_watchers db) = Some w0 →
             w = set_is_watching true w0
             ∧ map AmendmentWatcher.watcher_id (amendment_watchers db1)
               = map AmendmentWatcher.watcher_id (amendment_watchers db))
    ∧ (first (watcher_of am emp) (amendment_watchers db) = None →
       w = AmendmentWatcher.mk (AmendmentWatcher.watcher_id w) am emp
                               (Some reason) (Some true) (Some true)
                               (Some true) (Some true)
       ∧ amendment_watchers db1 = amendment_watchers db ++ [w])
    ∧ (∀ am' emp', (am', emp') ≠ (am, emp) →
         snd (is_watching am' emp' db1) = snd (is_watching am' emp' db)).
Proof.
  intros Hwf.
  destruct (first (watcher_of am emp) (amendment_watchers db)) as [w0|] eqn:Hq.
  - destruct (first_split _ _ _ Hq) as (l1 & l2 & Hws & Hp & Hl1).
    pose proof (proj1 (watcher_of_pair _ _ _) Hp) as Hpair.
    destruct (decide (AmendmentWatcher.is_watching w0 = Some true)) as [Hon | Hoff].
    + exists w0, db. rewrite (add_watcher_active db am emp reason w0 Hq Hon).
      split_and!; try done.
      * apply is_watching_true. exists w0. split_and!; try done.
        rewrite Hws. apply elem_of_app. right. by left.
      * intros ? [= <-]. by rewrite set_is_watching_active.
    + set (w := set_is_watching true w0).
      destruct (watchers_wf_put db w0 w l1 l2 Hws Hwf eq_refl eq_refl)
        as [Hws1 Hwf1].
      set (db1 := set_amendment_watchers
                    (put_row AmendmentWatcher.watcher_id w) db) in *.
      exists w, db1. rewrite (add_watcher_muted db am emp reason w0 Hq Hoff).
      split_and!; try done.
      * apply is_watching_true. exists w. split_and!; try done.
        rewrite Hws1. apply elem_of_app. right. by left.
      * intros ? [= <-]. split; [done |]. by rewrite Hws1, Hws, !map_app.
      * intros am' emp' Hne. apply is_watching_ext.
        by apply (watching_replaced am emp l1 l2 w0 w).
  - pose proof (proj1 (first_nil_filter _ _) Hq) as Habs.
    pose proof (add_watcher_new db am emp reason Hq) as Hadd. simpl in Hadd.
    set (w := AmendmentWatcher.mk
                (next_id "amendment_watchers" AmendmentWatcher.watcher_id
                         (amendment_watchers db) db)
                am emp (Some reason) (Some true) (Some true) (Some true)
                (Some true)) in *.
    set (db1 := inserted "amendment_watchers" (AmendmentWatcher.watcher_id w)
                         (set_amendment_watchers (add_row w)) db) in *.
    assert (Hws1 : amendment_watchers db1 = amendment_watchers db ++ [w])
      by done.
    exists w, db1. rewrite Hadd.
    split_and!; try done.
    + apply is_watching_true. exists w. split_and!; try done.
      rewrite Hws1. apply elem_of_app. right. by left.
    + by apply (watchers_wf_add db am emp w).
    + intros am' emp' Hne. apply is_watching_ext.
      by apply (watching_added db db1 w am emp).
Qed.

Lemma add_watcher_subscribes_witness :
  watchers_wf watched_db
  ∧ ∃ (w : AmendmentWatcher.t) (db1 : DB),
      add_watcher 10 3 "Mentioned" watched_db = (db1, Ok w)
      ∧ is_watching 10 3 db1 = (db1, Ok true)
      ∧ w = watcher 3 10 3 false.
Proof.
  split; [exact watched_db_wf |].
  destruct (add_watcher_subscribes watched_db 10 3 "Mentioned" watched_db_wf)
    as (w & db1 & R1 & R2 & _ & R3 & _).
  exists w, db1. split_and!; [exact R1 | exact R2 |].
  exact (proj1 (R3 (watcher 3 10 3 false) eq_refl)).
Defined.




Lemma excluded_true (ex : option Z) (id : Z) :
  truthy_int ex && bool_decide (Some id = ex) = true
  ↔ ex = Some id ∧ id ≠ 0.
Proof.
  rewrite andb_true_iff, bool_decide_eq_true. split.
  - intros [Ht <-]. split; [done |]. simpl in Ht.
    by apply negb_true_iff, Z.eqb_neq in Ht.
  - intros [-> Hne]. split; [| done]. simpl.
    by apply negb_true_iff, Z.eqb_neq.
Qed.

Lemma muted_true (ev name : string) (pref : option bool) :
  String.eqb ev name && negb (truthy_bool pref) = true
  ↔ ev = name ∧ pref ≠ Some true.
Proof.
  rewrite andb_true_iff, String.eqb_eq, negb_true_iff, <- truthy_bool_true.
  split; intros [? ?]; split; try done.
  - congruence.
  - by apply not_true_is_false.
Qed.

(** One watcher of the loop: passed over, or the call that raises. *)
Lemma notify_watcher_spec
    (am : Z) (ev msg : string) (ex : option Z) (w : AmendmentWatcher.t) (db : DB) :
  (passed_over ev ex w ∧ notify_watcher am ev msg ex w db = (db, Ok tt))
  ∨ (¬ passed_over ev ex w
     ∧ notify_watcher am ev msg ex w db = (db, Raise unexpected_keyword)).
Proof.
  unfold notify_watcher, passed_over.
  destruct (truthy_int ex && _) eqn:E1.
  { left. split; [| done]. left. by apply excluded_true. }
  destruct (String.eqb ev "comment" && _) eqn:E2.
  { left. split; [| done]. right. left. by apply muted_true. }
  destruct (String.eqb ev "status_change" && _) eqn:E3.
  { left. split; [| done]. right. right. left. by apply muted_true. }
  destruct (String.eqb ev "mention" && _) eqn:E4.
  { left. split; [| done]. do 3 right. by apply muted_true. }
  right. split; [| done].
  intros [H | [H | [H | H]]].
  - apply excluded_true in H. congruence.
  - apply muted_true in H. congruence.
  - apply muted_true in H. congruence.
  - apply muted_true in H. congruence.
Qed.

Lemma notify_loop_spec
    (am : Z) (ev msg : string) (ex : option Z)
    (l : list AmendmentWatcher.t) (db : DB) :
  (Forall (passed_over ev ex) l
   ∧ for_each l (notify_watcher am ev msg ex) db = (db, Ok tt))
  ∨ (¬ Forall (passed_over ev ex) l
     ∧ for_each l (notify_watcher am ev msg ex) db
       = (db, Raise unexpected_keyword)).
Proof.
  induction l as [|w l IH]; [by left |].
  simpl. unfold bind.
  destruct (notify_watcher_spec am ev msg ex w db) as [[Hw ->] | [Hw ->]].
  - destruct IH as [[Hl ->] | [Hl ->]].
    + left. split; [by constructor | done].
    + right. split; [| done]. by intros [_ ?]%Forall_cons.
  - right. split; [| done]. by intros [? _]%Forall_cons.
Qed.

(** X21. [notify_watchers] returns normally exactly when there is nobody to
    notify: every active watcher of the amendment is the acting employee or
    has the notifications of that kind of event switched off (an acting
    employee numbered 0 is never taken out). As soon as one watcher is to be
    notified it raises [TypeError]; in both cases the store is left as it
    was. *)
Theorem notify_watchers_returns_iff_nobody
    (db : DB) (am : Z) (ev msg : string) (ex : option Z) :
  fst (notify_watchers am ev msg ex db) = db
  ∧ (snd (notify_watchers am ev msg ex db) = Ok tt
     ↔ ∀ w, w ∈ amendment_watchers db →
            AmendmentWatcher.amendment_id w = am →
            AmendmentWatcher.is_watching w = Some true →
            passed_over ev ex w)
  ∧ (snd (notify_watchers am ev msg ex db) = Ok tt
     ∨ snd (notify_watchers am ev msg ex db) = Raise unexpected_keyword).
Proof.
  unfold notify_watchers, bind, get_watchers, query.
  set (l := List.filter (active_watcher_of am) (amendment_watchers db)).
  assert (Hall : Forall (passed_over ev ex) l
                 ↔ ∀ w, w ∈ amendment_watchers db →
                        AmendmentWatcher.amendment_id w = am →
                        AmendmentWatcher.is_watching w = Some true →
                        passed_over ev ex w).
  { rewrite Forall_forall. unfold l. split.
    - intros H w Hin Ha Hw. apply H, list_elem_of_In, List.filter_In.
      split; [by apply list_elem_of_In | by apply active_watcher_of_true].
    - intros H w [Hin Hact]%list_elem_of_In%List.filter_In.
      apply active_watcher_of_true in Hact as [Ha Hw].
      by apply H; [apply list_elem_of_In | |]. }
  rewrite <- Hall.
  destruct (notify_loop_spec am ev msg ex l db) as [[Hl ->] | [Hl ->]]; simpl.
  - split_and!; [done | done | by left].
  - split_and!; [done | split; [done | by intros ?] | by right].
Qed.

(** X22. The list of watched amendments that an employee asks for holds an
    amendment exactly when [is_watching] answers true for it; asking for
    the list of someone else answers 403. *)
Theorem watched_amendments_are_the_watched
    (db : DB) (current_user : Employee.t) (am : Z) :
  (∃ l, get_user_watched_amendments_endpoint
          (Employee.employee_id current_user) current_user db = (db, Ok l)
        ∧ (am ∈ l
           ↔ is_watching am (Employee.employee_id current_user) db
             = (db, Ok true)))
  ∧ (∀ other, other ≠ Employee.employee_id current_user →
       get_user_watched_amendments_endpoint other current_user db
       = (db, Raise (HTTPException 403 "Not authorized"))).
Proof.
  unfold get_user_watched_amendments_endpoint. split.
  - rewrite bool_decide_eq_false_2 by (by intros ?).
    eexists. split; [reflexivity |].
    rewrite is_watching_true. unfold watching. split.
    + intros (w & Ham & Hin)%list_elem_of_fmap.
      apply list_elem_of_In, List.filter_In in Hin as [Hin [He Hw]%andb_prop].
      exists w. apply Z.eqb_eq in He.
      split_and!; [by apply list_elem_of_In | unfold watcher_pair; congruence |].
      by destruct (AmendmentWatcher.is_watching w) as [[]|].
    + intros (w & Hin & [= Ha He] & Hw). apply list_elem_of_fmap.
      exists w. split; [done |]. apply list_elem_of_In, List.filter_In.
      split; [by apply list_elem_of_In |].
      rewrite He, Hw, Z.eqb_refl. done.
  - intros other Hne. by rewrite bool_decide_eq_true_2.
Qed.

(** ** The reaction ledger: counts, removal and what is left alone *)



Lemma delete_row_middle {A : Type} (key : A → Z) (x : A) (l1 l2 : list A) :
  NoDup (map key (l1 ++ x :: l2)) →
  delete_row key x (l1 ++ x :: l2) = l1 ++ l2.
Proof.
  rewrite map_app. simpl.
  intros (Hl1 & Hdis & [Hx Hl2]%NoDup_cons)%NoDup_app.
  unfold delete_row. rewrite filter_app, filter_cons_False by (by intros ?).
  assert (E1 : delete_row key x l1 = l1).
  { apply delete_row_fresh. intros r Hr Hk.
    apply (Hdis (key x)); [rewrite <- Hk; by apply list_elem_of_fmap_2 | by left]. }
  assert (E2 : delete_row key x l2 = l2).
  { apply delete_row_fresh. intros r Hr Hk. apply Hx. rewrite <- Hk.
    by apply list_elem_of_fmap_2. }
  unfold delete_row in E1, E2. by rewrite E1, E2.
Qed.

Lemma reaction_of_triple (c e : Z) (em : string) (r : CommentReaction.t) :
  reaction_of c e em r = true ↔ reaction_triple r = (c, e, em).
Proof.
  unfold reaction_of, reaction_triple.
  rewrite !andb_true_iff, !Z.eqb_eq, String.eqb_eq.
  split; [by intros [[-> ->] ->] | by intros [= -> -> ->]].
Qed.

Lemma reactions_set (f : list CommentReaction.t → list CommentReaction.t) (db : DB) :
  comment_reactions (set_comment_reactions f db) = f (comment_reactions db).
Proof. reflexivity. Qed.

Lemma filter_triple_nil (c e : Z) (em : string) (l : list CommentReaction.t) :
  (c, e, em) ∉ map reaction_triple l → List.filter (reaction_of c e em) l = [].
Proof.
  induction l as [|y l IH]; simpl; [done |].
  intros [Hy Hl]%not_elem_of_cons.
  destruct (reaction_of c e em y) eqn:E; [| by apply IH].
  apply reaction_of_triple in E. congruence.
Qed.

(** X24. On a ledger that satisfies its primary key and its unique
    constraint, [toggle_reaction] on a triple that has a row returns no row
    and deletes that row and no other: the rows around it stay in place, the
    triple has no row left, the constraints still hold, and the summary of
    the comment counts one less for the emoji. *)
Theorem toggle_reaction_removes_existing
    (db : DB) (c e : Z) (em : string) (x : CommentReaction.t) :
  reactions_wf db →
  first (reaction_of c e em) (comment_reactions db) = Some x →
  ∃ (db1 : DB) (l1 l2 : list CommentReaction.t),
    toggle_reaction c e em db = (db1, Ok None)
    ∧ comment_reactions db = l1 ++ x :: l2
    ∧ comment_reactions db1 = l1 ++ l2
    ∧ reaction_rows c e em db1 = []
    ∧ reactions_wf db1
    ∧ emoji_count em (reactions_of_comment c db1)
      = emoji_count em (reactions_of_comment c db) - 1.
Proof.
  intros [Hid Htr] Hq.
  destruct (first_split _ _ _ Hq) as (l1 & l2 & Hrs & Hp & Hl1).
  apply reaction_of_triple in Hp as Ht.
  set (db1 := set_comment_reactions
                (delete_row CommentReaction.reaction_id x) db).
  assert (Hrs1 : comment_reactions db1 = l1 ++ l2).
  { unfold db1. rewrite reactions_set, Hrs. apply delete_row_middle.
    by rewrite <- Hrs. }
  exists db1, l1, l2. rewrite (toggle_reaction_present db c e em x Hq).
  split_and!; try done.
  - unfold reaction_rows. rewrite Hrs1, List.filter_app, Hl1. simpl.
    apply filter_triple_nil. rewrite Hrs, map_app in Htr. simpl in Htr.
    apply NoDup_app in Htr as (_ & _ & [Hx _]%NoDup_cons). by rewrite <- Ht.
  - unfold reactions_wf. rewrite Hrs1. rewrite Hrs in Hid, Htr.
    rewrite !map_app in *. simpl in *.
    split.
    + apply NoDup_app in Hid as (H1 & H2 & [_ H3]%NoDup_cons).
      apply NoDup_app. split_and!; [done | | done].
      intros k Hk1 Hk2. apply (H2 k Hk1). by right.
    + apply NoDup_app in Htr as (H1 & H2 & [_ H3]%NoDup_cons).
      apply NoDup_app. split_and!; [done | | done].
      intros k Hk1 Hk2. apply (H2 k Hk1). by right.
  - unfold reactions_of_comment, emoji_count. rewrite Hrs1, Hrs.
    rewrite !List.filter_app. simpl.
    injection Ht as Hc He Hem. rewrite Hc, Z.eqb_refl. simpl.
    rewrite Hem, String.eqb_refl. rewrite !List.length_app. simpl. lia.
Qed.

Lemma toggle_reaction_removes_existing_witness :
  ∃ (db1 : DB) (l1 l2 : list CommentReaction.t),
    toggle_reaction 5 2 "+1" reacted_db = (db1, Ok None)
    ∧ comment_reactions reacted_db = l1 ++ CommentReaction.mk 1 5 2 "+1" :: l2
    ∧ comment_reactions db1 = l1 ++ l2
    ∧ reaction_rows 5 2 "+1" db1 = []
    ∧ reactions_wf db1
    ∧ emoji_count "+1" (reactions_of_comment 5 db1)
      = emoji_count "+1" (reactions_of_comment 5 reacted_db) - 1.
Proof.
  apply (toggle_reaction_removes_existing reacted_db 5 2 "+1"
           (CommentReaction.mk 1 5 2 "+1")).
  - split; apply (bool_decide_unpack _); vm_compute; exact I.
  - reflexivity.
Defined.


(** X26. On a ledger that satisfies its primary key, [toggle_reaction]
    touches the row of its own triple and nothing else: every row of another
    comment, another employee or another emoji is in the ledger afterwards
    exactly when it was there before, the reactions read for any other
    comment and their summary are unchanged, and so is every other table. *)
Theorem toggle_reaction_frame (db : DB) (c e : Z) (em : string) :
  NoDup (map CommentReaction.reaction_id (comment_reactions db)) →
  let db1 := fst (toggle_reaction c e em db) in
  (∀ r, reaction_triple r ≠ (c, e, em) →
        r ∈ comment_reactions db1 ↔ r ∈ comment_reactions db)
  ∧ (∀ c', c' ≠ c →
       snd (get_reactions_for_comment c' db1)
       = snd (get_reactions_for_comment c' db)
       ∧ snd (get_reaction_summary c' db1) = snd (get_reaction_summary c' db))
  ∧ amendments db1 = amendments db
  ∧ employees db1 = employees db
  ∧ qa_history db1 = qa_history db
  ∧ qa_notifications db1 = qa_notifications db
  ∧ qa_comments db1 = qa_comments db
  ∧ comment_mentions db1 = comment_mentions db
  ∧ amendment_watchers db1 = amendment_watchers db.
Proof.
  intros Hid db1.
  assert (Hsum : ∀ c', reactions_of_comment c' db1 = reactions_of_comment c' db →
            snd (get_reactions_for_comment c' db1)
            = snd (get_reactions_for_comment c' db)
            ∧ snd (get_reaction_summary c' db1)
              = snd (get_reaction_summary c' db)).
  { intros c' H.
    unfold get_reaction_summary, bind, get_reactions_for_comment, query, ret.
    simpl. unfold reactions_of_comment in H. by rewrite H. }
  destruct (first (reaction_of c e em) (comment_reactions db)) as [x|] eqn:Hq.
  - destruct (first_split _ _ _ Hq) as (l1 & l2 & Hrs & Hp & Hl1).
    apply reaction_of_triple in Hp as Ht.
    assert (Hrs1 : comment_reactions db1 = l1 ++ l2).
    { unfold db1. rewrite (toggle_reaction_present db c e em x Hq). simpl.
      rewrite Hrs. apply delete_row_middle. by rewrite <- Hrs. }
    assert (Hrest : db1 = set_comment_reactions
                            (delete_row CommentReaction.reaction_id x) db).
    { unfold db1. by rewrite (toggle_reaction_present db c e em x Hq). }
    split_and!; try (by rewrite Hrest).
    + intros r Hr. rewrite Hrs1, Hrs, !elem_of_app, elem_of_cons.
      split; [intros [? | ?]; auto |]. intros [? | [-> | ?]]; auto. congruence.
    + intros c' Hne. apply Hsum. unfold reactions_of_comment.
      rewrite Hrs1, Hrs, !List.filter_app. simpl.
      injection Ht as Hc _ _. rewrite Hc.
      by rewrite (proj2 (Z.eqb_neq c c')) by done.
  - pose proof (toggle_reaction_absent db c e em Hq) as Ht. simpl in Ht.
    set (row := CommentReaction.mk
                  (next_id "comment_reactions" CommentReaction.reaction_id
                           (comment_reactions db) db) c e em) in *.
    assert (Hrest : db1 = inserted "comment_reactions"
                            (CommentReaction.reaction_id row)
                            (set_comment_reactions (add_row row)) db).
    { unfold db1. by rewrite Ht. }
    assert (Hrs1 : comment_reactions db1 = comment_reactions db ++ [row]).
    { by rewrite Hrest. }
    split_and!; try (by rewrite Hrest).
    + intros r Hr. rewrite Hrs1, elem_of_app, list_elem_of_singleton.
      split; [intros [? | ->]; [done | by destruct Hr] | auto].
    + intros c' Hne. apply Hsum. unfold reactions_of_comment.
      rewrite Hrs1, List.filter_app. simpl.
      rewrite (proj2 (Z.eqb_neq c c')) by done. by rewrite app_nil_r.
Qed.

Lemma toggle_reaction_frame_witness :
  let db1 := fst (toggle_reaction 5 1 "+1" reacted_db) in
  CommentReaction.mk 1 5 2 "+1" ∈ comment_reactions db1
  ∧ snd (get_reaction_summary 6 db1) = snd (get_reaction_summary 6 reacted_db).
Proof.
  assert (Hid : NoDup (map CommentReaction.reaction_id
                           (comment_reactions reacted_db))).
  { apply (bool_decide_unpack _). vm_compute. exact I. }
  destruct (toggle_reaction_frame reacted_db 5 1 "+1" Hid) as (Hin & Hs & _).
  split.
  - apply (Hin (CommentReaction.mk 1 5 2 "+1")).
    + intros H. discriminate H.
    + left.
  - apply (Hs 6). intros H. discriminate H.
Defined.

(** ** Mentions and the comment with its followers *)

Lemma findall_from_no_at (s : string) (skip : nat) :
  no_at s = true → findall_from skip s = [].
Proof.
  revert skip. induction s as [|c s IH]; intros skip; [done |].
  simpl. intros [Hc Hs]%andb_prop. apply negb_true_iff in Hc.
  destruct skip; [rewrite Hc |]; by apply IH.
Qed.

(** An ASCII word character is one byte and belongs to the class [\w]. *)
Lemma is_word_char (d : ascii) (r : string) :
  is_word d = true → first_char d r = (code d, 1%nat) ∧ word_char (code d) = true.
Proof.
  unfold is_word, word_char. cbv zeta. intros Hd. split.
  - apply first_char_ascii.
    rewrite !orb_true_iff, !andb_true_iff, !Z.leb_le, Z.eqb_eq in Hd. lia.
  - by rewrite Hd.
Qed.

Lemma match_group_word (d : ascii) (r : string) :
  is_word d = true → match_group (String d r) ≠ None.
Proof.
  intros [Hc Hw]%(is_word_char d r). unfold match_group, span_word.
  cbn [span_word_from]. rewrite Hc, Hw.
  by destruct (span_word_from (pred 1) r).
Qed.

Lemma findall_from_at_word (s : string) :
  at_word s = true → findall_from O s ≠ [].
Proof.
  induction s as [|c s IH]; [done |].
  destruct s as [|d r]; [done |].
  change (at_word (String c (String d r)))
    with ((Ascii.eqb c at_sign && is_word d) || at_word (String d r)).
  change (findall_from O (String c (String d r)))
    with (if Ascii.eqb c at_sign
          then match match_group (String d r) with
               | Some g => g :: findall_from (String.length g) (String d r)
               | None => findall_from O (String d r)
               end
          else findall_from O (String d r)).
  intros [[Hc Hd]%andb_prop | Hrest]%orb_prop.
  - rewrite Hc. pose proof (match_group_word d r Hd).
    by destruct (match_group (String d r)).
  - destruct (Ascii.eqb c at_sign); [| by apply IH].
    destruct (match_group (String d r)); [done | by apply IH].
Qed.

(** X27. [parse_mentions] answers the empty list for a text without an
    at-sign, and raises [AttributeError] for every text in which an at-sign is
    directly followed by a letter, a digit or an underscore, an e-mail address
    for instance, whatever the employees stored. *)
Theorem parse_mentions_by_at_sign (text : string) (db : DB) :
  (no_at text = true → parse_mentions text db = Ok [])
  ∧ (at_word text = true → parse_mentions text db = Raise no_username).
Proof.
  rewrite parse_mentions_cases. unfold findall_mentions. split.
  - intros H. by rewrite findall_from_no_at.
  - intros H%findall_from_at_word. by destruct (findall_from 0 text).
Qed.

Lemma parse_mentions_by_at_sign_witness :
  parse_mentions "looks good to me" staff_db = Ok []
  ∧ parse_mentions "send the log to qa@example.com" staff_db
    = Raise no_username.
Proof.
  destruct (parse_mentions_by_at_sign "looks good to me" staff_db) as [H _].
  destruct (parse_mentions_by_at_sign "send the log to qa@example.com" staff_db)
    as [_ H'].
  split; [apply H | apply H']; reflexivity.
Defined.

Lemma put_row_in {A : Type} (key : A → Z) (row x : A) (l : list A) :
  x ∈ l → key x = key row → row ∈ put_row key row l.
Proof.
  intros Hin Hk. unfold put_row. apply list_elem_of_fmap.
  exists x. split; [| done]. by rewrite Hk, Z.eqb_refl.
Qed.

(** [add_watcher] always returns a row and leaves the employee watching; it
    writes to the watcher table only. *)
Lemma add_watcher_result (db : DB) (am emp : Z) (reason : string) :
  ∃ (w : AmendmentWatcher.t) (db1 : DB),
    add_watcher am emp reason db = (db1, Ok w)
    ∧ watching am emp db1
    ∧ same_but_watchers db db1.
Proof.
  destruct (first (watcher_of am emp) (amendment_watchers db)) as [w0|] eqn:Hq.
  - pose proof (find_some _ _ Hq) as [Hin Hp].
    apply list_elem_of_In in Hin. apply watcher_of_pair in Hp.
    destruct (decide (AmendmentWatcher.is_watching w0 = Some true)) as [Hon | Hoff].
    + exists w0, db. rewrite (add_watcher_active db am emp reason w0 Hq Hon).
      split_and!; [done | by exists w0 | by repeat split].
    + eexists _, _. rewrite (add_watcher_muted db am emp reason w0 Hq Hoff).
      split_and!; [done | | by repeat split].
      exists (set_is_watching true w0). split_and!; [| done | done].
      rewrite watchers_set. by apply (put_row_in _ _ w0).
  - pose proof (add_watcher_new db am emp reason Hq) as Hadd. simpl in Hadd.
    set (w := AmendmentWatcher.mk
                (next_id "amendment_watchers" AmendmentWatcher.watcher_id
                         (amendment_watchers db) db)
                am emp (Some reason) (Some true) (Some true) (Some true)
                (Some true)) in *.
    eexists _, _. rewrite Hadd. split_and!; [done | | by repeat split].
    exists w. split_and!; [| done | done].
    change (amendment_watchers (inserted _ _ _ db))
      with (amendment_watchers db ++ [w]).
    apply elem_of_app. right. by left.
Qed.

(** On a table that satisfies its constraints, [add_watcher] keeps them and
    nobody stops watching. *)
Lemma add_watcher_keeps (db : DB) (am emp : Z) (reason : string) :
  watchers_wf db →
  watchers_wf (fst (add_watcher am emp reason db))
  ∧ ∀ am' emp', watching am' emp' db →
                watching am' emp' (fst (add_watcher am emp reason db)).
Proof.
  intros Hwf.
  destruct (add_watcher_result db am emp reason) as (w & db1 & Hadd & Hw & _).
  assert (Hmono : ∀ db',
            (∀ am' emp', (am', emp') ≠ (am, emp) →
                         watching am' emp' db' ↔ watching am' emp' db) →
            watching am emp db' →
            ∀ am' emp', watching am' emp' db → watching am' emp' db').
  { intros db' Hother Hself am' emp' H.
    destruct (decide ((am', emp') = (am, emp))) as [[= -> ->] | Hne]; [done |].
    by apply Hother. }
  destruct (first (watcher_of am emp) (amendment_watchers db)) as [w0|] eqn:Hq.
  - destruct (first_split _ _ _ Hq) as (l1 & l2 & Hws & Hp & Hl1).
    pose proof (proj1 (watcher_of_pair _ _ _) Hp) as Hpair.
    destruct (decide (AmendmentWatcher.is_watching w0 = Some true)) as [Hon | Hoff].
    + by rewrite (add_watcher_active db am emp reason w0 Hq Hon).
    + rewrite Hadd in *.
      rewrite (add_watcher_muted db am emp reason w0 Hq Hoff) in Hadd.
      injection Hadd as <- <-. simpl.
      destruct (watchers_wf_put db w0 (set_is_watching true w0) l1 l2
                  Hws Hwf eq_refl eq_refl) as [Hws1 Hwf1].
      split; [done |]. apply Hmono; [| done].
      intros am' emp' Hne.
      by apply (watching_replaced am emp l1 l2 w0 (set_is_watching true w0)).
  - pose proof (proj1 (first_nil_filter _ _) Hq) as Habs.
    rewrite Hadd in *.
    pose proof (add_watcher_new db am emp reason Hq) as Hnew. simpl in Hnew.
    set (w1 := AmendmentWatcher.mk
                 (next_id "amendment_watchers" AmendmentWatcher.watcher_id
                          (amendment_watchers db) db)
                 am emp (Some reason) (Some true) (Some true) (Some true)
                 (Some true)) in *.
    rewrite Hnew in Hadd. injection Hadd as <- <-. simpl.
    split; [by apply (watchers_wf_add db am emp w1) |].
    apply Hmono; [| done]. intros am' emp' Hne.
    by apply (watching_added db _ w1 am emp).
Qed.

Lemma active_watchers_forall
    (P : AmendmentWatcher.t → Prop) (db : DB) (am : Z) :
  Forall P (List.filter (active_watcher_of am) (amendment_watchers db))
  ↔ ∀ w, w ∈ amendment_watchers db →
         AmendmentWatcher.amendment_id w = am →
         AmendmentWatcher.is_watching w = Some true → P w.
Proof.
  rewrite Forall_forall. split.
  - intros H w Hin Ha Hw. apply H, list_elem_of_In, List.filter_In.
    split; [by apply list_elem_of_In | by apply active_watcher_of_true].
  - intros H w [Hin Hact]%list_elem_of_In%List.filter_In.
    apply active_watcher_of_true in Hact as [Ha Hw].
    by apply H; [apply list_elem_of_In | |].
Qed.

(** X28. A comment whose text holds no mention is always stored, at the end
    of the comment table and with a new key, no mention row is written, and
    its author is watching the amendment afterwards. The call returns the
    comment exactly when the author is not a stored employee or no other
    watcher of the amendment is to be told about comments; as soon as one is,
    it raises [TypeError], the comment and the subscription of the author
    being already committed. *)
Theorem comment_without_mention_is_stored
    (db : DB) (am emp : Z) (text ty : string) (parent : option Z) :
  findall_mentions text = [] →
  let comment :=
    QAComment.mk (next_id "qa_comments" QAComment.comment_id (qa_comments db) db)
                 am emp parent text ty (Some false) in
  let out := create_qa_comment_enhanced am emp text ty parent db in
  qa_comments (fst out) = qa_comments db ++ [comment]
  ∧ (QAComment.comment_id comment ∉ map QAComment.comment_id (qa_comments db))
  ∧ comment_mentions (fst out) = comment_mentions db
  ∧ is_watching am emp (fst out) = (fst out, Ok true)
  ∧ (snd out = Ok comment ∨ snd out = Raise unexpected_keyword)
  ∧ (snd out = Ok comment
     ↔ first (fun e => Employee.employee_id e =? emp) (employees db) = None
       ∨ ∀ w, w ∈ amendment_watchers (fst out) →
              AmendmentWatcher.amendment_id w = am →
              AmendmentWatcher.is_watching w = Some true →
              passed_over "comment" (Some emp) w).
Proof.
  intros Hno comment out.
  set (db1 := inserted "qa_comments" (QAComment.comment_id comment)
                       (set_qa_comments (add_row comment)) db).
  destruct (add_watcher_result db1 am emp "Participated")
    as (w & db2 & Hadd & Hw & Hsame).
  destruct Hsame as (_ & He & _ & _ & Hc & Hm & _).
  assert (Hout : out
                 = match first (fun e => Employee.employee_id e =? emp)
                               (employees db) with
                   | Some employee =>
                       (db2,
                        match snd (for_each
                                     (List.filter (active_watcher_of am)
                                                  (amendment_watchers db2))
                                     (notify_watcher am "comment"
                                        (Employee.employee_name employee
                                         +:+ " commented: "
                                         +:+ str_take 100 text)
                                        (Some emp)) db2) with
                        | Ok _ => Ok comment
                        | Raise e => Raise e
                        end)
                   | None => (db2, Ok comment)
                   end).
  { unfold out, create_qa_comment_enhanced, bind, query, commit, lift.
    generalize (str_take 100 text). intros cut.
    rewrite parse_mentions_cases, Hno. simpl.
    change (inserted "qa_comments" _ _ db) with db1.
    rewrite Hadd. simpl. rewrite <- He.
    change (employees db1) with (employees db).
    destruct (first _ (employees db)) as [employee|]; [| done].
    unfold notify_watchers, bind, get_watchers, query. cbv beta iota.
    destruct (notify_loop_spec am "comment"
                (Employee.employee_name employee +:+ " commented: " +:+ cut)
                (Some emp)
                (List.filter (active_watcher_of am) (amendment_watchers db2))
                db2) as [[_ ->] | [_ ->]]; done. }
  assert (Hdb : fst out = db2).
  { rewrite Hout. by destruct (first _ (employees db)). }
  rewrite Hdb. split_and!.
  - by rewrite <- Hc.
  - apply next_id_fresh.
  - by rewrite <- Hm.
  - by apply is_watching_true.
  - rewrite Hout. destruct (first _ (employees db)) as [employee|]; [| by left].
    cbn [snd].
    destruct (notify_loop_spec am "comment"
                (Employee.employee_name employee +:+ " commented: "
                 +:+ str_take 100 text)
                (Some emp)
                (List.filter (active_watcher_of am) (amendment_watchers db2))
                db2) as [[_ ->] | [_ ->]]; [by left | by right].
  - rewrite <- active_watchers_forall. rewrite Hout.
    destruct (first _ (employees db)) as [employee|]; [| by split; [left |]].
    cbn [snd].
    destruct (notify_loop_spec am "comment"
                (Employee.employee_name employee +:+ " commented: "
                 +:+ str_take 100 text)
                (Some emp)
                (List.filter (active_watcher_of am) (amendment_watchers db2))
                db2) as [[Hall ->] | [Hall ->]]; cbn [snd].
    + split; [by right | done].
    + split; [done |]. by intros [? | ?].
Qed.

Lemma comment_without_mention_is_stored_witness :
  let out := create_qa_comment_enhanced 10 2 "ship it @ 5pm" "General" None
                                        commented_db in
  findall_mentions "ship it @ 5pm" = []
  ∧ length (qa_comments (fst out)) = 2%nat
  ∧ is_watching 10 2 (fst out) = (fst out, Ok true)
  ∧ snd out = Raise unexpected_keyword
  ∧ findall_mentions "merci @émile" = ["émile"]
  ∧ snd (create_qa_comment_enhanced 10 2 "merci @émile" "General" None
                                    commented_db)
    = Raise no_username.
Proof.
  destruct (comment_without_mention_is_stored commented_db 10 2
              "ship it @ 5pm" "General" None eq_refl)
    as (Hc & _ & _ & Hw & _ & _).
  split_and!; [reflexivity | by rewrite Hc | exact Hw | reflexivity
              | reflexivity | reflexivity].
Defined.

Lemma add_mentions_rows (c : Z) (ids : list Z) (by_id : Z) (db : DB) :
  ∃ (rows : list CommentMention.t) (db1 : DB),
    add_mentions c ids by_id db = (db1, Ok rows)
    ∧ comment_mentions db1 = comment_mentions db ++ rows
    ∧ map CommentMention.mentioned_employee_id rows = ids
    ∧ Forall (fun m => CommentMention.comment_id m = c
                       ∧ CommentMention.mentioned_by_employee_id m = by_id
                       ∧ CommentMention.is_notified m = Some false) rows
    ∧ amendment_watchers db1 = amendment_watchers db
    ∧ qa_comments db1 = qa_comments db.
Proof.
  revert db. induction ids as [|e ids IH]; intros db.
  - exists [], db. split_and!; try done. by rewrite app_nil_r.
  - simpl. unfold bind, query, commit. simpl.
    set (m := CommentMention.mk
                (next_id "comment_mentions" CommentMention.mention_id
                         (comment_mentions db) db)
                c e by_id (Some false)).
    set (db0 := inserted "comment_mentions" (CommentMention.mention_id m)
                         (set_comment_mentions (add_row m)) db).
    change (inserted "comment_mentions" _ _ db) with db0.
    destruct (IH db0) as (rows & db1 & Hrun & Hm & Hids & Hall & Hw & Hc).
    exists (m :: rows), db1. rewrite Hrun. simpl.
    split_and!; try done.
    + rewrite Hm. change (comment_mentions db0) with (comment_mentions db ++ [m]).
      by rewrite <- app_assoc.
    + by rewrite Hids.
    + by constructor.
Qed.

Lemma for_each_cons {A : Type} (x : A) (l : list A) (body : A → M unit) (db : DB) :
  for_each (x :: l) body db
  = let (db', r) := body x db in
    match r with
    | Ok _ => for_each l body db'
    | Raise e => (db', Raise e)
    end.
Proof. reflexivity. Qed.

Lemma bind_ok {A B : Type} (m : M A) (k : A → M B) (db db' : DB) (a : A) :
  m db = (db', Ok a) → (x <- m ;; k x) db = k a db'.
Proof. intros H. unfold bind. by rewrite H. Qed.

Lemma watch_all (am : Z) (reason : string) (ids : list Z) (db : DB) :
  watchers_wf db →
  ∃ db1,
    for_each ids (fun e => add_watcher am e reason ;; ret tt) db = (db1, Ok tt)
    ∧ watchers_wf db1
    ∧ (∀ e, e ∈ ids → watching am e db1)
    ∧ (∀ am' e', watching am' e' db → watching am' e' db1)
    ∧ same_but_watchers db db1.
Proof.
  revert db. induction ids as [|e ids IH]; intros db Hwf.
  - exists db. split_and!; try done.
    intros e H. by apply elem_of_nil in H.
  - destruct (add_watcher_result db am e reason) as (w & db0 & Hadd & Hw & Hs0).
    destruct (add_watcher_keeps db am e reason Hwf) as [Hwf0 Hmono0].
    rewrite Hadd in Hwf0, Hmono0. simpl in Hwf0, Hmono0.
    assert (Hbody : (add_watcher am e reason ;; ret tt) db = (db0, Ok tt)).
    { unfold bind. by rewrite Hadd. }
    destruct (IH db0 Hwf0) as (db1 & Hrun & Hwf1 & Hall & Hmono & Hs1).
    exists db1. rewrite for_each_cons, Hbody.
    split_and!; try done.
    + intros e' [-> | Hin]%elem_of_cons; [by apply Hmono | by apply Hall].
    + intros am' e' H. by apply Hmono, Hmono0.
    + destruct Hs0 as (?&?&?&?&?&?&?), Hs1 as (?&?&?&?&?&?&?).
      repeat split; congruence.
Qed.

(** X29. [create_comment_mentions] writes one mention row per entry of the
    list it is given, in the order of the list and repeated entries included,
    each for the comment and the mentioning employee and not yet notified.
    When the comment is stored and the watcher table satisfies its
    constraints, every listed employee is watching the amendment of the
    comment afterwards, whoever watched something still does, and the
    constraints hold; when the comment is not stored, the rows are written
    all the same and the watcher table is not touched. *)
Theorem create_comment_mentions_rows
    (db : DB) (c : Z) (ids : list Z) (by_id : Z) :
  watchers_wf db →
  ∃ (rows : list CommentMention.t) (db1 : DB),
    create_comment_mentions c ids by_id db = (db1, Ok rows)
    ∧ comment_mentions db1 = comment_mentions db ++ rows
    ∧ map CommentMention.mentioned_employee_id rows = ids
    ∧ Forall (fun m => CommentMention.comment_id m = c
                       ∧ CommentMention.mentioned_by_employee_id m = by_id
                       ∧ CommentMention.is_notified m = Some false) rows
    ∧ (∀ comment,
         first (fun cm => QAComment.comment_id cm =? c) (qa_comments db)
         = Some comment →
         (∀ e, e ∈ ids → watching (QAComment.amendment_id comment) e db1)
         ∧ (∀ am e, watching am e db → watching am e db1)
         ∧ watchers_wf db1)
    ∧ (first (fun cm => QAComment.comment_id cm =? c) (qa_comments db) = None →
       amendment_watchers db1 = amendment_watchers db).
Proof.
  intros Hwf. unfold create_comment_mentions.
  destruct (add_mentions_rows c ids by_id db)
    as (rows & db0 & Hrun & Hm & Hids & Hall & Hw & Hc).
  rewrite (bind_ok _ _ _ _ _ Hrun). cbv beta.
  rewrite (bind_ok (query _) _ db0 db0 _ eq_refl). cbv beta.
  rewrite Hc.
  assert (Hwf0 : watchers_wf db0) by (unfold watchers_wf; by rewrite Hw).
  destruct (first _ (qa_comments db)) as [comment|].
  - destruct (watch_all (QAComment.amendment_id comment) "Mentioned" ids db0 Hwf0)
      as (db1 & Hloop & Hwf1 & Hin & Hmono & Hs).
    exists rows, db1. rewrite (bind_ok _ _ _ _ _ Hloop).
    destruct Hs as (_ & _ & _ & _ & _ & Hm1 & _).
    split_and!; try done.
    + by rewrite <- Hm1.
    + intros ? [= <-]. split_and!; [done | | done].
      intros am e (w & Hw0 & Hp & Ha). apply Hmono. exists w.
      by rewrite Hw.
  - exists rows, db0. split_and!; done.
Qed.

Lemma create_comment_mentions_rows_witness :
  ∃ (rows : list CommentMention.t) (db1 : DB),
    create_comment_mentions 5 [1; 3] 2 commented_db = (db1, Ok rows)
    ∧ map CommentMention.mentioned_employee_id rows = [1; 3]
    ∧ watching 10 3 db1.
Proof.
  assert (Hwf : watchers_wf commented_db).
  { split; apply (bool_decide_unpack _); vm_compute; exact I. }
  destruct (create_comment_mentions_rows commented_db 5 [1; 3] 2 Hwf)
    as (rows & db1 & Hrun & _ & Hids & _ & Hsome & _).
  exists rows, db1. split_and!; [exact Hrun | exact Hids |].
  destruct (Hsome (QAComment.mk 5 10 2 None "ready for a look" "General"
                                (Some false)) eq_refl) as (Hin & _ & _).
  apply (Hin 3). right. left.
Defined.

Lemma watch_all_run (am : Z) (reason : string) (ids : list Z) (db : DB) :
  ∃ db1,
    for_each ids (fun e => add_watcher am e reason ;; ret tt) db = (db1, Ok tt)
    ∧ same_but_watchers db db1.
Proof.
  revert db. induction ids as [|e ids IH]; intros db.
  - exists db. split; [done | by repeat split].
  - destruct (add_watcher_result db am e reason) as (w & db0 & Hadd & _ & Hs0).
    assert (Hbody : (add_watcher am e reason ;; ret tt) db = (db0, Ok tt)).
    { unfold bind. by rewrite Hadd. }
    destruct (IH db0) as (db1 & Hrun & Hs1).
    exists db1. rewrite for_each_cons, Hbody. split; [done |].
    destruct Hs0 as (?&?&?&?&?&?&?), Hs1 as (?&?&?&?&?&?&?).
    repeat split; congruence.
Qed.

Lemma filter_all {A : Type} (p : A → bool) (l : list A) :
  Forall (fun x => p x = true) l → List.filter p l = l.
Proof.
  induction 1 as [|x l Hx _ IH]; simpl; [done |]. by rewrite Hx, IH.
Qed.

Lemma filter_none {A : Type} (p : A → bool) (l : list A) :
  Forall (fun x => p x = false) l → List.filter p l = [].
Proof.
  induction 1 as [|x l Hx _ IH]; simpl; [done |]. by rewrite Hx.
Qed.

(** X30. [create_comment_mentions] never fails, whatever the store and the
    list, and what it writes is read back: afterwards
    [get_mentions_for_comment] answers, for the comment, the mentions it
    answered before followed by the rows just returned, one per entry of the
    list, and for every other comment what it answered before. *)
Theorem mentions_read_back (db : DB) (c : Z) (ids : list Z) (by_id : Z) :
  ∃ (rows : list CommentMention.t) (db1 : DB),
    create_comment_mentions c ids by_id db = (db1, Ok rows)
    ∧ map CommentMention.mentioned_employee_id rows = ids
    ∧ (∃ before, get_mentions_for_comment c db = (db, Ok before)
                 ∧ get_mentions_for_comment c db1 = (db1, Ok (before ++ rows)))
    ∧ (∀ c', c' ≠ c →
         snd (get_mentions_for_comment c' db1)
         = snd (get_mentions_for_comment c' db)).
Proof.
  unfold create_comment_mentions.
  destruct (add_mentions_rows c ids by_id db)
    as (rows & db0 & Hrun & Hm & Hids & Hall & Hw & Hc).
  rewrite (bind_ok _ _ _ _ _ Hrun). cbv beta.
  rewrite (bind_ok (query _) _ db0 db0 _ eq_refl). cbv beta.
  assert (Hread : ∀ db1, comment_mentions db1 = comment_mentions db0 →
            (∃ before, get_mentions_for_comment c db = (db, Ok before)
               ∧ get_mentions_for_comment c db1 = (db1, Ok (before ++ rows)))
            ∧ (∀ c', c' ≠ c →
                 snd (get_mentions_for_comment c' db1)
                 = snd (get_mentions_for_comment c' db))).
  { intros db1 H1. unfold get_mentions_for_comment, query.
    rewrite H1, Hm. split.
    - eexists. split; [reflexivity |].
      rewrite List.filter_app. do 3 f_equal. apply filter_all.
      eapply Forall_impl; [exact Hall |].
      intros m (-> & _ & _). apply Z.eqb_refl.
    - intros c' Hne. simpl. rewrite List.filter_app. f_equal.
      rewrite (filter_none _ rows); [by rewrite app_nil_r |].
      eapply Forall_impl; [exact Hall |].
      intros m (-> & _ & _). by apply Z.eqb_neq. }
  destruct (first _ (qa_comments db0)) as [comment|].
  - destruct (watch_all_run (QAComment.amendment_id comment) "Mentioned" ids db0)
      as (db1 & Hloop & Hs).
    exists rows, db1. rewrite (bind_ok _ _ _ _ _ Hloop).
    destruct Hs as (_ & _ & _ & _ & _ & Hm1 & _).
    destruct (Hread db1 (eq_sym Hm1)) as [H1 H2]. by split_and!.
  - exists rows, db0. destruct (Hread db0 eq_refl) as [H1 H2]. by split_and!.
Qed.
